(** * collab-tasks: a shallow embedding of the task-tracker controllers

    The development follows the JavaScript sources:
    - [models/Task.js], [models/Team.js]: the schemas and their [pre('save')]
      hooks;
    - [controllers/taskController.js], [controllers/teamController.js],
      [controllers/authController.js], [controllers/commentController.js],
      [controllers/attachmentController.js]: the request handlers.

    A handler [exports.f = async (req, res) => ...] becomes a function from
    the database, the authenticated caller, the request parameters and the
    clock reading to a response and the database after the request. The
    fields of a request are kept as the texts they are wherever the handler
    compares them or hands them to the storage library, whose casts and
    checks are parameters of the development ([Store]). *)

From Stdlib Require Import ZArith Ascii String.
From stdpp Require Import base option list sorting gmap strings.

Local Open Scope string_scope.
Local Open Scope Z_scope.

(** ** JavaScript helpers *)

Module Js.

(** Truthiness of a string value: only the empty string is falsy. *)
Definition truthy (s : string) : bool :=
  match s with EmptyString => false | String _ _ => true end.

(** [if (x)] on a destructured field that may be absent. *)
Definition truthy_opt (o : option string) : bool :=
  match o with None => false | Some s => truthy s end.

(** The white space and line terminator characters of ECMAScript. A
    string of the model is the UTF-8 text of the JavaScript string, so
    each character is given by its bytes: U+0009 to U+000D, U+0020,
    U+00A0, U+1680, U+2000 to U+200A, U+2028, U+2029, U+202F, U+205F,
    U+3000 and U+FEFF. *)
Definition white_space : list (list N) :=
  [ [9]; [10]; [11]; [12]; [13]; [32];
    [0xC2; 0xA0];
    [0xE1; 0x9A; 0x80];
    [0xE2; 0x80; 0x80]; [0xE2; 0x80; 0x81]; [0xE2; 0x80; 0x82];
    [0xE2; 0x80; 0x83]; [0xE2; 0x80; 0x84]; [0xE2; 0x80; 0x85];
    [0xE2; 0x80; 0x86]; [0xE2; 0x80; 0x87]; [0xE2; 0x80; 0x88];
    [0xE2; 0x80; 0x89]; [0xE2; 0x80; 0x8A];
    [0xE2; 0x80; 0xA8]; [0xE2; 0x80; 0xA9]; [0xE2; 0x80; 0xAF];
    [0xE2; 0x81; 0x9F];
    [0xE3; 0x80; 0x80];
    [0xEF; 0xBB; 0xBF] ]%N.

(** [l] without the bytes [p] it starts with. *)
Fixpoint strip_prefix (p : list N) (l : list ascii) : option (list ascii) :=
  match p, l with
  | [], _ => Some l
  | c :: p, a :: l =>
      if (N_of_ascii a =? c)%N then strip_prefix p l else None
  | _ :: _, [] => None
  end.

(** [l] without the character of [codes] it starts with, if there is
    one. *)
Definition strip_space (codes : list (list N)) (l : list ascii)
  : option (list ascii) :=
  foldr (λ p rest,
           match strip_prefix p l with Some r => Some r | None => rest end)
        None codes.

Fixpoint trim_start_with (codes : list (list N)) (fuel : nat)
    (l : list ascii) : list ascii :=
  match fuel with
  | O => l
  | S fuel =>
      match strip_space codes l with
      | Some r => trim_start_with codes fuel r
      | None => l
      end
  end.

Definition trim_start (l : list ascii) : list ascii :=
  trim_start_with white_space (length l) l.

(** The end of the text is trimmed on the reversed bytes. *)
Definition trim_end (l : list ascii) : list ascii :=
  rev (trim_start_with ((λ p, rev p) <$> white_space) (length l) (rev l)).

(** [String.prototype.trim] *)
Definition trim (s : string) : string :=
  string_of_list_ascii (trim_end (trim_start (list_ascii_of_string s))).

(** [Math.ceil(a / b)] on integers, as it is serialised in a JSON body:
    a division by zero gives [Infinity] or [NaN], both written [null]. *)
Definition ceil_div (a b : Z) : option Z :=
  if b =? 0 then None else Some (- ((- a) / b)).

(** [Number.MAX_SAFE_INTEGER], and the integers that a JavaScript number
    holds exactly: [parseInt] and the arithmetic on its results are those
    of the integers as long as the values stay in this range. *)
Definition max_safe_integer : Z := 9007199254740991.

Definition safe_integer (z : Z) : Prop :=
  - max_safe_integer ≤ z ≤ max_safe_integer.

End Js.

(** ** Data model *)

(** The object ids that documents hold are numbers with decidable
    equality, and dates are milliseconds. A request names an id by a text
    (a route parameter, a field of the body or of the query): the
    handlers give that text to the storage library, which casts it, or
    compare it with the [toString()] of a stored id; see [Store]. *)
Abbreviation ObjectId := N (only parsing).
Abbreviation Date := Z (only parsing).

Inductive UserRole := RoleUser | RoleAdmin.
Inductive MemberRole := Owner | Admin | Member.
Inductive Status := Open | InProgress | Completed | Cancelled.
Inductive Priority := Low | Medium | High | Urgent.

#[global] Instance UserRole_eq_dec : EqDecision UserRole.
Proof. solve_decision. Defined.
#[global] Instance MemberRole_eq_dec : EqDecision MemberRole.
Proof. solve_decision. Defined.
#[global] Instance Status_eq_dec : EqDecision Status.
Proof. solve_decision. Defined.
#[global] Instance Priority_eq_dec : EqDecision Priority.
Proof. solve_decision. Defined.

(** The [enum] validators of the schemas. *)
Definition Status_to_string (s : Status) : string :=
  match s with
  | Open => "open" | InProgress => "in-progress"
  | Completed => "completed" | Cancelled => "cancelled"
  end.

Definition Status_of_string (s : string) : option Status :=
  if String.eqb s "open" then Some Open
  else if String.eqb s "in-progress" then Some InProgress
  else if String.eqb s "completed" then Some Completed
  else if String.eqb s "cancelled" then Some Cancelled
  else None.

Definition Priority_to_string (p : Priority) : string :=
  match p with
  | Low => "low" | Medium => "medium" | High => "high" | Urgent => "urgent"
  end.

Definition Priority_of_string (s : string) : option Priority :=
  if String.eqb s "low" then Some Low
  else if String.eqb s "medium" then Some Medium
  else if String.eqb s "high" then Some High
  else if String.eqb s "urgent" then Some Urgent
  else None.

Definition MemberRole_of_string (s : string) : option MemberRole :=
  if String.eqb s "owner" then Some Owner
  else if String.eqb s "admin" then Some Admin
  else if String.eqb s "member" then Some Member
  else None.

(** Modelled from the spec: [models/User.js] is not among the sources; the
    fields are those the controllers read and the data model lists. *)
Module User.
Record t := mk {
  name : string;
  email : string;
  password : string;
  role : UserRole;
  teams : list ObjectId
}.
End User.

(** [models/Task.js], [taskSchema]. *)
Module Task.
Record t := mk {
  title : string;
  description : option string;
  status : Status;
  priority : Priority;
  dueDate : option Date;
  createdBy : ObjectId;
  assignedTo : option ObjectId;
  team : option ObjectId;
  tags : list string;
  attachments : list ObjectId;
  comments : list ObjectId;
  createdAt : Date;
  updatedAt : Date;
  completedAt : option Date
}.

Definition set_updatedAt (d : Date) (x : t) : t :=
  mk (title x) (description x) (status x) (priority x) (dueDate x)
     (createdBy x) (assignedTo x) (team x) (tags x) (attachments x)
     (comments x) (createdAt x) d (completedAt x).

Definition set_status (s : Status) (x : t) : t :=
  mk (title x) (description x) s (priority x) (dueDate x)
     (createdBy x) (assignedTo x) (team x) (tags x) (attachments x)
     (comments x) (createdAt x) (updatedAt x) (completedAt x).

Definition set_completedAt (d : option Date) (x : t) : t :=
  mk (title x) (description x) (status x) (priority x) (dueDate x)
     (createdBy x) (assignedTo x) (team x) (tags x) (attachments x)
     (comments x) (createdAt x) (updatedAt x) d.
End Task.

(** [models/Team.js], the elements of [teamSchema.members]. *)
Module Member.
Record t := mk {
  user : ObjectId;
  role : MemberRole;
  joinedAt : Date
}.
End Member.

(** [models/Team.js], [teamSchema]. *)
Module Team.
Record t := mk {
  name : string;
  description : option string;
  owner : ObjectId;
  members : list Member.t;
  createdAt : Date
}.

Definition set_members (ms : list Member.t) (x : t) : t :=
  mk (name x) (description x) (owner x) ms (createdAt x).
End Team.

(** Modelled from the spec: [models/Comment.js] is not among the sources. *)
Module Comment.
Record t := mk {
  content : string;
  task : ObjectId;
  author : ObjectId;
  createdAt : Date;
  updatedAt : Date
}.
End Comment.

(** Modelled from the spec: [models/Attachment.js] is not among the
    sources. *)
Module Attachment.
Record t := mk {
  filename : string;
  originalName : string;
  mimetype : string;
  size : Z;
  path : string;
  task : ObjectId;
  uploadedBy : ObjectId;
  createdAt : Date
}.
End Attachment.

(** The collections of the document store, keyed by [_id], and the source
    of new object ids. *)
Module DB.
Record t := mk {
  users : gmap N User.t;
  teams : gmap N Team.t;
  tasks : gmap N Task.t;
  comments : gmap N Comment.t;
  attachments : gmap N Attachment.t;
  next_id : N
}.

Definition empty : t := mk ∅ ∅ ∅ ∅ ∅ 0%N.

Definition set_users (us : gmap N User.t) (db : t) : t :=
  mk us (teams db) (tasks db) (comments db) (attachments db) (next_id db).

Definition set_teams (ts : gmap N Team.t) (db : t) : t :=
  mk (users db) ts (tasks db) (comments db) (attachments db) (next_id db).

Definition set_tasks (ts : gmap N Task.t) (db : t) : t :=
  mk (users db) (teams db) ts (comments db) (attachments db) (next_id db).

(** A new document takes the next object id. *)
Definition alloc (db : t) : N * t :=
  (next_id db,
   mk (users db) (teams db) (tasks db) (comments db) (attachments db)
      (N.succ (next_id db))).
End DB.

(** [req.user], as the authentication middleware leaves it. *)
Module Caller.
Record t := mk { id : ObjectId; role : UserRole }.
End Caller.

(** [req.user.role !== 'admin'] *)
Definition not_admin (user : Caller.t) : bool :=
  negb (bool_decide (Caller.role user = RoleAdmin)).

(** ** Responses *)

(** What a [catch (error)] block receives from the libraries. *)
Inductive Exception :=
| ValidationError (path : string)
| CastError (path : string)
| EngineError (reason : string)
| TypeError (reason : string).

(** [res.status(code).json({ success: true, data })],
    [res.status(code).json({ success: false, message })] and the
    [catch] branch, [res.status(500).json({ success: false, message:
    error.message })]. *)
Inductive Response (A : Type) :=
| Ok (code : Z) (data : A)
| Fail (code : Z) (message : string)
| Thrown (e : Exception).
Arguments Ok {A} code data.
Arguments Fail {A} code message.
Arguments Thrown {A} e.

Definition http_status {A} (r : Response A) : Z :=
  match r with
  | Ok c _ => c
  | Fail c _ => c
  | Thrown _ => 500
  end.

Definition success {A} (r : Response A) : bool :=
  match r with Ok _ _ => true | _ => false end.

(** ** Collaborators outside the sources

    The text index of the storage engine ([$text] / [$search]), the
    password comparison of the user model ([user.comparePassword], its
    first argument the stored hash) and the token signature
    ([jwt.sign]) are parameters of the development. *)
Class External := {
  text_match : string → Task.t → bool;
  comparePassword : string → string → bool;
  generateToken : ObjectId → string
}.

(** ** The storage library

    What Mongoose and the storage engine do with the texts of a request
    is a parameter of the development as well:
    - [id_text] is [ObjectId.prototype.toString()], the canonical text of
      an id, and [id_cast] the cast of a text to an ObjectId, as
      [findById], [findByIdAndUpdate], the filter of a query and the schema
      paths of type ObjectId apply it; [None] is a cast error. The text of
      an id can be cast, the empty text cannot. A text that can be cast
      need not be the canonical text of the id it denotes;
    - [date_cast] is the cast of a text to a date: [None] is a cast error
      and [Some None] the value [null];
    - [sort_accepts] tells whether the engine accepts a path as the key of
      [.sort({ [path]: direction })], in a query that has a [$text]
      expression (its second argument) or has none;
    - [RawUpdate] are the request bodies of [updateTask] that are not
      plain (see [UpdateBody]) and [raw_update] is what
      [findByIdAndUpdate] makes of the document with such a body. *)
Class Store := {
  id_text : ObjectId → string;
  id_cast : string → option ObjectId;
  id_text_castable : ∀ id, is_Some (id_cast (id_text id));
  id_cast_empty : id_cast EmptyString = None;
  date_cast : string → option (option Date);
  sort_accepts : string → bool → bool;
  RawUpdate : Type;
  raw_update : RawUpdate → Task.t → Exception + Task.t
}.

(** ** Population of references

    [.populate('createdBy', 'name email')] replaces a reference by the
    selected fields of the document it names, or by [null] when there is no
    such document; in an array of references the missing ones are left
    out. *)

Record UserRef := { ur_id : ObjectId; ur_name : string; ur_email : string }.
Record TeamRef := { tr_id : ObjectId; tr_name : string }.

Definition populate_user (db : DB.t) (id : ObjectId) : option UserRef :=
  u ← DB.users db !! id;
  Some {| ur_id := id; ur_name := User.name u; ur_email := User.email u |}.

Definition populate_team (db : DB.t) (id : ObjectId) : option TeamRef :=
  t ← DB.teams db !! id;
  Some {| tr_id := id; tr_name := Team.name t |}.

(** A task with [createdBy], [assignedTo] and [team] populated. *)
Record PopulatedTask := {
  pt_id : ObjectId;
  pt_doc : Task.t;
  pt_createdBy : option UserRef;
  pt_assignedTo : option UserRef;
  pt_team : option TeamRef
}.

Definition populate_task (db : DB.t) (id : ObjectId) (t : Task.t)
  : PopulatedTask :=
  {| pt_id := id;
     pt_doc := t;
     pt_createdBy := populate_user db (Task.createdBy t);
     pt_assignedTo := Task.assignedTo t ≫= populate_user db;
     pt_team := Task.team t ≫= populate_team db |}.

Record PopulatedComment := {
  pc_id : ObjectId;
  pc_doc : Comment.t;
  pc_author : option UserRef
}.

Record PopulatedAttachment := {
  pa_id : ObjectId;
  pa_doc : Attachment.t;
  pa_uploadedBy : option UserRef
}.

Definition populate_comment (db : DB.t) (id : ObjectId)
  : option PopulatedComment :=
  c ← DB.comments db !! id;
  Some {| pc_id := id; pc_doc := c;
          pc_author := populate_user db (Comment.author c) |}.

Definition populate_attachment (db : DB.t) (id : ObjectId)
  : option PopulatedAttachment :=
  a ← DB.attachments db !! id;
  Some {| pa_id := id; pa_doc := a;
          pa_uploadedBy := populate_user db (Attachment.uploadedBy a) |}.

(** The answer of [getTask]: the populated task with its comments and
    attachments, each with its author or uploader. *)
Record TaskDetail := {
  td_task : PopulatedTask;
  td_comments : list PopulatedComment;
  td_attachments : list PopulatedAttachment
}.

Definition populate_detail (db : DB.t) (id : ObjectId) (t : Task.t)
  : TaskDetail :=
  {| td_task := populate_task db id t;
     td_comments := omap (populate_comment db) (Task.comments t);
     td_attachments := omap (populate_attachment db) (Task.attachments t) |}.

(** ** [models/Task.js]: the save hook *)

(** [this.isModified('status')]: a new document, or a status that differs
    from the one loaded. *)
Definition isModified_status (loaded : option Task.t) (this : Task.t) : bool :=
  match loaded with
  | None => true
  | Some old => negb (bool_decide (Task.status old = Task.status this))
  end.

(** [taskSchema.pre('save', ...)]. *)
Definition Task_pre_save (loaded : option Task.t) (now : Date) (this : Task.t)
  : Task.t :=
  let this := Task.set_updatedAt now this in
  if isModified_status loaded this
     && bool_decide (Task.status this = Completed)
     && negb (bool_decide (is_Some (Task.completedAt this)))
  then Task.set_completedAt (Some now) this
  else this.

(** [task.createdBy.toString() !== req.user.id] *)
Definition not_creator (task : Task.t) (user : Caller.t) : bool :=
  negb (bool_decide (Task.createdBy task = Caller.id user)).

(** [task.assignedTo?.toString() !== req.user.id]: an unassigned task gives
    [undefined], which differs from every id. *)
Definition not_assignee (task : Task.t) (user : Caller.t) : bool :=
  negb (bool_decide (Task.assignedTo task = Some (Caller.id user))).

(** ** The query engine, as the task controller uses it *)

Module Engine.

(** The value of a document at a sort path. Paths holding an array, and
    paths the schema does not have, give no ordering. *)
Inductive SortKey :=
| KNull
| KDate (d : Date)
| KString (s : string)
| KId (n : ObjectId).

Definition opt_key {A} (k : A → SortKey) (o : option A) : SortKey :=
  match o with None => KNull | Some a => k a end.

Definition sort_key (path : string) (d : ObjectId * Task.t) : SortKey :=
  let t := d.2 in
  if String.eqb path "_id" then KId d.1
  else if String.eqb path "title" then KString (Task.title t)
  else if String.eqb path "description" then
    opt_key KString (Task.description t)
  else if String.eqb path "status" then
    KString (Status_to_string (Task.status t))
  else if String.eqb path "priority" then
    KString (Priority_to_string (Task.priority t))
  else if String.eqb path "dueDate" then opt_key KDate (Task.dueDate t)
  else if String.eqb path "createdBy" then KId (Task.createdBy t)
  else if String.eqb path "assignedTo" then opt_key KId (Task.assignedTo t)
  else if String.eqb path "team" then opt_key KId (Task.team t)
  else if String.eqb path "createdAt" then KDate (Task.createdAt t)
  else if String.eqb path "updatedAt" then KDate (Task.updatedAt t)
  else if String.eqb path "completedAt" then
    opt_key KDate (Task.completedAt t)
  else KNull.

(** A missing value sorts before every value. *)
Definition key_leb (a b : SortKey) : bool :=
  match a, b with
  | KNull, _ => true
  | _, KNull => false
  | KDate x, KDate y => x <=? y
  | KString x, KString y => String.leb x y
  | KId x, KId y => (x <=? y)%N
  | _, _ => true
  end.

(** [.sort({ [path]: direction })], [direction] being [1] or [-1]. *)
Definition sort_leb (path : string) (direction : Z)
    (a b : ObjectId * Task.t) : bool :=
  if direction <? 0
  then key_leb (sort_key path b) (sort_key path a)
  else key_leb (sort_key path a) (sort_key path b).

Definition sort_rel (path : string) (direction : Z)
  : relation (ObjectId * Task.t) :=
  λ a b, Is_true (sort_leb path direction a b).

#[global] Instance sort_rel_dec path direction
  : RelDecision (sort_rel path direction).
Proof. intros a b. unfold sort_rel. apply _. Defined.

(** The documents in the order asked for, for a path the engine
    accepts. The path [$natural] asks for the order of the collection, or
    for its reverse. *)
Definition sort (path : string) (direction : Z)
    (l : list (ObjectId * Task.t)) : list (ObjectId * Task.t) :=
  if String.eqb path "$natural"
  then (if direction <? 0 then reverse l else l)
  else merge_sort (sort_rel path direction) l.

(** [.skip(n)]: the engine refuses a negative count. *)
Definition skip {A} (n : Z) (l : list A) : Exception + list A :=
  if n <? 0 then inl (EngineError "skip value must be non-negative")
  else inr (drop (Z.to_nat n) l).

(** [.limit(n)]: [0] means no limit, and a negative count is taken for
    its absolute value. *)
Definition limit {A} (n : Z) (l : list A) : list A :=
  if n =? 0 then l else take (Z.to_nat (Z.abs n)) l.

End Engine.

(** ** [controllers/taskController.js] *)

(** [req.body] of [createTask]: the fields the handler destructures, each
    with the text the body gives it ([tags] with a list of texts). [None] is
    a field the body does not have. *)
Module CreateBody.
Record t := mk {
  title : option string;
  description : option string;
  dueDate : option string;
  assignedTo : option string;
  team : option string;
  priority : option string;
  tags : option (list string)
}.
End CreateBody.

(** A plain [req.body] of [updateTask]: its keys are among these nine
    paths of [taskSchema], each with a text ([tags] with a list of
    texts). [None] is a field the body does not have. *)
Module TaskBody.
Record t := mk {
  title : option string;
  description : option string;
  status : option string;
  priority : option string;
  dueDate : option string;
  createdBy : option string;
  assignedTo : option string;
  team : option string;
  tags : option (list string)
}.

Definition empty : t := mk None None None None None None None None None.
End TaskBody.

(** [req.query] of [getTasks]. [page] and [limit] hold the integer their
    text denotes. The handler reads them with [parseInt], which gives that
    integer when it is a safe integer, and its arithmetic is then the one
    of the integers as long as the results are safe integers: this is the
    range that the model covers, and the statements that depend on the
    numbers are about it ([Js.safe_integer]). Texts that denote no integer
    are outside the model. *)
Module TaskQuery.
Record t := mk {
  status : option string;
  priority : option string;
  assignedTo : option string;
  createdBy : option string;
  team : option string;
  search : option string;
  sortBy : option string;
  order : option string;
  page : option Z;
  limit : option Z
}.

Definition empty : t :=
  mk None None None None None None None None None None.
End TaskQuery.

(** The body of a successful [getTasks] answer. *)
Record TaskPage := {
  count : nat;
  total : nat;
  page : Z;
  pages : option Z;
  data : list PopulatedTask
}.

(** A required, trimmed string path. *)
Definition cast_required (path : string) (s : string) : Exception + string :=
  let s := Js.trim s in
  if Js.truthy s then inr s else inl (ValidationError path).

(** A string path with an [enum] validator. *)
Definition cast_enum {A} (path : string) (parse : string → option A)
    (s : string) : Exception + A :=
  match parse s with
  | Some a => inr a
  | None => inl (ValidationError path)
  end.

(** Sequencing of casts: the first failure is the one reported. *)
Definition bind_cast {A B} (x : Exception + A) (k : A → Exception + B)
  : Exception + B :=
  match x with inl e => inl e | inr a => k a end.

Notation "x ←! c ; k" := (bind_cast c (λ x, k))
  (at level 20, c at level 100, k at level 200, only parsing).

(** The outcomes of
    [if (ref) { const doc = await Model.findById(ref); if (!doc) ... }]:
    no reference is given (or an empty text, which is falsy), the text is
    no id and [findById] throws, the id names no document, or it names
    one. *)
Inductive Reference :=
| NoReference
| Malformed
| Missing
| Found (id : ObjectId).

Section taskController.
Context {ext : External} {store : Store}.

Definition find_ref {A} (m : gmap N A) (ref : option string) : Reference :=
  match ref with
  | None => NoReference
  | Some s =>
      if Js.truthy s then
        match id_cast s with
        | None => Malformed
        | Some id =>
            if bool_decide (is_Some (m !! id)) then Found id else Missing
        end
      else NoReference
  end.

(** A path of type ObjectId, the same when the document may lack the
    path, and a path of type Date. *)
Definition cast_id (path : string) (s : string) : Exception + ObjectId :=
  match id_cast s with
  | Some id => inr id
  | None => inl (CastError path)
  end.

Definition cast_ref (path : string) (s : string)
  : Exception + option ObjectId :=
  id ←! cast_id path s; inr (Some id).

Definition cast_date (path : string) (s : string)
  : Exception + option Date :=
  match date_cast s with
  | Some d => inr d
  | None => inl (CastError path)
  end.

(** [Task.create({ title, ..., createdBy })]: the casts, the schema
    defaults, the validators and the save hook. *)
Definition Task_create (body : CreateBody.t) (createdBy : ObjectId)
    (now : Date) : Exception + Task.t :=
  title ←! match CreateBody.title body with
           | None => inl (ValidationError "title")
           | Some s => cast_required "title" s
           end;
  priority ←! match CreateBody.priority body with
              | None => inr Medium
              | Some s => cast_enum "priority" Priority_of_string s
              end;
  dueDate ←! match CreateBody.dueDate body with
             | None => inr None
             | Some s => cast_date "dueDate" s
             end;
  assignedTo ←! match CreateBody.assignedTo body with
                | None => inr None
                | Some s => cast_ref "assignedTo" s
                end;
  team ←! match CreateBody.team body with
          | None => inr None
          | Some s => cast_ref "team" s
          end;
  inr (Task_pre_save None now
         {| Task.title := title;
            Task.description := Js.trim <$> CreateBody.description body;
            Task.status := Open;
            Task.priority := priority;
            Task.dueDate := dueDate;
            Task.createdBy := createdBy;
            Task.assignedTo := assignedTo;
            Task.team := team;
            Task.tags := Js.trim <$> default [] (CreateBody.tags body);
            Task.attachments := [];
            Task.comments := [];
            Task.createdAt := now;
            Task.updatedAt := now;
            Task.completedAt := None |}).

(** [exports.createTask] *)
Definition createTask (db : DB.t) (user : Caller.t) (body : CreateBody.t)
    (now : Date) : Response PopulatedTask * DB.t :=
  match find_ref (DB.users db) (CreateBody.assignedTo body) with
  | Malformed => (Thrown (CastError "_id"), db)
  | Missing => (Fail 404 "Assigned user not found", db)
  | _ =>
      match find_ref (DB.teams db) (CreateBody.team body) with
      | Malformed => (Thrown (CastError "_id"), db)
      | Missing => (Fail 404 "Team not found", db)
      | _ =>
          match Task_create body (Caller.id user) now with
          | inl e => (Thrown e, db)
          | inr task =>
              let '(id, db) := DB.alloc db in
              let db := DB.set_tasks (<[id := task]> (DB.tasks db)) db in
              (Ok 201 (populate_task db id task), db)
          end
      end
  end.

(** [if (ref) { query.path = ref }] on a path of type ObjectId, applied
    to the reference a document holds: the text is cast when the query
    runs. *)
Definition ref_filter (given : option string) (stored : option ObjectId)
  : bool :=
  match given with
  | None => true
  | Some s =>
      if Js.truthy s then
        match id_cast s with
        | Some id => bool_decide (stored = Some id)
        | None => false
        end
      else true
  end.

(** The conjunctive filter [query] that [getTasks] builds, applied to a
    document. *)
Definition matches (q : TaskQuery.t) (t : Task.t) : bool :=
  (if Js.truthy_opt (TaskQuery.status q)
   then bool_decide (Some (Status_to_string (Task.status t))
                     = TaskQuery.status q)
   else true)
  && (if Js.truthy_opt (TaskQuery.priority q)
      then bool_decide (Some (Priority_to_string (Task.priority t))
                        = TaskQuery.priority q)
      else true)
  && ref_filter (TaskQuery.assignedTo q) (Task.assignedTo t)
  && ref_filter (TaskQuery.createdBy q) (Some (Task.createdBy t))
  && ref_filter (TaskQuery.team q) (Task.team t)
  && match TaskQuery.search q with
     | Some s => if Js.truthy s then text_match s t else true
     | None => true
     end.

(** The cast error of a filter on a path of type ObjectId whose text is
    no id. *)
Definition malformed_ref (path : string) (given : option string)
  : option Exception :=
  match given with
  | None => None
  | Some s =>
      if Js.truthy s then
        match id_cast s with
        | Some _ => None
        | None => Some (CastError path)
        end
      else None
  end.

(** The error [Task.find(query)] throws when it casts the filter. *)
Definition query_cast_error (q : TaskQuery.t) : option Exception :=
  match malformed_ref "assignedTo" (TaskQuery.assignedTo q) with
  | Some e => Some e
  | None =>
      match malformed_ref "createdBy" (TaskQuery.createdBy q) with
      | Some e => Some e
      | None => malformed_ref "team" (TaskQuery.team q)
      end
  end.

(** Whether the engine accepts the sort of the query, a query with
    [search] having a [$text] expression. *)
Definition sort_accepted (q : TaskQuery.t) : bool :=
  sort_accepts (default "createdAt" (TaskQuery.sortBy q))
               (Js.truthy_opt (TaskQuery.search q)).

(** [Task.find(query)], the documents in the order of the collection. *)
Definition Task_find (db : DB.t) (q : TaskQuery.t)
  : list (ObjectId * Task.t) :=
  filter (λ d, matches q d.2) (map_to_list (DB.tasks db)).

(** [Task.countDocuments(query)] *)
Definition Task_countDocuments (db : DB.t) (q : TaskQuery.t) : nat :=
  length (Task_find db q).

(** [exports.getTasks]. The query fails when its filter cannot be cast,
    when the engine does not accept the sort path, and when the skip is
    negative. *)
Definition getTasks (db : DB.t) (user : Caller.t) (q : TaskQuery.t)
  : Response TaskPage * DB.t :=
  let sortBy := default "createdAt" (TaskQuery.sortBy q) in
  let order := default "desc" (TaskQuery.order q) in
  let page := default 1 (TaskQuery.page q) in
  let limit := default 10 (TaskQuery.limit q) in
  let skip := (page - 1) * limit in
  let sortOrder := if String.eqb order "desc" then -1 else 1 in
  match query_cast_error q with
  | Some e => (Thrown e, db)
  | None =>
      if negb (sort_accepted q)
      then (Thrown (EngineError "bad sort specification"), db)
      else
        match Engine.skip skip
                (Engine.sort sortBy sortOrder (Task_find db q)) with
        | inl e => (Thrown e, db)
        | inr rest =>
            let tasks := Engine.limit limit rest in
            let total := Task_countDocuments db q in
            (Ok 200 {| count := length tasks;
                       total := total;
                       page := page;
                       pages := Js.ceil_div (Z.of_nat total) limit;
                       data := (λ d, populate_task db d.1 d.2) <$> tasks |},
             db)
        end
  end.

(** [exports.getTask], [id] being the text of [req.params.id]:
    [findById] throws when the text is no id. *)
Definition getTask (db : DB.t) (user : Caller.t) (id : string)
  : Response TaskDetail * DB.t :=
  match id_cast id with
  | None => (Thrown (CastError "_id"), db)
  | Some id =>
      match DB.tasks db !! id with
      | None => (Fail 404 "Task not found", db)
      | Some task => (Ok 200 (populate_detail db id task), db)
      end
  end.

(** [Task.findByIdAndUpdate(id, req.body, { new: true, runValidators:
    true })] on the document found, for a plain body: every path of the
    body replaces the one of the document, after its cast and validators.
    No save hook runs. *)
Definition Task_update (body : TaskBody.t) (t : Task.t)
  : Exception + Task.t :=
  title ←! match TaskBody.title body with
           | None => inr (Task.title t)
           | Some s => cast_required "title" s
           end;
  status ←! match TaskBody.status body with
            | None => inr (Task.status t)
            | Some s => cast_enum "status" Status_of_string s
            end;
  priority ←! match TaskBody.priority body with
              | None => inr (Task.priority t)
              | Some s => cast_enum "priority" Priority_of_string s
              end;
  dueDate ←! match TaskBody.dueDate body with
             | None => inr (Task.dueDate t)
             | Some s => cast_date "dueDate" s
             end;
  createdBy ←! match TaskBody.createdBy body with
               | None => inr (Task.createdBy t)
               | Some s => cast_id "createdBy" s
               end;
  assignedTo ←! match TaskBody.assignedTo body with
                | None => inr (Task.assignedTo t)
                | Some s => cast_ref "assignedTo" s
                end;
  team ←! match TaskBody.team body with
          | None => inr (Task.team t)
          | Some s => cast_ref "team" s
          end;
  inr {| Task.title := title;
         Task.description :=
           match TaskBody.description body with
           | None => Task.description t
           | Some s => Some (Js.trim s)
           end;
         Task.status := status;
         Task.priority := priority;
         Task.dueDate := dueDate;
         Task.createdBy := createdBy;
         Task.assignedTo := assignedTo;
         Task.team := team;
         Task.tags :=
           match TaskBody.tags body with
           | None => Task.tags t
           | Some l => Js.trim <$> l
           end;
         Task.attachments := Task.attachments t;
         Task.comments := Task.comments t;
         Task.createdAt := Task.createdAt t;
         Task.updatedAt := Task.updatedAt t;
         Task.completedAt := Task.completedAt t |}.

(** [req.body] of [updateTask]. The handler gives it to
    [findByIdAndUpdate] as it is: a plain body, or any other one (a body
    with update operators such as [$set], [$unset] or [$currentDate], with
    other keys or with values that are no texts), which the storage library
    interprets. *)
Inductive UpdateBody :=
| PlainBody (body : TaskBody.t)
| RawBody (body : RawUpdate).

Definition Task_findByIdAndUpdate (body : UpdateBody) (t : Task.t)
  : Exception + Task.t :=
  match body with
  | PlainBody body => Task_update body t
  | RawBody body => raw_update body t
  end.

(** [exports.updateTask] *)
Definition updateTask (db : DB.t) (user : Caller.t) (id : ObjectId)
    (body : UpdateBody) : Response PopulatedTask * DB.t :=
  match DB.tasks db !! id with
  | None => (Fail 404 "Task not found", db)
  | Some task =>
      if not_creator task user && not_assignee task user && not_admin user
      then (Fail 403 "Not authorized to update this task", db)
      else
        match Task_findByIdAndUpdate body task with
        | inl e => (Thrown e, db)
        | inr task =>
            let db := DB.set_tasks (<[id := task]> (DB.tasks db)) db in
            (Ok 200 (populate_task db id task), db)
        end
  end.

(** [exports.completeTask] *)
Definition completeTask (db : DB.t) (user : Caller.t) (id : ObjectId)
    (now : Date) : Response PopulatedTask * DB.t :=
  match DB.tasks db !! id with
  | None => (Fail 404 "Task not found", db)
  | Some loaded =>
      if not_assignee loaded user && not_creator loaded user
         && not_admin user
      then (Fail 403 "Not authorized to complete this task", db)
      else
        let task := Task.set_status Completed loaded in
        let task := Task.set_completedAt (Some now) task in
        let task := Task_pre_save (Some loaded) now task in
        let db := DB.set_tasks (<[id := task]> (DB.tasks db)) db in
        (Ok 200 (populate_task db id task), db)
  end.

(** [exports.deleteTask] *)
Definition deleteTask (db : DB.t) (user : Caller.t) (id : ObjectId)
  : Response string * DB.t :=
  match DB.tasks db !! id with
  | None => (Fail 404 "Task not found", db)
  | Some task =>
      if not_creator task user && not_admin user
      then (Fail 403 "Not authorized to delete this task", db)
      else
        (Ok 200 "Task deleted successfully",
         DB.set_tasks (delete id (DB.tasks db)) db)
  end.

End taskController.

(** ** [models/Team.js]: the save hook *)

(** [teamSchema.pre('save', ...)]: a new team gets its owner as a member
    with the role ['owner'], unless the owner is a member already. *)
Definition Team_pre_save (isNew : bool) (now : Date) (this : Team.t)
  : Team.t :=
  if isNew then
    let ownerExists :=
      existsb (λ member,
                 bool_decide (Member.user member = Team.owner this))
              (Team.members this) in
    if negb ownerExists
    then Team.set_members
           (Team.members this
              ++ [ {| Member.user := Team.owner this;
                      Member.role := Owner;
                      Member.joinedAt := now |} ])
           this
    else this
  else this.

(** ** [controllers/teamController.js] *)

Record PopulatedMember := {
  pm_user : option UserRef;
  pm_role : MemberRole;
  pm_joinedAt : Date
}.

(** A team with [owner] and [members.user] populated. *)
Record PopulatedTeam := {
  pg_id : ObjectId;
  pg_doc : Team.t;
  pg_owner : option UserRef;
  pg_members : list PopulatedMember
}.

Definition populate_member (db : DB.t) (m : Member.t) : PopulatedMember :=
  {| pm_user := populate_user db (Member.user m);
     pm_role := Member.role m;
     pm_joinedAt := Member.joinedAt m |}.

Definition populate_team_doc (db : DB.t) (id : ObjectId) (t : Team.t)
  : PopulatedTeam :=
  {| pg_id := id;
     pg_doc := t;
     pg_owner := populate_user db (Team.owner t);
     pg_members := populate_member db <$> Team.members t |}.

(** [req.body] of [createTeam] and [updateTeam]. *)
Module TeamBody.
Record t := mk { name : option string; description : option string }.
End TeamBody.

(** [req.body] of [addMember]: [userId] with the text the body gives
    it. *)
Module MemberBody.
Record t := mk { userId : string; role : option string }.
End MemberBody.

(** [{ $push: { teams: id } }] and [{ $pull: { teams: id } }] on a user. *)
Definition push_team (id : ObjectId) (u : User.t) : User.t :=
  User.mk (User.name u) (User.email u) (User.password u) (User.role u)
          (User.teams u ++ [id]).

Definition pull_team (id : ObjectId) (u : User.t) : User.t :=
  User.mk (User.name u) (User.email u) (User.password u) (User.role u)
          (filter (λ g, g ≠ id) (User.teams u)).

(** The test the handlers repeat:
    [team.members.some(member => member.user.toString() === req.user.id &&
    (member.role === 'owner' || member.role === 'admin'))]. *)
Definition isOwnerOrAdmin (team : Team.t) (user : Caller.t) : bool :=
  existsb (λ member,
             bool_decide (Member.user member = Caller.id user)
             && (bool_decide (Member.role member = Owner)
                 || bool_decide (Member.role member = Admin)))
          (Team.members team).

(** The team has a member record of the user. *)
Definition isMember (team : Team.t) (userId : ObjectId) : bool :=
  existsb (λ member, bool_decide (Member.user member = userId))
          (Team.members team).

Section teamController.
Context {store : Store}.

(** [team.members.some(member => member.user.toString() === userId)],
    [userId] being a text of the request: the comparison is the one of
    texts. *)
Definition isMember_text (team : Team.t) (userId : string) : bool :=
  existsb (λ member, String.eqb (id_text (Member.user member)) userId)
          (Team.members team).

(** [Team.create({ name, description, owner })] *)
Definition Team_create (body : TeamBody.t) (owner : ObjectId) (now : Date)
  : Exception + Team.t :=
  name ←! match TeamBody.name body with
          | None => inl (ValidationError "name")
          | Some s => cast_required "name" s
          end;
  inr (Team_pre_save true now
         {| Team.name := name;
            Team.description := Js.trim <$> TeamBody.description body;
            Team.owner := owner;
            Team.members := [];
            Team.createdAt := now |}).

(** [exports.createTeam] *)
Definition createTeam (db : DB.t) (user : Caller.t) (body : TeamBody.t)
    (now : Date) : Response PopulatedTeam * DB.t :=
  match Team_create body (Caller.id user) now with
  | inl e => (Thrown e, db)
  | inr team =>
      let '(id, db) := DB.alloc db in
      let db := DB.set_teams (<[id := team]> (DB.teams db)) db in
      let db :=
        DB.set_users (alter (push_team id) (Caller.id user) (DB.users db))
                     db in
      (Ok 201 (populate_team_doc db id team), db)
  end.

(** The body of a [getTeams] answer. *)
Record TeamList := {
  tl_count : nat;
  tl_data : list PopulatedTeam
}.

(** [exports.getTeams] *)
Definition getTeams (db : DB.t) (user : Caller.t)
  : Response TeamList * DB.t :=
  let teams :=
    filter (λ d, isMember d.2 (Caller.id user))
           (map_to_list (DB.teams db)) in
  (Ok 200 {| tl_count := length teams;
             tl_data := (λ d, populate_team_doc db d.1 d.2) <$> teams |},
   db).

(** [team.members.some(member => member.user._id.toString() ===
    req.user.id)] on the populated members: the members are visited in
    order up to the first one of the caller, and reading [_id] of a member
    whose user document is gone ([null] after population) throws. *)
Fixpoint some_populated_member (uid : ObjectId) (ms : list PopulatedMember)
  : Exception + bool :=
  match ms with
  | [] => inr false
  | m :: ms =>
      match pm_user m with
      | None => inl (TypeError "Cannot read properties of null")
      | Some u =>
          if bool_decide (ur_id u = uid) then inr true
          else some_populated_member uid ms
      end
  end.

(** [exports.getTeam] *)
Definition getTeam (db : DB.t) (user : Caller.t) (id : ObjectId)
  : Response PopulatedTeam * DB.t :=
  match DB.teams db !! id with
  | None => (Fail 404 "Team not found", db)
  | Some doc =>
      let team := populate_team_doc db id doc in
      match some_populated_member (Caller.id user) (pg_members team) with
      | inl e => (Thrown e, db)
      | inr isMember =>
          if negb isMember && not_admin user
          then (Fail 403 "Not authorized to access this team", db)
          else (Ok 200 team, db)
      end
  end.

(** [Team.findByIdAndUpdate(id, { name, description }, { new: true,
    runValidators: true })]: a field the body does not have is left as it
    is. *)
Definition Team_update (body : TeamBody.t) (t : Team.t)
  : Exception + Team.t :=
  name ←! match TeamBody.name body with
          | None => inr (Team.name t)
          | Some s => cast_required "name" s
          end;
  inr {| Team.name := name;
         Team.description :=
           match TeamBody.description body with
           | None => Team.description t
           | Some s => Some (Js.trim s)
           end;
         Team.owner := Team.owner t;
         Team.members := Team.members t;
         Team.createdAt := Team.createdAt t |}.

(** [exports.updateTeam] *)
Definition updateTeam (db : DB.t) (user : Caller.t) (id : ObjectId)
    (body : TeamBody.t) : Response PopulatedTeam * DB.t :=
  match DB.teams db !! id with
  | None => (Fail 404 "Team not found", db)
  | Some team =>
      if negb (isOwnerOrAdmin team user) && not_admin user
      then (Fail 403 "Not authorized to update this team", db)
      else
        match Team_update body team with
        | inl e => (Thrown e, db)
        | inr team =>
            let db := DB.set_teams (<[id := team]> (DB.teams db)) db in
            (Ok 200 (populate_team_doc db id team), db)
        end
  end.

(** [exports.addMember]. [User.findById(userId)] casts the text of
    the body and throws when it is no id; the membership test compares
    that text with the texts of the members' ids; the member record holds
    the id the text denotes. The role of the body defaults to ['member'];
    the [enum] validator of [members.role] runs in [team.save()]. *)
Definition addMember (db : DB.t) (user : Caller.t) (id : ObjectId)
    (body : MemberBody.t) (now : Date) : Response PopulatedTeam * DB.t :=
  let userId := MemberBody.userId body in
  let role := default "member" (MemberBody.role body) in
  match DB.teams db !! id with
  | None => (Fail 404 "Team not found", db)
  | Some team =>
      if negb (isOwnerOrAdmin team user) && not_admin user
      then (Fail 403 "Not authorized to add members to this team", db)
      else
        match id_cast userId with
        | None => (Thrown (CastError "_id"), db)
        | Some uid =>
            match DB.users db !! uid with
            | None => (Fail 404 "User not found", db)
            | Some _ =>
                if isMember_text team userId
                then (Fail 400 "User is already a member of this team", db)
                else
                  match cast_enum "members.role" MemberRole_of_string
                          role with
                  | inl e => (Thrown e, db)
                  | inr role =>
                      let team :=
                        Team.set_members
                          (Team.members team
                             ++ [ {| Member.user := uid;
                                     Member.role := role;
                                     Member.joinedAt := now |} ])
                          team in
                      let team := Team_pre_save false now team in
                      let db :=
                        DB.set_teams (<[id := team]> (DB.teams db)) db in
                      let db :=
                        DB.set_users
                          (alter (push_team id) uid (DB.users db)) db in
                      (Ok 200 (populate_team_doc db id team), db)
                  end
            end
        end
  end.

(** [exports.removeMember], [userId] being the text of
    [req.params.userId]. The owner test and the filter compare that text
    with the texts of the stored ids; the team is saved, and then
    [User.findByIdAndUpdate] casts the text and throws when it is no
    id. *)
Definition removeMember (db : DB.t) (user : Caller.t) (id : ObjectId)
    (userId : string) (now : Date) : Response PopulatedTeam * DB.t :=
  match DB.teams db !! id with
  | None => (Fail 404 "Team not found", db)
  | Some team =>
      if negb (isOwnerOrAdmin team user) && not_admin user
      then (Fail 403 "Not authorized to remove members from this team", db)
      else if String.eqb (id_text (Team.owner team)) userId
      then (Fail 400 "Cannot remove team owner", db)
      else
        let team :=
          Team.set_members
            (filter (λ member, id_text (Member.user member) ≠ userId)
                    (Team.members team))
            team in
        let team := Team_pre_save false now team in
        let db := DB.set_teams (<[id := team]> (DB.teams db)) db in
        match id_cast userId with
        | None => (Thrown (CastError "_id"), db)
        | Some uid =>
            let db :=
              DB.set_users (alter (pull_team id) uid (DB.users db)) db in
            (Ok 200 (populate_team_doc db id team), db)
        end
  end.

(** [exports.deleteTeam] *)
Definition deleteTeam (db : DB.t) (user : Caller.t) (id : ObjectId)
  : Response string * DB.t :=
  match DB.teams db !! id with
  | None => (Fail 404 "Team not found", db)
  | Some team =>
      if negb (bool_decide (Team.owner team = Caller.id user))
         && not_admin user
      then (Fail 403 "Not authorized to delete this team", db)
      else
        let db := DB.set_users (pull_team id <$> DB.users db) db in
        (Ok 200 "Team deleted successfully",
         DB.set_teams (delete id (DB.teams db)) db)
  end.

End teamController.

(** ** [controllers/authController.js] *)

(** [req.body] of [login]. *)
Module LoginBody.
Record t := mk { email : option string; password : option string }.
End LoginBody.

(** The public profile and the token a successful [login] answers. *)
Record LoginData := {
  ld_id : ObjectId;
  ld_name : string;
  ld_email : string;
  ld_role : UserRole;
  ld_token : string
}.

(** [User.findOne({ email })] *)
Definition User_findOne (db : DB.t) (email : string)
  : option (ObjectId * User.t) :=
  head (filter (λ d, User.email d.2 = email) (map_to_list (DB.users db))).

Section authController.
Context `{External}.

(** [exports.login] *)
Definition login (db : DB.t) (body : LoginBody.t)
  : Response LoginData * DB.t :=
  let email := default "" (LoginBody.email body) in
  let password := default "" (LoginBody.password body) in
  if negb (Js.truthy email) || negb (Js.truthy password)
  then (Fail 400 "Please provide email and password", db)
  else
    match User_findOne db email with
    | None => (Fail 401 "Invalid credentials", db)
    | Some (id, user) =>
        let isMatch := comparePassword (User.password user) password in
        if negb isMatch
        then (Fail 401 "Invalid credentials", db)
        else
          (Ok 200 {| ld_id := id;
                     ld_name := User.name user;
                     ld_email := User.email user;
                     ld_role := User.role user;
                     ld_token := generateToken id |},
           db)
    end.

End authController.

(** ** The states the handlers reach *)

Section reachability.
Context {store : Store}.

(** One request served. The handlers of the auth, comment and attachment
    controllers read and write the [User], [Comment], [Attachment] and
    [Task] collections only; [step_other] stands for them. *)
Inductive step : relation DB.t :=
| step_createTeam db user body now :
    step db (createTeam db user body now).2
| step_updateTeam db user id body :
    step db (updateTeam db user id body).2
| step_addMember db user id body now :
    step db (addMember db user id body now).2
| step_removeMember db user id userId now :
    step db (removeMember db user id userId now).2
| step_deleteTeam db user id :
    step db (deleteTeam db user id).2
| step_createTask db user body now :
    step db (createTask db user body now).2
| step_updateTask db user id body :
    step db (updateTask db user id body).2
| step_completeTask db user id now :
    step db (completeTask db user id now).2
| step_deleteTask db user id :
    step db (deleteTask db user id).2
| step_other db db' :
    DB.teams db' = DB.teams db → step db db'.

(** A state is reachable when requests lead to it from a store without
    teams. *)
Definition reachable (db : DB.t) : Prop :=
  ∃ db0, DB.teams db0 = ∅ ∧ rtc step db0 db.

End reachability.

(** The owner of a team is among its members, with the role ['owner']. *)
Definition owner_is_member (t : Team.t) : Prop :=
  ∃ m, m ∈ Team.members t
       ∧ Member.user m = Team.owner t ∧ Member.role m = Owner.

Definition teams_have_owner (db : DB.t) : Prop :=
  map_Forall (λ _ t, owner_is_member t) (DB.teams db).

(** ** A reference instance and sample data *)

Module Sample.

Fixpoint contains (needle hay : string) : bool :=
  String.prefix needle hay
  || match hay with
     | EmptyString => false
     | String _ hay' => contains needle hay'
     end.

(** Collaborators for running the handlers: containment in the title or
    the description, passwords stored as they are, a fixed token text. *)
#[export] Instance external : External := {|
  text_match s t :=
    contains s (Task.title t)
    || from_option (contains s) false (Task.description t);
  comparePassword stored candidate := String.eqb stored candidate;
  generateToken id := "token"
|}.

(** The text of an id: its 24 hexadecimal digits, in lower case. *)
Definition hex_char (d : N) : ascii :=
  nth (N.to_nat d) (list_ascii_of_string "0123456789abcdef") "0"%char.

Fixpoint to_hex (digits : nat) (n : N) : list ascii :=
  match digits with
  | O => []
  | S digits => to_hex digits (n / 16)%N ++ [hex_char (n mod 16)%N]
  end.

Definition oid_text (id : N) : string := string_of_list_ascii (to_hex 24 id).

(** The cast of a text to an id: 24 hexadecimal digits, in lower or
    upper case. *)
Definition hex_value (a : ascii) : option N :=
  let n := N_of_ascii a in
  if ((48 <=? n) && (n <=? 57))%N then Some (n - 48)%N
  else if ((97 <=? n) && (n <=? 102))%N then Some (n - 87)%N
  else if ((65 <=? n) && (n <=? 70))%N then Some (n - 55)%N
  else None.

Definition oid_cast (s : string) : option N :=
  let l := list_ascii_of_string s in
  if (length l =? 24)%nat
  then foldl (λ acc d, (16 * acc + d)%N) 0%N <$> mapM hex_value l
  else None.

(** A date given as a number of milliseconds, in decimal digits; the empty
    text is [null]. Of the texts the library reads as dates, these are the
    ones this instance reads. *)
Fixpoint decimal (acc : Z) (s : string) : option Z :=
  match s with
  | EmptyString => Some acc
  | String a s =>
      let n := Z.of_N (N_of_ascii a) in
      if (48 <=? n) && (n <=? 57) then decimal (10 * acc + (n - 48)) s
      else None
  end.

Definition ms_cast (s : string) : option (option Z) :=
  match s with
  | EmptyString => Some None
  | _ =>
      match decimal 0 s with
      | Some ms => if 275761 <=? ms then Some (Some ms) else None
      | None => None
      end
  end.

(** A sort path the engine accepts: [$natural], in a query without a
    [$text] expression, or field names separated by dots, none of them
    empty or starting with a dollar sign. *)
Fixpoint field_path (at_start : bool) (s : string) : bool :=
  match s with
  | EmptyString => negb at_start
  | String a s =>
      if Ascii.eqb a "."%char then negb at_start && field_path true s
      else if at_start && Ascii.eqb a "$"%char then false
      else field_path false s
  end.

(** A body with update operators, for this instance: the [$set] and the
    [$currentDate] of [updatedAt], each with the date it stores. *)
Inductive Operator :=
| SetUpdatedAt (d : Z)
| CurrentDateUpdatedAt (now : Z).

#[export] Instance store : Store.
Proof.
  refine {| id_text := oid_text;
            id_cast := oid_cast;
            date_cast := ms_cast;
            sort_accepts s text :=
              (String.eqb s "$natural" && negb text) || field_path true s;
            RawUpdate := Operator;
            raw_update u t :=
              inr (Task.set_updatedAt
                     match u with
                     | SetUpdatedAt d => d
                     | CurrentDateUpdatedAt now => now
                     end t) |}.
  - intros id. unfold oid_cast, oid_text.
    rewrite list_ascii_of_string_of_list_ascii.
    assert (Hlen : ∀ k n, length (to_hex k n) = k).
    { intros k. induction k as [|k IH]; intros n; [done|].
      simpl. rewrite length_app, IH. simpl. lia. }
    assert (Hval : ∀ d, (d < 16)%N → is_Some (hex_value (hex_char d))).
    { intros d Hd.
      assert (Hcases : d ∈ [0; 1; 2; 3; 4; 5; 6; 7; 8; 9; 10; 11; 12; 13;
                            14; 15]%N).
      { rewrite !elem_of_cons. lia. }
      rewrite !elem_of_cons in Hcases.
      repeat (destruct Hcases as [->|Hcases]; [by eexists|]).
      by apply elem_of_nil in Hcases. }
    assert (Hall : ∀ k n, is_Some (mapM hex_value (to_hex k n))).
    { intros k n. apply mapM_is_Some. revert n.
      induction k as [|k IH]; intros n; simpl; [constructor|].
      apply Forall_app. split; [apply IH|].
      constructor; [|constructor]. simpl. apply Hval.
      apply N.mod_upper_bound. done. }
    rewrite Hlen, Nat.eqb_refl. destruct (Hall 24%nat id) as [l ->].
    by eexists.
  - reflexivity.
Defined.

Definition ann : Caller.t := Caller.mk 1 RoleUser.
Definition bob : Caller.t := Caller.mk 2 RoleUser.
Definition cat : Caller.t := Caller.mk 3 RoleUser.
Definition root : Caller.t := Caller.mk 4 RoleAdmin.

(** The texts of the ids of Ann, Bob and Cat, and of the first new
    document. *)
Definition ann_id : string := "000000000000000000000001".
Definition bob_id : string := "000000000000000000000002".
Definition cat_id : string := "000000000000000000000003".
Definition new_id : string := "00000000000000000000000a".

Definition users : gmap N User.t :=
  list_to_map
    [ (1%N, User.mk "Ann" "ann@example.com" "pw-ann" RoleUser []);
      (2%N, User.mk "Bob" "bob@example.com" "pw-bob" RoleUser []);
      (3%N, User.mk "Cat" "cat@example.com" "pw-cat" RoleUser []);
      (4%N, User.mk "Root" "root@example.com" "pw-root" RoleAdmin []) ].

(** Four registered users, nothing else; new ids start at 10. *)
Definition db0 : DB.t := DB.mk users ∅ ∅ ∅ ∅ 10.

(** Ann creates task 10 and assigns it to Bob. *)
Definition db_task : DB.t :=
  (createTask db0 ann
     (CreateBody.mk (Some "Write report") None None (Some bob_id) None None
                    None)
     1000).2.

(** Ann creates team 10, then adds Bob as a plain member. *)
Definition db_team : DB.t :=
  (createTeam db0 ann (TeamBody.mk (Some "Core") None) 1000).2.

Definition db_team2 : DB.t :=
  (addMember db_team ann 10 (MemberBody.mk bob_id None) 2000).2.

(** Three tasks of Ann, created at 1000, 2000 and 3000. *)
Definition db_tasks3 : DB.t :=
  let mk t := CreateBody.mk (Some t) None None None None None None in
  let db := (createTask db0 ann (mk "one") 1000).2 in
  let db := (createTask db ann (mk "two") 2000).2 in
  (createTask db ann (mk "three") 3000).2.

(** Task 10 of Ann with a comment of Bob and a file of Cat. *)
Definition db_detail : DB.t :=
  DB.mk users ∅
    {[ 10%N := Task.mk "Write report" None Open Medium None 1 (Some 2%N)
                 None [] [30%N] [20%N] 1000 1000 None ]}
    {[ 20%N := Comment.mk "Draft attached" 10 2 1500 1500 ]}
    {[ 30%N := Attachment.mk "f-30.pdf" "draft.pdf" "application/pdf" 2048
                 "uploads/f-30.pdf" 10 3 1600 ]}
    31.

End Sample.

(** ** [controllers/taskController.js]: the tasks of the caller *)

(** [req.query] of [getMyTasks]. *)
Module MyTasksQuery.
Record t := mk {
  status : option string;
  sortBy : option string;
  order : option string
}.
End MyTasksQuery.

(** A task with [createdBy] and [team] populated; [assignedTo] stays the
    reference of the document. *)
Record MyTask := {
  mt_id : ObjectId;
  mt_doc : Task.t;
  mt_createdBy : option UserRef;
  mt_team : option TeamRef
}.

(** The body of a [getMyTasks] answer. *)
Record MyTasksPage := {
  my_count : nat;
  my_data : list MyTask
}.

(** The filter [{ assignedTo: req.user.id }], with [status] when it is
    given. *)
Definition my_matches (user : Caller.t) (q : MyTasksQuery.t) (t : Task.t)
  : bool :=
  bool_decide (Task.assignedTo t = Some (Caller.id user))
  && (if Js.truthy_opt (MyTasksQuery.status q)
      then bool_decide (Some (Status_to_string (Task.status t))
                        = MyTasksQuery.status q)
      else true).

Section taskQuery_slice.
Context {ext : External} {store : Store}.

(** [exports.getMyTasks]. The query fails when the engine does not accept
    the sort path. *)
Definition getMyTasks (db : DB.t) (user : Caller.t) (q : MyTasksQuery.t)
  : Response MyTasksPage * DB.t :=
  let sortBy := default "createdAt" (MyTasksQuery.sortBy q) in
  let order := default "desc" (MyTasksQuery.order q) in
  let sortOrder := if String.eqb order "desc" then -1 else 1 in
  if negb (sort_accepts sortBy false)
  then (Thrown (EngineError "bad sort specification"), db)
  else
    let tasks :=
      Engine.sort sortBy sortOrder
        (filter (λ d, my_matches user q d.2) (map_to_list (DB.tasks db))) in
    (Ok 200 {| my_count := length tasks;
               my_data :=
                 (λ d, {| mt_id := d.1;
                          mt_doc := d.2;
                          mt_createdBy :=
                            populate_user db (Task.createdBy d.2);
                          mt_team := Task.team d.2 ≫= populate_team db |})
                   <$> tasks |},
     db).

(** The documents of a page: a slice of the sorted matches. *)
Definition page_slice (db : DB.t) (q : TaskQuery.t)
  : list (ObjectId * Task.t) :=
  let p := default 1 (TaskQuery.page q) in
  let l := default 10 (TaskQuery.limit q) in
  Engine.limit l
    (drop (Z.to_nat ((p - 1) * l))
       (Engine.sort (default "createdAt" (TaskQuery.sortBy q))
          (if String.eqb (default "desc" (TaskQuery.order q)) "desc"
           then -1 else 1)
          (Task_find db q))).

End taskQuery_slice.

(** ** The models that are not among the sources

    What [models/User.js], [models/Comment.js] and [models/Attachment.js]
    do when a document is created or saved (casts, validators, defaults,
    the hashing of the password) is a parameter: each function gives the
    document the model stores, or the error it throws. *)
Class Models := {
  (** [User.create({ name, email, password })] *)
  User_create : string → string → string → Date → Exception + User.t;
  (** [user.password = newPassword; await user.save()] *)
  User_set_password : string → Date → User.t → Exception + User.t;
  (** [Comment.create({ content, task, author })] *)
  Comment_create :
    option string → ObjectId → ObjectId → Date → Exception + Comment.t;
  (** [Comment.findByIdAndUpdate(id, { content }, { new: true,
      runValidators: true })] on the document found *)
  Comment_set_content : option string → Comment.t → Exception + Comment.t
}.

(** ** [controllers/authController.js]: the other handlers *)

(** [req.body] of [register]; a body that lacks one of the three texts is
    outside the model. *)
Module RegisterBody.
Record t := mk { name : string; email : string; password : string }.
End RegisterBody.

(** [req.body] of [updatePassword], with both texts present. *)
Module PasswordBody.
Record t := mk { currentPassword : string; newPassword : string }.
End PasswordBody.

Section authController_more.
Context `{External} `{Models}.

(** [exports.register] *)
Definition register (db : DB.t) (body : RegisterBody.t) (now : Date)
  : Response LoginData * DB.t :=
  match User_findOne db (RegisterBody.email body) with
  | Some _ => (Fail 400 "User already exists with this email", db)
  | None =>
      match User_create (RegisterBody.name body) (RegisterBody.email body)
                        (RegisterBody.password body) now with
      | inl e => (Thrown e, db)
      | inr user =>
          let '(id, db) := DB.alloc db in
          let db := DB.set_users (<[id := user]> (DB.users db)) db in
          (Ok 201 {| ld_id := id;
                     ld_name := User.name user;
                     ld_email := User.email user;
                     ld_role := User.role user;
                     ld_token := generateToken id |},
           db)
      end
  end.

(** [exports.updatePassword]. The handler calls [user.comparePassword]
    on what [User.findById] returns, which throws when the caller's
    document is gone. *)
Definition updatePassword (db : DB.t) (user : Caller.t)
    (body : PasswordBody.t) (now : Date) : Response string * DB.t :=
  match DB.users db !! Caller.id user with
  | None => (Thrown (TypeError "Cannot read properties of null"), db)
  | Some doc =>
      let isMatch :=
        comparePassword (User.password doc)
                        (PasswordBody.currentPassword body) in
      if negb isMatch
      then (Fail 401 "Current password is incorrect", db)
      else
        match User_set_password (PasswordBody.newPassword body) now doc with
        | inl e => (Thrown e, db)
        | inr doc =>
            (Ok 200 (generateToken (Caller.id user)),
             DB.set_users (<[Caller.id user := doc]> (DB.users db)) db)
        end
  end.

(** [exports.logout] *)
Definition logout (db : DB.t) (user : Caller.t) : Response string * DB.t :=
  (Ok 200 "Logged out successfully", db).

End authController_more.

(** ** [controllers/commentController.js] *)

Definition set_db_comments (cs : gmap N Comment.t) (db : DB.t) : DB.t :=
  DB.mk (DB.users db) (DB.teams db) (DB.tasks db) cs (DB.attachments db)
        (DB.next_id db).

Definition set_task_comments (cs : list ObjectId) (x : Task.t) : Task.t :=
  Task.mk (Task.title x) (Task.description x) (Task.status x)
          (Task.priority x) (Task.dueDate x) (Task.createdBy x)
          (Task.assignedTo x) (Task.team x) (Task.tags x)
          (Task.attachments x) cs (Task.createdAt x) (Task.updatedAt x)
          (Task.completedAt x).

(** [{ $pull: { comments: id } }] on a task. *)
Definition pull_comment (id : ObjectId) (x : Task.t) : Task.t :=
  set_task_comments (filter (λ c, c ≠ id) (Task.comments x)) x.

(** A comment with [author] populated. *)
Definition populate_comment_doc (db : DB.t) (id : ObjectId) (c : Comment.t)
  : PopulatedComment :=
  {| pc_id := id; pc_doc := c;
     pc_author := populate_user db (Comment.author c) |}.

(** The body of a [getComments] answer. *)
Record CommentList := {
  cl_count : nat;
  cl_data : list PopulatedComment
}.

(** [.sort({ createdAt: -1 })] on comments. *)
Definition newer_comment : relation (ObjectId * Comment.t) :=
  λ a b, Comment.createdAt b.2 ≤ Comment.createdAt a.2.

#[global] Instance newer_comment_dec : RelDecision newer_comment.
Proof. intros a b. unfold newer_comment. apply _. Defined.

(** [comment.author.toString() !== req.user.id] *)
Definition not_author (comment : Comment.t) (user : Caller.t) : bool :=
  negb (bool_decide (Comment.author comment = Caller.id user)).

Section commentController.
Context `{Models}.

(** [exports.addComment]: the comment is created, then its id is pushed
    on [task.comments] and the task is saved, which runs the save hook of
    the task. *)
Definition addComment (db : DB.t) (user : Caller.t) (taskId : ObjectId)
    (content : option string) (now : Date)
  : Response PopulatedComment * DB.t :=
  match DB.tasks db !! taskId with
  | None => (Fail 404 "Task not found", db)
  | Some loaded =>
      match Comment_create content taskId (Caller.id user) now with
      | inl e => (Thrown e, db)
      | inr comment =>
          let '(id, db) := DB.alloc db in
          let db := set_db_comments (<[id := comment]> (DB.comments db)) db in
          let task :=
            set_task_comments (Task.comments loaded ++ [id]) loaded in
          let task := Task_pre_save (Some loaded) now task in
          let db := DB.set_tasks (<[taskId := task]> (DB.tasks db)) db in
          (Ok 201 (populate_comment_doc db id comment), db)
      end
  end.

(** [exports.getComments] *)
Definition getComments (db : DB.t) (user : Caller.t) (taskId : ObjectId)
  : Response CommentList * DB.t :=
  match DB.tasks db !! taskId with
  | None => (Fail 404 "Task not found", db)
  | Some _ =>
      let comments :=
        merge_sort newer_comment
          (filter (λ d, Comment.task d.2 = taskId)
                  (map_to_list (DB.comments db))) in
      (Ok 200 {| cl_count := length comments;
                 cl_data :=
                   (λ d, populate_comment_doc db d.1 d.2) <$> comments |},
       db)
  end.

(** [exports.updateComment] *)
Definition updateComment (db : DB.t) (user : Caller.t) (id : ObjectId)
    (content : option string) : Response PopulatedComment * DB.t :=
  match DB.comments db !! id with
  | None => (Fail 404 "Comment not found", db)
  | Some comment =>
      if not_author comment user && not_admin user
      then (Fail 403 "Not authorized to update this comment", db)
      else
        match Comment_set_content content comment with
        | inl e => (Thrown e, db)
        | inr comment =>
            let db :=
              set_db_comments (<[id := comment]> (DB.comments db)) db in
            (Ok 200 (populate_comment_doc db id comment), db)
        end
  end.

(** [exports.deleteComment]: the id is pulled from the comments of the
    parent task, when there is such a task, and the comment is deleted. *)
Definition deleteComment (db : DB.t) (user : Caller.t) (id : ObjectId)
  : Response string * DB.t :=
  match DB.comments db !! id with
  | None => (Fail 404 "Comment not found", db)
  | Some comment =>
      if not_author comment user && not_admin user
      then (Fail 403 "Not authorized to delete this comment", db)
      else
        let db :=
          DB.set_tasks
            (alter (pull_comment id) (Comment.task comment) (DB.tasks db))
            db in
        (Ok 200 "Comment deleted successfully",
         set_db_comments (delete id (DB.comments db)) db)
  end.

End commentController.

(** ** [controllers/attachmentController.js] *)

(** [req.file], as the upload middleware leaves it. *)
Module FileMeta.
Record t := mk {
  filename : string;
  originalname : string;
  mimetype : string;
  size : Z;
  path : string
}.
End FileMeta.

(** The attachment model and the host, which are not among the sources:
    [Attachment.create({ filename, originalName, mimetype, size, path,
    task, uploadedBy })] and [path.resolve]. *)
Class Host := {
  Attachment_create :
    FileMeta.t → ObjectId → ObjectId → Date → Exception + Attachment.t;
  path_resolve : string → string
}.

Definition set_db_attachments (xs : gmap N Attachment.t) (db : DB.t) : DB.t :=
  DB.mk (DB.users db) (DB.teams db) (DB.tasks db) (DB.comments db) xs
        (DB.next_id db).

Definition set_task_attachments (xs : list ObjectId) (x : Task.t) : Task.t :=
  Task.mk (Task.title x) (Task.description x) (Task.status x)
          (Task.priority x) (Task.dueDate x) (Task.createdBy x)
          (Task.assignedTo x) (Task.team x) (Task.tags x) xs
          (Task.comments x) (Task.createdAt x) (Task.updatedAt x)
          (Task.completedAt x).

(** [{ $pull: { attachments: id } }] on a task. *)
Definition pull_attachment (id : ObjectId) (x : Task.t) : Task.t :=
  set_task_attachments (filter (λ a, a ≠ id) (Task.attachments x)) x.

(** An attachment with [uploadedBy] populated. *)
Definition populate_attachment_doc (db : DB.t) (id : ObjectId)
    (a : Attachment.t) : PopulatedAttachment :=
  {| pa_id := id; pa_doc := a;
     pa_uploadedBy := populate_user db (Attachment.uploadedBy a) |}.

(** The body of a [getAttachments] answer. *)
Record AttachmentList := {
  al_count : nat;
  al_data : list PopulatedAttachment
}.

(** [.sort({ createdAt: -1 })] on attachments. *)
Definition newer_attachment : relation (ObjectId * Attachment.t) :=
  λ a b, Attachment.createdAt b.2 ≤ Attachment.createdAt a.2.

#[global] Instance newer_attachment_dec : RelDecision newer_attachment.
Proof. intros a b. unfold newer_attachment. apply _. Defined.

(** [attachment.uploadedBy.toString() !== req.user.id] *)
Definition not_uploader (a : Attachment.t) (user : Caller.t) : bool :=
  negb (bool_decide (Attachment.uploadedBy a = Caller.id user)).

(** What [downloadAttachment] sends: the two headers it sets and the file
    it hands to [res.sendFile]. *)
Record Download := {
  content_type : string;
  content_disposition : string;
  sent_file : string
}.

Definition dquote : string := String (ascii_of_nat 34) EmptyString.

Section attachmentController.
Context `{Host}.

(** [exports.uploadAttachment], [file] being [req.file]. *)
Definition uploadAttachment (db : DB.t) (user : Caller.t)
    (taskId : ObjectId) (file : option FileMeta.t) (now : Date)
  : Response PopulatedAttachment * DB.t :=
  match DB.tasks db !! taskId with
  | None => (Fail 404 "Task not found", db)
  | Some loaded =>
      match file with
      | None => (Fail 400 "Please upload a file", db)
      | Some file =>
          match Attachment_create file taskId (Caller.id user) now with
          | inl e => (Thrown e, db)
          | inr attachment =>
              let '(id, db) := DB.alloc db in
              let db :=
                set_db_attachments
                  (<[id := attachment]> (DB.attachments db)) db in
              let task :=
                set_task_attachments (Task.attachments loaded ++ [id])
                                     loaded in
              let task := Task_pre_save (Some loaded) now task in
              let db := DB.set_tasks (<[taskId := task]> (DB.tasks db)) db in
              (Ok 201 (populate_attachment_doc db id attachment), db)
          end
      end
  end.

(** [exports.getAttachments] *)
Definition getAttachments (db : DB.t) (user : Caller.t) (taskId : ObjectId)
  : Response AttachmentList * DB.t :=
  match DB.tasks db !! taskId with
  | None => (Fail 404 "Task not found", db)
  | Some _ =>
      let attachments :=
        merge_sort newer_attachment
          (filter (λ d, Attachment.task d.2 = taskId)
                  (map_to_list (DB.attachments db))) in
      (Ok 200 {| al_count := length attachments;
                 al_data :=
                   (λ d, populate_attachment_doc db d.1 d.2)
                     <$> attachments |},
       db)
  end.

(** [exports.downloadAttachment], [files] being the paths [fs.access]
    accepts. *)
Definition downloadAttachment (db : DB.t) (files : gset string)
    (user : Caller.t) (id : ObjectId) : Response Download :=
  match DB.attachments db !! id with
  | None => Fail 404 "Attachment not found"
  | Some attachment =>
      if bool_decide (Attachment.path attachment ∈ files)
      then
        Ok 200 {| content_type := Attachment.mimetype attachment;
                  content_disposition :=
                    ("attachment; filename=" ++ dquote
                       ++ Attachment.originalName attachment ++ dquote)%string;
                  sent_file := path_resolve (Attachment.path attachment) |}
      else Fail 404 "File not found on server"
  end.

(** [exports.deleteAttachment]: the id is pulled from the attachments of
    the parent task, the file is unlinked (a failure is logged and nothing
    more), and the document is deleted. *)
Definition deleteAttachment (db : DB.t) (files : gset string)
    (user : Caller.t) (id : ObjectId)
  : Response string * (DB.t * gset string) :=
  match DB.attachments db !! id with
  | None => (Fail 404 "Attachment not found", (db, files))
  | Some attachment =>
      if not_uploader attachment user && not_admin user
      then (Fail 403 "Not authorized to delete this attachment", (db, files))
      else
        let db :=
          DB.set_tasks
            (alter (pull_attachment id) (Attachment.task attachment)
                   (DB.tasks db))
            db in
        let files := files ∖ {[ Attachment.path attachment ]} in
        (Ok 200 "Attachment deleted successfully",
         (set_db_attachments (delete id (DB.attachments db)) db, files))
  end.

End attachmentController.

(** ** Instances of the absent models, and more sample data *)

Module Sample2.

(** The models as the data model of the project describes them: the
    fields as the handler gives them, the role ['user'], no teams, a
    non-empty trimmed comment, the dates of creation. *)
#[export] Instance models : Models := {|
  User_create name email password now :=
    inr (User.mk name email password RoleUser []);
  User_set_password password now u :=
    inr (User.mk (User.name u) (User.email u) password (User.role u)
                 (User.teams u));
  Comment_create content task author now :=
    match content with
    | None => inl (ValidationError "content")
    | Some s =>
        s ←! cast_required "content" s;
        inr (Comment.mk s task author now now)
    end;
  Comment_set_content content c :=
    match content with
    | None => inr c
    | Some s =>
        s ←! cast_required "content" s;
        inr (Comment.mk s (Comment.task c) (Comment.author c)
                        (Comment.createdAt c) (Comment.updatedAt c))
    end
|}.

#[export] Instance host : Host := {|
  Attachment_create file task uploadedBy now :=
    inr (Attachment.mk (FileMeta.filename file) (FileMeta.originalname file)
                       (FileMeta.mimetype file) (FileMeta.size file)
                       (FileMeta.path file) task uploadedBy now);
  path_resolve p := ("/srv/app/" ++ p)%string
|}.

Definition draft : FileMeta.t :=
  FileMeta.mk "f-1.pdf" "draft.pdf" "application/pdf" 2048 "uploads/f-1.pdf".

(** Task 10 of Ann, assigned to Bob, with a comment (11) of Bob. *)
Definition db_commented : DB.t :=
  (addComment (H := models) Sample.db_task Sample.bob 10
              (Some "Draft attached") 1500).2.

(** The same task with a file (11) uploaded by Cat. *)
Definition db_attached : DB.t :=
  (uploadAttachment (H := host) Sample.db_task Sample.cat 10 (Some draft)
                    1600).2.

(** Team 10 of Ann with Bob as a plain member and Cat as an admin. *)
Definition db_team3 : DB.t :=
  (addMember (store := Sample.store) Sample.db_team2 Sample.ann 10
             (MemberBody.mk Sample.cat_id (Some "admin")) 3000).2.

(** Two users whose ids have a letter among their digits, Eve (10, in
    text [...0a]) and Fay (11, in text [...0b]), and the team (12) that Eve
    creates. *)
Definition eve : Caller.t := Caller.mk 10 RoleUser.

Definition db_eve : DB.t :=
  (createTeam
     (DB.mk (list_to_map
               [ (10%N, User.mk "Eve" "eve@example.com" "pw-eve" RoleUser []);
                 (11%N, User.mk "Fay" "fay@example.com" "pw-fay" RoleUser [])
               ])
            ∅ ∅ ∅ ∅ 12)
     eve (TeamBody.mk (Some "Ops") None) 1000).2.

(** Bob has two tasks assigned, Ann one. *)
Definition db_assigned : DB.t :=
  let mk t u :=
    CreateBody.mk (Some t) None None (Some u) None None None in
  let db :=
    (createTask (store := Sample.store) Sample.db0 Sample.ann
       (mk "one" Sample.bob_id) 1000).2 in
  let db :=
    (createTask (store := Sample.store) db Sample.ann
       (mk "two" Sample.ann_id) 2000).2 in
  (createTask (store := Sample.store) db Sample.ann
     (mk "three" Sample.bob_id) 3000).2.

End Sample2.

(** * The helpers on concrete values *)

Example trim_both_ends : Js.trim "  Write  report " = "Write  report".
Proof. reflexivity. Qed.

Example trim_blank : Js.truthy (Js.trim "   ") = false.
Proof. reflexivity. Qed.

(** A no-break space (U+00A0, the bytes C2 A0) is white space. *)
Example trim_no_break_space :
  Js.trim (String (ascii_of_nat 194) (String (ascii_of_nat 160) EmptyString))
  = EmptyString.
Proof. reflexivity. Qed.

Example ceil_div_exact : Js.ceil_div 20 10 = Some 2.
Proof. reflexivity. Qed.

Example ceil_div_partial_page : Js.ceil_div 21 10 = Some 3.
Proof. reflexivity. Qed.

Example ceil_div_no_tasks : Js.ceil_div 0 10 = Some 0.
Proof. reflexivity. Qed.

Example ceil_div_negative_limit : Js.ceil_div 3 (-2) = Some (-1).
Proof. reflexivity. Qed.

Example ceil_div_zero_limit : Js.ceil_div 3 0 = None.
Proof. reflexivity. Qed.

Example limit_zero_is_no_limit : Engine.limit 0 [1; 2; 3] = [1; 2; 3].
Proof. reflexivity. Qed.

(** The text of an id, and the texts that denote it: the capitals denote
    the same id and are not its text. *)
Example id_text_of_ten :
  id_text (Store := Sample.store) 10 = "00000000000000000000000a".
Proof. reflexivity. Qed.

Example id_cast_capitals :
  id_cast (Store := Sample.store) "00000000000000000000000A" = Some 10%N
  ∧ id_cast (Store := Sample.store) "00000000000000000000000a" = Some 10%N
  ∧ id_cast (Store := Sample.store) "10" = None.
Proof. vm_compute. done. Qed.

Example created_task_is_open :
  DB.tasks Sample.db_task !! 10%N
  = Some (Task.mk "Write report" None Open Medium None 1 (Some 2%N) None []
                  [] [] 1000 1000 None).
Proof. vm_compute. reflexivity. Qed.

Example created_team_has_owner :
  DB.teams Sample.db_team !! 10%N
  = Some (Team.mk "Core" None 1 [Member.mk 1 Owner 1000] 1000).
Proof. reflexivity. Qed.

Example newest_task_first :
  pt_id <$> from_option data []
    (match (getTasks (ext := Sample.external) (store := Sample.store)
              Sample.db_tasks3 Sample.ann TaskQuery.empty).1 with
     | Ok _ d => Some d
     | _ => None
     end)
  = [12%N; 11%N; 10%N].
Proof. vm_compute. reflexivity. Qed.

(** * Properties of the task controller *)

Section taskController_facts.
Context {store : Store}.

(** The three authorisation tests, read as propositions. *)
Lemma not_creator_false task user :
  not_creator task user = false ↔ Task.createdBy task = Caller.id user.
Proof.
  unfold not_creator. rewrite negb_false_iff, bool_decide_eq_true. done.
Qed.

Lemma not_assignee_false task user :
  not_assignee task user = false
  ↔ Task.assignedTo task = Some (Caller.id user).
Proof.
  unfold not_assignee. rewrite negb_false_iff, bool_decide_eq_true. done.
Qed.

Lemma not_admin_false user :
  not_admin user = false ↔ Caller.role user = RoleAdmin.
Proof.
  unfold not_admin. rewrite negb_false_iff, bool_decide_eq_true. done.
Qed.



Lemma not_admin_true user :
  not_admin user = true ↔ Caller.role user ≠ RoleAdmin.
Proof.
  unfold not_admin. rewrite negb_true_iff, bool_decide_eq_false. done.
Qed.

(** The save hook never replaces a completion date that is set. *)
Lemma Task_pre_save_keeps_completedAt loaded now this d :
  Task.completedAt this = Some d →
  Task.completedAt (Task_pre_save loaded now this) = Some d.
Proof.
  intros Hd. unfold Task_pre_save.
  destruct (isModified_status _ _); simpl; [|done].
  destruct (bool_decide (Task.status this = Completed)); simpl; [|done].
  rewrite Hd. rewrite bool_decide_eq_true_2 by eauto. done.
Qed.

(** What [completeTask] stores for a caller it accepts: the status
    ['completed'] and the clock reading of this very call. *)
Lemma completeTask_stores db user id now loaded :
  DB.tasks db !! id = Some loaded →
  not_assignee loaded user && not_creator loaded user && not_admin user
    = false →
  ∃ task,
    DB.tasks (completeTask db user id now).2 !! id = Some task
    ∧ Task.status task = Completed
    ∧ Task.completedAt task = Some now.
Proof.
  intros Hid Hauth. unfold completeTask. rewrite Hid, Hauth. simpl.
  eexists. rewrite lookup_insert_eq. split; [done|]. split.
  - unfold Task_pre_save.
    repeat (case_match; simpl; try done).
  - by apply Task_pre_save_keeps_completedAt.
Qed.

Lemma cast_id_inr path s id : cast_id path s = inr id ↔ id_cast s = Some id.
Proof.
  unfold cast_id. destruct (id_cast s); split; intros Hc; by simplify_eq.
Qed.

Lemma cast_ref_inr path s r :
  cast_ref path s = inr r ↔ ∃ id, r = Some id ∧ id_cast s = Some id.
Proof.
  unfold cast_ref, bind_cast, cast_id. destruct (id_cast s) as [id|].
  - split; [intros [= <-]; by exists id | by intros (? & -> & [= ->])].
  - split; [done | by intros (? & _ & ?)].
Qed.

(** What a plain update does to [createdBy], [updatedAt], [completedAt]
    and the references to comments and attachments when the casts and the
    validators pass. *)
Lemma Task_update_inr body t t' :
  Task_update body t = inr t' →
  match TaskBody.createdBy body with
  | None => Task.createdBy t' = Task.createdBy t
  | Some s => id_cast s = Some (Task.createdBy t')
  end
  ∧ Task.updatedAt t' = Task.updatedAt t
  ∧ Task.completedAt t' = Task.completedAt t
  ∧ Task.createdAt t' = Task.createdAt t
  ∧ Task.comments t' = Task.comments t
  ∧ Task.attachments t' = Task.attachments t
  ∧ match TaskBody.status body with
    | None => Task.status t' = Task.status t
    | Some s => Status_of_string s = Some (Task.status t')
    end.
Proof.
  unfold Task_update, bind_cast, cast_enum. intros Hu.
  destruct (match TaskBody.title body with
            | Some s => _ | None => _ end) as [e|title]; [done|].
  destruct (TaskBody.status body) as [st|] eqn:Hst.
  - destruct (Status_of_string st) as [status|] eqn:Hpst; [|done].
    destruct (match TaskBody.priority body with
              | Some s => _ | None => _ end) as [e|priority]; [done|].
    destruct (match TaskBody.dueDate body with
              | Some s => _ | None => _ end) as [e|dueDate]; [done|].
    destruct (TaskBody.createdBy body) as [cb|] eqn:Hcb.
    + destruct (cast_id "createdBy" cb) as [e|createdBy] eqn:Hc; [done|].
      apply cast_id_inr in Hc.
      destruct (match TaskBody.assignedTo body with
                | Some s => _ | None => _ end) as [e|assignedTo]; [done|].
      destruct (match TaskBody.team body with
                | Some s => _ | None => _ end) as [e|team]; [done|].
      injection Hu as <-. done.
    + destruct (match TaskBody.assignedTo body with
                | Some s => _ | None => _ end) as [e|assignedTo]; [done|].
      destruct (match TaskBody.team body with
                | Some s => _ | None => _ end) as [e|team]; [done|].
      injection Hu as <-. done.
  - destruct (match TaskBody.priority body with
              | Some s => _ | None => _ end) as [e|priority]; [done|].
    destruct (match TaskBody.dueDate body with
              | Some s => _ | None => _ end) as [e|dueDate]; [done|].
    destruct (TaskBody.createdBy body) as [cb|] eqn:Hcb.
    + destruct (cast_id "createdBy" cb) as [e|createdBy] eqn:Hc; [done|].
      apply cast_id_inr in Hc.
      destruct (match TaskBody.assignedTo body with
                | Some s => _ | None => _ end) as [e|assignedTo]; [done|].
      destruct (match TaskBody.team body with
                | Some s => _ | None => _ end) as [e|team]; [done|].
      injection Hu as <-. done.
    + destruct (match TaskBody.assignedTo body with
                | Some s => _ | None => _ end) as [e|assignedTo]; [done|].
      destruct (match TaskBody.team body with
                | Some s => _ | None => _ end) as [e|team]; [done|].
      injection Hu as <-. done.
Qed.



End taskController_facts.

(** C1 (the code departs from the claim). [completeTask] assigns
    [completedAt = Date.now()] before saving, so a second call by an
    accepted caller replaces the completion date of the first: Bob, the
    assignee of task 10, completes it at 5000 and again at 9000, and the
    stored [completedAt] goes from 5000 to 9000. The set-once test of the
    save hook ([!this.completedAt]) never sees an unset date on this
    path. *)
Theorem completeTask_twice_overwrites_completedAt :
  let db1 := (completeTask Sample.db_task Sample.bob 10 5000).2 in
  let db2 := (completeTask db1 Sample.bob 10 9000).2 in
  Task.completedAt <$> DB.tasks db1 !! 10%N = Some (Some 5000)
  ∧ Task.completedAt <$> DB.tasks db2 !! 10%N = Some (Some 9000).
Proof. vm_compute. done. Qed.

(** C2, as stated, fails: Ann, the creator of task 10, sends the body
    [{ createdBy: '000000000000000000000003' }]; the update succeeds and
    the task's [createdBy] is 3 afterwards, not 1. *)
Lemma updateTask_createdBy_changed :
  let body :=
    TaskBody.mk None None None None None (Some "000000000000000000000003")
                None None None in
  let r :=
    updateTask (store := Sample.store) Sample.db_task Sample.ann 10
      (PlainBody body) in
  Task.createdBy <$> DB.tasks Sample.db_task !! 10%N = Some 1%N
  ∧ not_creator
      (Task.mk "Write report" None Open Medium None 1 (Some 2%N) None []
               [] [] 1000 1000 None)
      Sample.ann = false
  ∧ success r.1 = true
  ∧ Task.createdBy <$> DB.tasks r.2 !! 10%N = Some 3%N
  ∧ Task.createdBy <$> DB.tasks r.2 !! 10%N
    ≠ Task.createdBy <$> DB.tasks Sample.db_task !! 10%N.
Proof. vm_compute. repeat split; congruence. Qed.

Section taskController_claims.
Context {store : Store}.

(** C2, amended. For an update by an accepted caller (creator, assignee
    or global admin) of an existing task with a plain body (top-level
    fields of the schema with their texts, no update operators), the task
    is still stored afterwards; it is the task as it was when the update is
    refused by a validator or a cast; its [createdBy] is the former one when
    the body has no [createdBy], and the id that the [createdBy] of the body
    denotes when the body has one and the update succeeds. *)
Theorem updateTask_createdBy db user id (body : TaskBody.t) task :
  DB.tasks db !! id = Some task →
  not_creator task user && not_assignee task user && not_admin user
    = false →
  ∃ task',
    DB.tasks (updateTask db user id (PlainBody body)).2 !! id = Some task'
    ∧ (success (updateTask db user id (PlainBody body)).1 = false →
       task' = task)
    ∧ (TaskBody.createdBy body = None →
       Task.createdBy task' = Task.createdBy task)
    ∧ (∀ s, TaskBody.createdBy body = Some s →
            success (updateTask db user id (PlainBody body)).1 = true →
            id_cast s = Some (Task.createdBy task')).
Proof.
  intros Hid Hauth. unfold updateTask. rewrite Hid, Hauth. simpl.
  destruct (Task_update body task) as [e|task'] eqn:Hu; simpl.
  - exists task. split; [done|]. split; [done|]. split; done.
  - exists task'. rewrite lookup_insert_eq.
    apply Task_update_inr in Hu as (Hc & _).
    split; [done|]. split; [done|].
    split; [by intros Hn; rewrite Hn in Hc|].
    intros s Hs _. by rewrite Hs in Hc.
Qed.


End taskController_claims.

Lemma updateTask_createdBy_witness :
  let body :=
    TaskBody.mk (Some "Write the report") None (Some "in-progress") None
                None None None None None in
  let task :=
    Task.mk "Write report" None Open Medium None 1 (Some 2%N) None
            [] [] [] 1000 1000 None in
  DB.tasks Sample.db_task !! 10%N = Some task
  ∧ not_creator task Sample.bob && not_assignee task Sample.bob
    && not_admin Sample.bob = false
  ∧ ∃ task',
      DB.tasks (updateTask (store := Sample.store) Sample.db_task Sample.bob
                  10 (PlainBody body)).2 !! 10%N
      = Some task'
      ∧ Task.createdBy task' = 1%N.
Proof.
  intros body task.
  assert (Hid : DB.tasks Sample.db_task !! 10%N = Some task)
    by (vm_compute; reflexivity).
  assert (Hauth : not_creator task Sample.bob && not_assignee task Sample.bob
                  && not_admin Sample.bob = false) by reflexivity.
  split; [exact Hid|]. split; [exact Hauth|].
  destruct (updateTask_createdBy (store := Sample.store) Sample.db_task
              Sample.bob 10 body task Hid Hauth)
    as (task' & Hstored & _ & Hsame & _).
  exists task'. split; [exact Hstored|]. exact (Hsame eq_refl).
Defined.


(** * Properties of the task queries *)

Section taskQuery_facts.

(** [Math.ceil(total / limit)] for a positive page size is the least
    number of pages of that size that hold [total] documents. *)
Lemma ceil_div_spec (a b : Z) :
  1 ≤ b →
  ∃ k, Js.ceil_div a b = Some k ∧ b * (k - 1) < a ≤ b * k.
Proof.
  intros Hb. unfold Js.ceil_div.
  destruct (Z.eqb_spec b 0) as [->|_]; [lia|].
  eexists. split; [done|].
  pose proof (Z.div_mod (- a) b) as Hdm.
  pose proof (Z.mod_pos_bound (- a) b) as Hmod.
  nia.
Qed.

Lemma length_limit {A} (n : Z) (l : list A) :
  1 ≤ n → (length (Engine.limit n l) ≤ Z.to_nat n)%nat.
Proof.
  intros Hn. unfold Engine.limit.
  destruct (Z.eqb_spec n 0) as [->|_]; [lia|].
  rewrite length_take, Z.abs_eq by lia. lia.
Qed.

Lemma skip_inr {A} (n : Z) (l : list A) :
  0 ≤ n → Engine.skip n l = inr (drop (Z.to_nat n) l).
Proof.
  intros Hn. unfold Engine.skip.
  destruct (Z.ltb_spec n 0); [lia|done].
Qed.

Lemma skip_inl {A} (n : Z) (l : list A) :
  n < 0 →
  Engine.skip n l = inl (EngineError "skip value must be non-negative").
Proof.
  intros Hn. unfold Engine.skip.
  destruct (Z.ltb_spec n 0); [done|lia].
Qed.

End taskQuery_facts.

(** C10, as stated, fails: [getTask] has a failure that is not the 404.
    The text [42] is no id; [findById] throws when it casts it, and the
    answer is a 500. *)
Lemma getTask_malformed_id_is_500 :
  let r :=
    (getTask (store := Sample.store) Sample.db_detail Sample.cat "42").1 in
  id_cast (Store := Sample.store) "42" = None
  ∧ r = Thrown (CastError "_id")
  ∧ success r = false
  ∧ http_status r = 500
  ∧ r ≠ Fail 404 "Task not found".
Proof. vm_compute. repeat split; congruence. Qed.

(** C3, as stated, fails: with three tasks stored, the query [page=0] (and
    the default [limit] of 10) is not served as page 1; the skip is -10,
    the engine refuses it and the answer is a 500. *)
Lemma getTasks_page_zero_is_an_error :
  let q :=
    TaskQuery.mk None None None None None None None None (Some 0) None in
  let r :=
    (getTasks (ext := Sample.external) (store := Sample.store)
       Sample.db_tasks3 Sample.ann q).1 in
  r = Thrown (EngineError "skip value must be non-negative")
  ∧ success r = false
  ∧ http_status r = 500.
Proof. vm_compute. done. Qed.

Section taskQuery_claims.
Context {ext : External} {store : Store}.

(** C10, amended. [getTask] does not look at the caller and never answers
    403: for every caller and every text that denotes the id of a stored
    task it answers 200 with the task, its populated references and its
    comments and attachments with their authors and uploaders. It fails in
    two ways: 500 when the text of the id is no id, and 404 ['Task not
    found'] when the text is an id that names no task. *)
Theorem getTask_no_authorization db user id :
  (∀ user', getTask db user' id = getTask db user id)
  ∧ http_status (getTask db user id).1 ≠ 403
  ∧ (getTask db user id).2 = db
  ∧ (∀ oid task,
       id_cast id = Some oid → DB.tasks db !! oid = Some task →
       (getTask db user id).1 = Ok 200 (populate_detail db oid task))
  ∧ (success (getTask db user id).1 = false →
       (id_cast id = None
        ∧ (getTask db user id).1 = Thrown (CastError "_id"))
       ∨ (∃ oid, id_cast id = Some oid
                 ∧ DB.tasks db !! oid = None
                 ∧ (getTask db user id).1 = Fail 404 "Task not found")).
Proof.
  unfold getTask. split; [done|].
  destruct (id_cast id) as [oid|]; simpl.
  - destruct (DB.tasks db !! oid) as [task|] eqn:Hid; simpl.
    + split; [done|]. split; [done|].
      split; [|done]. intros oid' task' [= <-]. rewrite Hid.
      by intros [= <-].
    + split; [done|]. split; [done|].
      split; [intros oid' task' [= <-]; by rewrite Hid|].
      intros _. right. by exists oid.
  - split; [done|]. split; [done|]. split; [done|]. intros _. by left.
Qed.

Lemma getTasks_reduce db user q :
  query_cast_error q = None →
  sort_accepted q = true →
  getTasks db user q
  = match Engine.skip
            ((default 1 (TaskQuery.page q) - 1)
             * default 10 (TaskQuery.limit q))
            (Engine.sort (default "createdAt" (TaskQuery.sortBy q))
               (if String.eqb (default "desc" (TaskQuery.order q)) "desc"
                then -1 else 1)
               (Task_find db q)) with
    | inl e => (Thrown e, db)
    | inr rest =>
        (Ok 200
           {| count := length (Engine.limit (default 10 (TaskQuery.limit q))
                                 rest);
              total := Task_countDocuments db q;
              page := default 1 (TaskQuery.page q);
              pages :=
                Js.ceil_div (Z.of_nat (Task_countDocuments db q))
                            (default 10 (TaskQuery.limit q));
              data :=
                (λ d, populate_task db d.1 d.2)
                  <$> Engine.limit (default 10 (TaskQuery.limit q)) rest |},
         db)
    end.
Proof. intros Hc Hs. unfold getTasks. by rewrite Hc, Hs. Qed.

Lemma getTasks_Ok_conditions db user q code d :
  (getTasks db user q).1 = Ok code d →
  query_cast_error q = None
  ∧ sort_accepted q = true.
Proof.
  unfold getTasks. destruct (query_cast_error q); [done|].
  by destruct (sort_accepted q).
Qed.

(** C3, amended. [getTasks] applies no coercion to [page] and [limit].
    For a [page], a [limit] and a skip [(page - 1) * limit] that are safe
    integers, it succeeds exactly when the skip is not negative, the engine
    accepts the sort path and the filter can be cast, and then answers 200
    with [page] as it was given and [pages = Math.ceil(total / limit)]
    ([null] for a limit of 0); otherwise it answers 500. In particular a
    [page] below 1 with a [limit] of at least 1 is answered with an
    error. *)
Theorem getTasks_page_limit_as_given db user q :
  let p := default 1 (TaskQuery.page q) in
  let l := default 10 (TaskQuery.limit q) in
  let r := (getTasks db user q).1 in
  Js.safe_integer p → Js.safe_integer l → Js.safe_integer ((p - 1) * l) →
  (success r = true
   ↔ 0 ≤ (p - 1) * l
     ∧ sort_accepted q = true
     ∧ query_cast_error q = None)
  ∧ (success r = false → http_status r = 500)
  ∧ (∀ code d, r = Ok code d →
       code = 200 ∧ page d = p
       ∧ pages d = Js.ceil_div (Z.of_nat (total d)) l)
  ∧ (p < 1 → 1 ≤ l → success r = false).
Proof.
  intros p l r _ _ _. subst r.
  destruct (query_cast_error q) as [e|] eqn:Hc.
  { unfold getTasks. rewrite Hc. simpl.
    split; [split; [done | by intros (_ & _ & ?)]|].
    split; [done|]. split; done. }
  destruct (sort_accepted q)
    eqn:Hs.
  2:{ unfold getTasks. rewrite Hc, Hs. simpl.
      split; [split; [done | by intros (_ & ? & _)]|].
      split; [done|]. split; done. }
  rewrite getTasks_reduce by done. fold p l.
  destruct (Z.lt_ge_cases ((p - 1) * l) 0) as [Hneg|Hpos].
  - rewrite skip_inl by done. simpl.
    split; [split; [done | intros (? & _); lia]|].
    split; [done|]. split; done.
  - rewrite skip_inr by done. simpl.
    split; [done|]. split; [done|].
    split; [by intros code d [= <- <-]|].
    intros Hp Hl. nia.
Qed.

(** C8. For a list query with [limit >= 1], every answer that carries
    items is a 200 with at most [limit] items, [count] of them, [total]
    the number of all stored tasks that match the filter, and [pages] the
    ceiling of [total / limit]: the least [k] with [total <= limit * k].
    With [page >= 1] as well the query does succeed, when its numbers are
    safe integers, the engine accepts the sort path and the filter can be
    cast. *)
Theorem getTasks_page_size_and_pages db user q :
  1 ≤ default 10 (TaskQuery.limit q) →
  (1 ≤ default 1 (TaskQuery.page q) →
   Js.safe_integer (default 1 (TaskQuery.page q)) →
   Js.safe_integer (default 10 (TaskQuery.limit q)) →
   Js.safe_integer
     ((default 1 (TaskQuery.page q) - 1) * default 10 (TaskQuery.limit q)) →
   sort_accepted q = true →
   query_cast_error q = None →
   success (getTasks db user q).1 = true)
  ∧ ∀ code d,
      (getTasks db user q).1 = Ok code d →
      (length (data d) ≤ Z.to_nat (default 10%Z (TaskQuery.limit q)))%nat
      ∧ count d = length (data d)
      ∧ total d
        = length (filter (λ x, matches q x.2) (map_to_list (DB.tasks db)))
      ∧ ∃ k, pages d = Some k
             ∧ default 10 (TaskQuery.limit q) * (k - 1)
               < Z.of_nat (total d)
               ≤ default 10 (TaskQuery.limit q) * k.
Proof.
  intros Hl.
  set (l := default 10 (TaskQuery.limit q)) in *.
  set (p := default 1 (TaskQuery.page q)).
  split.
  - intros Hp _ _ _ Hs Hc. rewrite getTasks_reduce by done. fold p l.
    rewrite skip_inr by nia. done.
  - intros code d Hok.
    destruct (getTasks_Ok_conditions _ _ _ _ _ Hok) as [Hc Hs].
    revert Hok. rewrite getTasks_reduce by done. fold p l.
    destruct (Engine.skip _ _) as [e|rest]; simpl; [done|].
    intros [= <- <-]. simpl.
    rewrite length_fmap.
    split; [by apply length_limit|].
    split; [done|]. split; [done|].
    by apply ceil_div_spec.
Qed.

End taskQuery_claims.

Lemma getTask_no_authorization_witness :
  (getTask (store := Sample.store) Sample.db_detail Sample.cat
     "00000000000000000000000a").1
  = Ok 200
      {| td_task :=
           {| pt_id := 10;
              pt_doc :=
                Task.mk "Write report" None Open Medium None 1 (Some 2%N)
                        None [] [30%N] [20%N] 1000 1000 None;
              pt_createdBy := Some (Build_UserRef 1 "Ann" "ann@example.com");
              pt_assignedTo := Some (Build_UserRef 2 "Bob" "bob@example.com");
              pt_team := None |};
         td_comments :=
           [ {| pc_id := 20;
                pc_doc := Comment.mk "Draft attached" 10 2 1500 1500;
                pc_author :=
                  Some (Build_UserRef 2 "Bob" "bob@example.com") |} ];
         td_attachments :=
           [ {| pa_id := 30;
                pa_doc :=
                  Attachment.mk "f-30.pdf" "draft.pdf" "application/pdf"
                                2048 "uploads/f-30.pdf" 10 3 1600;
                pa_uploadedBy :=
                  Some (Build_UserRef 3 "Cat" "cat@example.com") |} ] |}.
Proof.
  destruct (getTask_no_authorization (store := Sample.store) Sample.db_detail
              Sample.cat "00000000000000000000000a")
    as (_ & _ & _ & Hfound & _).
  rewrite (Hfound 10%N _ eq_refl eq_refl). reflexivity.
Defined.

Lemma getTasks_page_limit_as_given_witness :
  let q :=
    TaskQuery.mk None None None None None None None None (Some 2) (Some 2) in
  Js.safe_integer 2 ∧ Js.safe_integer ((2 - 1) * 2)
  ∧ ∃ d, (getTasks (ext := Sample.external) (store := Sample.store)
            Sample.db_tasks3 Sample.ann q).1 = Ok 200 d
         ∧ page d = 2 ∧ pages d = Some 2.
Proof.
  intros q.
  assert (Hsafe : Js.safe_integer 2)
    by (unfold Js.safe_integer, Js.max_safe_integer; lia).
  split; [exact Hsafe|]. split; [exact Hsafe|].
  destruct (getTasks_page_limit_as_given (ext := Sample.external)
              (store := Sample.store) Sample.db_tasks3 Sample.ann q
              Hsafe Hsafe Hsafe) as (_ & _ & Hok & _).
  eexists. split; [vm_compute; reflexivity|].
  edestruct Hok as (_ & Hp & Hpages); [vm_compute; reflexivity|].
  split; [exact Hp|]. exact Hpages.
Defined.

Lemma getTasks_page_size_and_pages_witness :
  let q :=
    TaskQuery.mk None None None None None None None None (Some 1) (Some 2) in
  1 ≤ 2
  ∧ ∃ d, (getTasks (ext := Sample.external) (store := Sample.store)
            Sample.db_tasks3 Sample.ann q).1
         = Ok 200 d
         ∧ (length (data d) ≤ 2)%nat ∧ total d = 3%nat ∧ pages d = Some 2.
Proof.
  intros q. split; [lia|].
  destruct (getTasks_page_size_and_pages (ext := Sample.external)
              (store := Sample.store) Sample.db_tasks3 Sample.ann q)
    as [_ Hq]; [simpl; lia|].
  eexists. split; [vm_compute; reflexivity|].
  edestruct Hq as (Hlen & _ & Htot & k & Hk & _); [vm_compute; reflexivity|].
  split; [exact Hlen|]. split; vm_compute; reflexivity.
Defined.

(** * Properties of the team controller *)

Section teamController_facts.
Context {store : Store}.

Lemma isOwnerOrAdmin_spec team user :
  isOwnerOrAdmin team user = true
  ↔ ∃ m, m ∈ Team.members team
         ∧ Member.user m = Caller.id user
         ∧ (Member.role m = Owner ∨ Member.role m = Admin).
Proof.
  unfold isOwnerOrAdmin. rewrite existsb_exists.
  split; intros (m & Hm & Hp); exists m.
  - apply andb_true_iff in Hp as [Hu Hr].
    apply bool_decide_eq_true in Hu.
    apply orb_true_iff in Hr.
    rewrite !bool_decide_eq_true in Hr.
    by rewrite list_elem_of_In.
  - destruct Hp as [Hu Hr]. split; [by apply list_elem_of_In|].
    apply andb_true_iff. split; [by apply bool_decide_eq_true|].
    apply orb_true_iff. by rewrite !bool_decide_eq_true.
Qed.

Lemma isMember_spec team userId :
  isMember team userId = true
  ↔ ∃ m, m ∈ Team.members team ∧ Member.user m = userId.
Proof.
  unfold isMember. rewrite existsb_exists.
  split; intros (m & Hm & Hp); exists m.
  - apply bool_decide_eq_true in Hp. by rewrite list_elem_of_In.
  - split; [by apply list_elem_of_In|]. by apply bool_decide_eq_true.
Qed.

Lemma isMember_text_spec team userId :
  isMember_text team userId = true
  ↔ ∃ m, m ∈ Team.members team ∧ id_text (Member.user m) = userId.
Proof.
  unfold isMember_text. rewrite existsb_exists.
  split; intros (m & Hm & Hp); exists m.
  - apply String.eqb_eq in Hp. by rewrite list_elem_of_In.
  - split; [by apply list_elem_of_In|]. by apply String.eqb_eq.
Qed.

(** A text that is no id is the text of no id. *)
Lemma id_text_ne_malformed id s : id_cast s = None → id_text id ≠ s.
Proof.
  intros Hs Heq. destruct (id_text_castable id) as [x Hx].
  rewrite Heq in Hx. congruence.
Qed.

(** A team made by [Team.create] has its owner as an ['owner'] member. *)
Lemma Team_create_owner body owner now team :
  Team_create body owner now = inr team → owner_is_member team.
Proof.
  unfold Team_create, bind_cast. intros Hc.
  repeat (case_match; simplify_eq).
  all: eexists; split; [apply list_elem_of_here|done].
Qed.

Lemma Team_update_owner body team team' :
  Team_update body team = inr team' →
  owner_is_member team → owner_is_member team'.
Proof.
  unfold Team_update, bind_cast. intros Hu Ho.
  repeat (case_match; simplify_eq); done.
Qed.

Lemma owner_is_member_push team m :
  owner_is_member team →
  owner_is_member (Team.set_members (Team.members team ++ [m]) team).
Proof.
  intros (o & Ho & Hu & Hr). exists o. simpl.
  split; [|done]. apply elem_of_app. by left.
Qed.

(** The filter of [removeMember] keeps the record of the owner when the
    text it is given is not the text of the owner's id. *)
Lemma owner_is_member_filter team userId :
  id_text (Team.owner team) ≠ userId →
  owner_is_member team →
  owner_is_member
    (Team.set_members
       (filter (λ member, id_text (Member.user member) ≠ userId)
               (Team.members team))
       team).
Proof.
  intros Hne (o & Ho & Hu & Hr). exists o. simpl.
  split; [|done]. apply list_elem_of_filter. split; [congruence|done].
Qed.

Lemma teams_have_owner_insert db id team :
  teams_have_owner db →
  owner_is_member team →
  map_Forall (λ _ t, owner_is_member t) (<[id := team]> (DB.teams db)).
Proof. intros Hdb Ht. by apply map_Forall_insert_2. Qed.

(** Each handler of the team controller keeps the owner among the
    members of every stored team. *)
Lemma createTeam_teams_have_owner db user body now :
  teams_have_owner db → teams_have_owner (createTeam db user body now).2.
Proof.
  intros Hdb. unfold createTeam.
  destruct (Team_create _ _ _) as [e|team] eqn:Hc; simpl; [done|].
  unfold teams_have_owner. simpl.
  apply teams_have_owner_insert; [done|].
  by eapply Team_create_owner.
Qed.

Lemma updateTeam_teams_have_owner db user id body :
  teams_have_owner db → teams_have_owner (updateTeam db user id body).2.
Proof.
  intros Hdb. unfold updateTeam.
  destruct (DB.teams db !! id) as [team|] eqn:Hid; [|done].
  destruct (_ && _); [done|].
  destruct (Team_update _ _) as [e|team'] eqn:Hu; simpl; [done|].
  unfold teams_have_owner. simpl.
  apply teams_have_owner_insert; [done|].
  eapply Team_update_owner; [done|]. by eapply Hdb.
Qed.

Lemma addMember_teams_have_owner db user id body now :
  teams_have_owner db → teams_have_owner (addMember db user id body now).2.
Proof.
  intros Hdb. unfold addMember.
  destruct (DB.teams db !! id) as [team|] eqn:Hid; [|done].
  destruct (_ && _); [done|].
  destruct (id_cast _) as [uid|]; [|done].
  destruct (DB.users db !! _); [|done].
  destruct (isMember_text _ _); [done|].
  destruct (cast_enum _ _ _) as [e|role]; simpl; [done|].
  unfold teams_have_owner. simpl.
  apply teams_have_owner_insert; [done|].
  apply owner_is_member_push. by eapply Hdb.
Qed.

Lemma removeMember_teams_have_owner db user id userId now :
  teams_have_owner db →
  teams_have_owner (removeMember db user id userId now).2.
Proof.
  intros Hdb. unfold removeMember.
  destruct (DB.teams db !! id) as [team|] eqn:Hid; [|done].
  destruct (_ && _); [done|].
  destruct (String.eqb_spec (id_text (Team.owner team)) userId)
    as [Heq|Hne]; [done|].
  assert (Hkept : map_Forall (λ _ t, owner_is_member t)
                    (<[id := Team.set_members
                               (filter
                                  (λ member,
                                     id_text (Member.user member) ≠ userId)
                                  (Team.members team))
                               team]> (DB.teams db))).
  { apply teams_have_owner_insert; [done|].
    apply owner_is_member_filter; [done|]. by eapply Hdb. }
  destruct (id_cast userId); exact Hkept.
Qed.

Lemma deleteTeam_teams_have_owner db user id :
  teams_have_owner db → teams_have_owner (deleteTeam db user id).2.
Proof.
  intros Hdb. unfold deleteTeam.
  destruct (DB.teams db !! id) as [team|] eqn:Hid; [|done].
  destruct (_ && _); [done|]. simpl.
  unfold teams_have_owner. simpl. by apply map_Forall_delete.
Qed.

(** The handlers of the task controller leave the teams as they are. *)
Lemma createTask_teams db user body now :
  DB.teams (createTask db user body now).2 = DB.teams db.
Proof.
  unfold createTask. repeat (case_match; simpl; try done).
Qed.

Lemma updateTask_teams db user id body :
  DB.teams (updateTask db user id body).2 = DB.teams db.
Proof.
  unfold updateTask. repeat (case_match; simpl; try done).
Qed.

Lemma completeTask_teams db user id now :
  DB.teams (completeTask db user id now).2 = DB.teams db.
Proof.
  unfold completeTask. repeat (case_match; simpl; try done).
Qed.

Lemma deleteTask_teams db user id :
  DB.teams (deleteTask db user id).2 = DB.teams db.
Proof.
  unfold deleteTask. repeat (case_match; simpl; try done).
Qed.

Lemma teams_have_owner_frame db db' :
  DB.teams db' = DB.teams db → teams_have_owner db → teams_have_owner db'.
Proof. unfold teams_have_owner. by intros ->. Qed.

(** One request keeps the invariant. *)
Lemma step_teams_have_owner db db' :
  step db db' → teams_have_owner db → teams_have_owner db'.
Proof.
  destruct 1;
    eauto using createTeam_teams_have_owner, updateTeam_teams_have_owner,
      addMember_teams_have_owner, removeMember_teams_have_owner,
      deleteTeam_teams_have_owner, teams_have_owner_frame,
      createTask_teams, updateTask_teams, completeTask_teams,
      deleteTask_teams.
Qed.

Lemma rtc_step_teams_have_owner db db' :
  rtc step db db' → teams_have_owner db → teams_have_owner db'.
Proof.
  induction 1 as [db|db1 db2 db3 Hstep _ IH]; [done|].
  intros Hinv. apply IH. by eapply step_teams_have_owner.
Qed.

End teamController_facts.

(** C5, as stated, fails for an ordinary member: Bob, a plain member of
    team 10 and no global admin, asks to remove Ann, the owner; the answer
    is 403 ['Not authorized to remove members from this team'], not 400. *)
Lemma removeMember_owner_by_member_is_403 :
  let r :=
    removeMember (store := Sample.store) Sample.db_team2 Sample.bob 10
      "000000000000000000000001" 3000 in
  DB.teams Sample.db_team2 !! 10%N
  = Some (Team.mk "Core" None 1
            [Member.mk 1 Owner 1000; Member.mk 2 Member 2000] 1000)
  ∧ id_text (Store := Sample.store) 1 = "000000000000000000000001"
  ∧ Sample.bob = Caller.mk 2 RoleUser
  ∧ r.1 = Fail 403 "Not authorized to remove members from this team"
  ∧ http_status r.1 ≠ 400.
Proof. vm_compute. repeat split; congruence. Qed.

(** C9, as stated, fails: the role is restricted to the three roles of
    the schema. Ann, the owner of team 10, adds Cat with the role
    ['bogus']; every check of the handler passes, [team.save()] throws the
    validation error of [members.role], the answer is a 500 and nothing is
    written. *)
Lemma addMember_bogus_role_is_refused :
  let body := MemberBody.mk "000000000000000000000003" (Some "bogus") in
  let r :=
    addMember (store := Sample.store) Sample.db_team2 Sample.ann 10 body
      4000 in
  r.1 = Thrown (ValidationError "members.role")
  ∧ success r.1 = false
  ∧ http_status r.1 = 500
  ∧ r.2 = Sample.db_team2.
Proof. vm_compute. done. Qed.

Section teamController_claims.
Context {store : Store}.

(** C4. In every state reached by requests from a store without teams,
    each stored team has a member record whose user is the team's owner
    and whose role is ['owner']: [createTeam] puts it there through the
    save hook, and no handler removes it or changes its role. *)
Theorem reachable_teams_have_owner db id team :
  reachable db →
  DB.teams db !! id = Some team →
  ∃ m, m ∈ Team.members team
       ∧ Member.user m = Team.owner team ∧ Member.role m = Owner.
Proof.
  intros (db0 & Hinit & Hsteps) Hid.
  assert (Hinv : teams_have_owner db).
  { eapply rtc_step_teams_have_owner; [done|].
    unfold teams_have_owner. rewrite Hinit. apply map_Forall_empty. }
  by eapply Hinv.
Qed.

(** C5, amended. A [removeMember] call on an existing team whose target
    is given by the text of the owner's id always fails and leaves the
    store, hence the members, unchanged. It fails with 400 ['Cannot remove
    team owner'] when the caller is a member with the role ['owner'] or
    ['admin'], or a global admin; for any other caller the authorisation
    test comes first and the answer is 403. *)
Theorem removeMember_owner db user id now team :
  DB.teams db !! id = Some team →
  (removeMember db user id (id_text (Team.owner team)) now).2 = db
  ∧ (removeMember db user id (id_text (Team.owner team)) now).1
    = if isOwnerOrAdmin team user || negb (not_admin user)
      then Fail 400 "Cannot remove team owner"
      else Fail 403 "Not authorized to remove members from this team".
Proof.
  intros Hid. unfold removeMember. rewrite Hid.
  destruct (isOwnerOrAdmin team user), (not_admin user); simpl;
    rewrite ?String.eqb_refl; done.
Qed.

(** C9, amended. A successful [addMember] appends exactly one member
    record, for the user that the [userId] of the body denotes, whose role
    is the role of the body, or ['member'] when the body has none. The role
    must be one of the three roles of the schema: with any other role the
    call does not succeed and writes nothing, and when the handler's own
    checks pass it is the validation error of [members.role] (a 500).
    Among the three roles the handler puts no condition: under the
    conditions it checks (caller accepted, user stored, no member record
    with that text) each of them succeeds, ['owner'] included, so a team can
    hold several ['owner'] records. *)
Theorem addMember_role_as_supplied db user id body now :
  (∀ code d,
     (addMember db user id body now).1 = Ok code d →
     ∃ team role uid,
       DB.teams db !! id = Some team
       ∧ MemberRole_of_string (default "member" (MemberBody.role body))
         = Some role
       ∧ id_cast (MemberBody.userId body) = Some uid
       ∧ Team.members (pg_doc d)
         = (Team.members team ++ [Member.mk uid role now])%list
       ∧ DB.teams (addMember db user id body now).2 !! id
         = Some (pg_doc d))
  ∧ (∀ team role uid,
       DB.teams db !! id = Some team →
       isOwnerOrAdmin team user || negb (not_admin user) = true →
       id_cast (MemberBody.userId body) = Some uid →
       is_Some (DB.users db !! uid) →
       isMember_text team (MemberBody.userId body) = false →
       MemberRole_of_string (default "member" (MemberBody.role body))
         = Some role →
       success (addMember db user id body now).1 = true)
  ∧ (MemberRole_of_string (default "member" (MemberBody.role body)) = None →
     success (addMember db user id body now).1 = false
     ∧ (addMember db user id body now).2 = db)
  ∧ (∀ team uid,
       DB.teams db !! id = Some team →
       isOwnerOrAdmin team user || negb (not_admin user) = true →
       id_cast (MemberBody.userId body) = Some uid →
       is_Some (DB.users db !! uid) →
       isMember_text team (MemberBody.userId body) = false →
       MemberRole_of_string (default "member" (MemberBody.role body))
         = None →
       (addMember db user id body now).1
       = Thrown (ValidationError "members.role")).
Proof.
  split; [|split; [|split]].
  - intros code d. unfold addMember.
    destruct (DB.teams db !! id) as [team|] eqn:Hid; [|done].
    destruct (_ && _); [done|].
    destruct (id_cast _) as [uid|] eqn:Hcast; [|done].
    destruct (DB.users db !! _); [|done].
    destruct (isMember_text team _) eqn:Hm; [done|].
    unfold cast_enum.
    destruct (MemberRole_of_string _) as [role|] eqn:Hrole; [|done].
    simpl. intros [= <- <-]. exists team, role, uid. simpl.
    rewrite lookup_insert_eq. done.
  - intros team role uid Hid Hauth Hcast [u Hu] Hm Hrole. unfold addMember.
    rewrite Hid, Hcast, Hu, Hm. unfold cast_enum. rewrite Hrole.
    destruct (isOwnerOrAdmin team user), (not_admin user); done.
  - intros Hrole. unfold addMember.
    destruct (DB.teams db !! id) as [team|] eqn:Hid; [|done].
    destruct (_ && _); [done|].
    destruct (id_cast _) as [uid|] eqn:Hcast; [|done].
    destruct (DB.users db !! _); [|done].
    destruct (isMember_text team _) eqn:Hm; [done|].
    unfold cast_enum. by rewrite Hrole.
  - intros team uid Hid Hauth Hcast [u Hu] Hm Hrole. unfold addMember.
    rewrite Hid, Hcast, Hu, Hm. unfold cast_enum. rewrite Hrole.
    destruct (isOwnerOrAdmin team user), (not_admin user); done.
Qed.

End teamController_claims.

Lemma reachable_teams_have_owner_witness :
  reachable (store := Sample.store) Sample.db_team2
  ∧ DB.teams Sample.db_team2 !! 10%N
    = Some (Team.mk "Core" None 1
              [Member.mk 1 Owner 1000; Member.mk 2 Member 2000] 1000)
  ∧ ∃ m, m ∈ [Member.mk 1 Owner 1000; Member.mk 2 Member 2000]
         ∧ Member.user m = 1%N ∧ Member.role m = Owner.
Proof.
  assert (Hr : reachable (store := Sample.store) Sample.db_team2).
  { exists Sample.db0. split; [reflexivity|].
    eapply rtc_l; [apply step_createTeam|].
    eapply rtc_l; [apply step_addMember|].
    apply rtc_refl. }
  assert (Hid : DB.teams Sample.db_team2 !! 10%N
                = Some (Team.mk "Core" None 1
                          [Member.mk 1 Owner 1000; Member.mk 2 Member 2000]
                          1000)) by (vm_compute; reflexivity).
  split; [exact Hr|]. split; [exact Hid|].
  exact (reachable_teams_have_owner (store := Sample.store) Sample.db_team2
           10 _ Hr Hid).
Defined.

Lemma removeMember_owner_witness :
  DB.teams Sample.db_team2 !! 10%N
  = Some (Team.mk "Core" None 1
            [Member.mk 1 Owner 1000; Member.mk 2 Member 2000] 1000)
  ∧ (removeMember (store := Sample.store) Sample.db_team2 Sample.root 10
       "000000000000000000000001" 3000).2
    = Sample.db_team2
  ∧ (removeMember (store := Sample.store) Sample.db_team2 Sample.root 10
       "000000000000000000000001" 3000).1
    = Fail 400 "Cannot remove team owner".
Proof.
  assert (Hid : DB.teams Sample.db_team2 !! 10%N
                = Some (Team.mk "Core" None 1
                          [Member.mk 1 Owner 1000; Member.mk 2 Member 2000]
                          1000)) by (vm_compute; reflexivity).
  split; [exact Hid|].
  exact (removeMember_owner (store := Sample.store) Sample.db_team2
           Sample.root 10 3000 _ Hid).
Defined.

Lemma addMember_role_as_supplied_witness :
  let body := MemberBody.mk "000000000000000000000003" (Some "owner") in
  ∃ d,
    (addMember (store := Sample.store) Sample.db_team2 Sample.ann 10 body
       4000).1 = Ok 200 d
    ∧ Team.owner (pg_doc d) = 1%N
    ∧ Team.members (pg_doc d)
      = [Member.mk 1 Owner 1000; Member.mk 2 Member 2000;
         Member.mk 3 Owner 4000].
Proof.
  intros body. eexists. split; [vm_compute; reflexivity|].
  split; [reflexivity|].
  edestruct (proj1 (addMember_role_as_supplied (store := Sample.store)
                      Sample.db_team2 Sample.ann 10 body 4000))
    as (team & role & uid & Hid & Hrole & Hcast & Hms & _);
    [vm_compute; reflexivity|].
  vm_compute in Hid, Hrole, Hcast. simplify_eq. exact Hms.
Defined.

(** * Properties of the auth controller *)

Section authController_claims.
Context `{External}.

(** The two failures of [login] after the presence test. *)
Lemma login_unknown_email db email password :
  Js.truthy email = true → Js.truthy password = true →
  User_findOne db email = None →
  login db (LoginBody.mk (Some email) (Some password))
  = (Fail 401 "Invalid credentials", db).
Proof.
  intros He Hp Hnone. unfold login. simpl. by rewrite He, Hp, Hnone.
Qed.

Lemma login_wrong_password db email password id user :
  Js.truthy email = true → Js.truthy password = true →
  User_findOne db email = Some (id, user) →
  comparePassword (User.password user) password = false →
  login db (LoginBody.mk (Some email) (Some password))
  = (Fail 401 "Invalid credentials", db).
Proof.
  intros He Hp Hsome Hcmp. unfold login. simpl.
  by rewrite He, Hp, Hsome, Hcmp.
Qed.

(** C7. A login with an email no user has and a login with the email of a
    user and a password that does not match get the same answer, 401 with
    the message ['Invalid credentials'], and leave the store as it is: the
    answer does not tell the two causes apart. *)
Theorem login_failures_indistinguishable
    db email1 password1 email2 password2 id user :
  Js.truthy email1 = true → Js.truthy password1 = true →
  Js.truthy email2 = true → Js.truthy password2 = true →
  User_findOne db email1 = None →
  User_findOne db email2 = Some (id, user) →
  comparePassword (User.password user) password2 = false →
  login db (LoginBody.mk (Some email1) (Some password1))
  = login db (LoginBody.mk (Some email2) (Some password2))
  ∧ (login db (LoginBody.mk (Some email1) (Some password1))).1
    = Fail 401 "Invalid credentials"
  ∧ http_status (login db (LoginBody.mk (Some email2) (Some password2))).1
    = 401.
Proof.
  intros He1 Hp1 He2 Hp2 Hnone Hsome Hcmp.
  rewrite (login_unknown_email _ _ _ He1 Hp1 Hnone).
  rewrite (login_wrong_password _ _ _ _ _ He2 Hp2 Hsome Hcmp).
  done.
Qed.

End authController_claims.

Lemma login_failures_indistinguishable_witness :
  Js.truthy "zed@example.com" = true ∧ Js.truthy "pw-ann" = true
  ∧ Js.truthy "ann@example.com" = true ∧ Js.truthy "pw-bob" = true
  ∧ comparePassword (External := Sample.external) "pw-ann" "pw-bob" = false
  ∧ User_findOne Sample.db0 "zed@example.com" = None
  ∧ User_findOne Sample.db0 "ann@example.com"
    = Some (1%N, User.mk "Ann" "ann@example.com" "pw-ann" RoleUser [])
  ∧ login (H := Sample.external) Sample.db0
      (LoginBody.mk (Some "zed@example.com") (Some "pw-ann"))
    = login (H := Sample.external) Sample.db0
        (LoginBody.mk (Some "ann@example.com") (Some "pw-bob"))
  ∧ (login (H := Sample.external) Sample.db0
       (LoginBody.mk (Some "zed@example.com") (Some "pw-ann"))).1
    = Fail 401 "Invalid credentials".
Proof.
  do 7 (split; [reflexivity|]).
  destruct (login_failures_indistinguishable (H := Sample.external)
              Sample.db0 "zed@example.com" "pw-ann" "ann@example.com"
              "pw-bob" 1
              (User.mk "Ann" "ann@example.com" "pw-ann" RoleUser []))
    as (Heq & Hfail & _); try reflexivity.
  split; [exact Heq | exact Hfail].
Defined.

(** * Further properties of the task controller *)

Section taskController_more_facts.
Context {store : Store}.

Lemma cast_required_inr path s s' :
  cast_required path s = inr s' → s' = Js.trim s ∧ Js.truthy s' = true.
Proof.
  unfold cast_required. destruct (Js.truthy (Js.trim s)) eqn:Ht; [|done].
  by intros [= <-].
Qed.

Lemma cast_required_inl path s e :
  cast_required path s = inl e →
  e = ValidationError path ∧ Js.truthy (Js.trim s) = false.
Proof.
  unfold cast_required. destruct (Js.truthy (Js.trim s)) eqn:Ht; [done|].
  by intros [= <-].
Qed.

(** A text that denotes an id is not empty. *)
Lemma id_cast_truthy s id : id_cast s = Some id → Js.truthy s = true.
Proof.
  destruct s; [|done]. rewrite id_cast_empty. done.
Qed.

(** A reference that passed the test of the handler and that can be cast
    names a stored document. *)
Lemma find_ref_stored {A} (m : gmap N A) ref s id :
  find_ref m ref ≠ Malformed → find_ref m ref ≠ Missing →
  ref = Some s → id_cast s = Some id → is_Some (m !! id).
Proof.
  intros Hmal Hmis -> Hcast. unfold find_ref in Hmal, Hmis.
  rewrite (id_cast_truthy _ _ Hcast), Hcast in Hmal, Hmis.
  destruct (decide (is_Some (m !! id))) as [Hs|Hn]; [done|].
  by rewrite bool_decide_eq_false_2 in Hmis.
Qed.

(** What the hook leaves alone. *)
Lemma Task_pre_save_fields loaded now this :
  let saved := Task_pre_save loaded now this in
  Task.title saved = Task.title this
  ∧ Task.description saved = Task.description this
  ∧ Task.status saved = Task.status this
  ∧ Task.priority saved = Task.priority this
  ∧ Task.dueDate saved = Task.dueDate this
  ∧ Task.createdBy saved = Task.createdBy this
  ∧ Task.assignedTo saved = Task.assignedTo this
  ∧ Task.team saved = Task.team this
  ∧ Task.tags saved = Task.tags this
  ∧ Task.attachments saved = Task.attachments this
  ∧ Task.comments saved = Task.comments this
  ∧ Task.createdAt saved = Task.createdAt this
  ∧ Task.updatedAt saved = now.
Proof.
  unfold Task_pre_save. simpl.
  destruct (_ && _ && _); simpl; repeat split; done.
Qed.

(** A save that does not touch the status leaves the completion date. *)
Lemma Task_pre_save_same_status loaded now this :
  Task.status loaded = Task.status this →
  Task.completedAt (Task_pre_save (Some loaded) now this)
  = Task.completedAt this.
Proof.
  intros Hs. unfold Task_pre_save, isModified_status. simpl.
  rewrite bool_decide_eq_true_2 by done. done.
Qed.

Lemma Task_create_inr body createdBy now task :
  Task_create body createdBy now = inr task →
  Task.createdBy task = createdBy
  ∧ Task.status task = Open
  ∧ Task.completedAt task = None
  ∧ Task.createdAt task = now
  ∧ Task.updatedAt task = now
  ∧ Task.comments task = []
  ∧ Task.attachments task = []
  ∧ (∀ u, Task.assignedTo task = Some u →
          ∃ s, CreateBody.assignedTo body = Some s ∧ id_cast s = Some u)
  ∧ (∀ g, Task.team task = Some g →
          ∃ s, CreateBody.team body = Some s ∧ id_cast s = Some g)
  ∧ Js.truthy (Task.title task) = true.
Proof.
  unfold Task_create, bind_cast. intros Hc.
  destruct (CreateBody.title body) as [s|]; [|done].
  destruct (cast_required "title" s) as [e|title] eqn:Ht; [done|].
  apply cast_required_inr in Ht as [-> Ht].
  destruct (match CreateBody.priority body with
            | Some s0 => _ | None => _ end) as [e|priority]; [done|].
  destruct (match CreateBody.dueDate body with
            | Some s0 => _ | None => _ end) as [e|dueDate]; [done|].
  destruct (match CreateBody.assignedTo body with
            | Some s0 => _ | None => _ end) as [e|assignedTo] eqn:Ha;
    [done|].
  destruct (match CreateBody.team body with
            | Some s0 => _ | None => _ end) as [e|team] eqn:Hg; [done|].
  injection Hc as <-.
  split; [done|]. split; [done|]. split; [done|]. split; [done|].
  split; [done|]. split; [done|]. split; [done|].
  split; [|split; [|done]]; simpl.
  - intros u ->. destruct (CreateBody.assignedTo body) as [s0|]; [|done].
    apply cast_ref_inr in Ha as (id & [= <-] & Hcast). by exists s0.
  - intros g ->. destruct (CreateBody.team body) as [s0|]; [|done].
    apply cast_ref_inr in Hg as (id & [= <-] & Hcast). by exists s0.
Qed.

Lemma Task_create_blank_title body createdBy now :
  Js.truthy (Js.trim (default EmptyString (CreateBody.title body))) = false →
  Task_create body createdBy now = inl (ValidationError "title").
Proof.
  intros Hb. unfold Task_create, bind_cast.
  destruct (CreateBody.title body) as [s|]; [|done].
  unfold cast_required. simpl in Hb. by rewrite Hb.
Qed.

Lemma Task_create_bad_priority body createdBy now p :
  CreateBody.priority body = Some p → Priority_of_string p = None →
  ∃ e, Task_create body createdBy now = inl e.
Proof.
  intros Hp Hnone. unfold Task_create, bind_cast.
  destruct (match CreateBody.title body with
            | Some s => _ | None => _ end) as [e|title]; [by eexists|].
  rewrite Hp. unfold cast_enum. rewrite Hnone. by eexists.
Qed.

End taskController_more_facts.

Section taskController_more.
Context {store : Store}.

(** X1. Whatever the body, a task that [createTask] creates is stored
    under the id it answers, belongs to the caller, is open and not
    completed, has the clock reading as its dates, no comments and no
    attachments and a non-empty title, and the user and the team it names
    are stored. *)
Theorem createTask_creates_open_task_of_caller db user body now code d :
  (createTask db user body now).1 = Ok code d →
  code = 201
  ∧ pt_id d = DB.next_id db
  ∧ DB.tasks (createTask db user body now).2 !! pt_id d = Some (pt_doc d)
  ∧ Task.createdBy (pt_doc d) = Caller.id user
  ∧ Task.status (pt_doc d) = Open
  ∧ Task.completedAt (pt_doc d) = None
  ∧ Task.createdAt (pt_doc d) = now
  ∧ Task.updatedAt (pt_doc d) = now
  ∧ Task.comments (pt_doc d) = []
  ∧ Task.attachments (pt_doc d) = []
  ∧ Js.truthy (Task.title (pt_doc d)) = true
  ∧ (∀ u, Task.assignedTo (pt_doc d) = Some u → is_Some (DB.users db !! u))
  ∧ (∀ g, Task.team (pt_doc d) = Some g → is_Some (DB.teams db !! g)).
Proof.
  unfold createTask.
  destruct (find_ref (DB.users db) _) eqn:Hu; try done.
  all: destruct (find_ref (DB.teams db) _) eqn:Hg; try done.
  all: destruct (Task_create _ _ _) as [e|task] eqn:Hc; [done|].
  all: simpl; intros [= <- <-]; simpl; rewrite lookup_insert_eq.
  all: apply Task_create_inr in Hc
    as (Hc1 & Hc2 & Hc3 & Hc4 & Hc5 & Hc6 & Hc7 & Hc8 & Hc9 & Hc10).
  all: do 11 (split; [done|]).
  all: split;
    [ intros u (s & Hs & Hcast)%Hc8;
      eapply (find_ref_stored (DB.users db)); [| |exact Hs|exact Hcast];
      by rewrite Hu
    | intros g (s & Hs & Hcast)%Hc9;
      eapply (find_ref_stored (DB.teams db)); [| |exact Hs|exact Hcast];
      by rewrite Hg ].
Qed.

(** X2. A [createTask] that fails writes nothing. It answers 500 for an
    [assignedTo] that is a non-empty text and no id, 404 ['Assigned user
    not found'] for an [assignedTo] that is an id and names no user, and
    404 ['Team not found'] for a [team] that is an id and names no team
    (no [assignedTo] being given); and it never succeeds with a title that
    is missing or blank after trimming, or with a priority outside the
    enum. *)
Theorem createTask_failures db user body now :
  (success (createTask db user body now).1 = false →
   (createTask db user body now).2 = db)
  ∧ (∀ s, CreateBody.assignedTo body = Some s →
          Js.truthy s = true → id_cast s = None →
          (createTask db user body now).1 = Thrown (CastError "_id"))
  ∧ (∀ s u, CreateBody.assignedTo body = Some s →
            id_cast s = Some u → DB.users db !! u = None →
            (createTask db user body now).1
            = Fail 404 "Assigned user not found")
  ∧ (∀ s g, CreateBody.assignedTo body = None →
            CreateBody.team body = Some s →
            id_cast s = Some g → DB.teams db !! g = None →
            (createTask db user body now).1 = Fail 404 "Team not found")
  ∧ (Js.truthy (Js.trim (default EmptyString (CreateBody.title body)))
     = false →
     success (createTask db user body now).1 = false)
  ∧ (∀ p, CreateBody.priority body = Some p →
          Priority_of_string p = None →
          success (createTask db user body now).1 = false).
Proof.
  split; [|split; [|split; [|split; [|split]]]].
  - unfold createTask. repeat (case_match; simpl; try done).
  - intros s Hs Ht Hcast. unfold createTask, find_ref.
    by rewrite Hs, Ht, Hcast.
  - intros s u Hs Hcast Hu. unfold createTask, find_ref.
    rewrite Hs, (id_cast_truthy _ _ Hcast), Hcast, Hu.
    by rewrite bool_decide_eq_false_2 by (by intros [? ?]).
  - intros s g Ha Hs Hcast Hg. unfold createTask, find_ref.
    rewrite Ha, Hs, (id_cast_truthy _ _ Hcast), Hcast, Hg.
    by rewrite bool_decide_eq_false_2 by (by intros [? ?]).
  - intros Hb. unfold createTask.
    rewrite (Task_create_blank_title _ _ _ Hb).
    repeat (case_match; simpl; try done).
  - intros p Hp Hnone. unfold createTask.
    destruct (Task_create_bad_priority body (Caller.id user) now p Hp Hnone)
      as [e ->].
    repeat (case_match; simpl; try done).
Qed.

End taskController_more.

Lemma createTask_creates_open_task_of_caller_witness :
  let body :=
    CreateBody.mk (Some "  Plan sprint ") None None
                  (Some "000000000000000000000002") None (Some "urgent")
                  None in
  ∃ d, (createTask (store := Sample.store) Sample.db0 Sample.cat body
          7000).1 = Ok 201 d
       ∧ pt_id d = 10%N
       ∧ Task.createdBy (pt_doc d) = 3%N
       ∧ Task.status (pt_doc d) = Open
       ∧ Task.completedAt (pt_doc d) = None.
Proof.
  intros body. eexists. split; [vm_compute; reflexivity|].
  edestruct (createTask_creates_open_task_of_caller (store := Sample.store)
               Sample.db0 Sample.cat body 7000)
    as (_ & Hid & _ & Hc & Hs & Hd & _);
    [vm_compute; reflexivity|].
  split; [exact Hid|]. split; [exact Hc|]. split; [exact Hs | exact Hd].
Defined.

Lemma createTask_failures_witness :
  let blank := String (ascii_of_nat 194) (String (ascii_of_nat 160) " ") in
  let body :=
    CreateBody.mk (Some blank) None None (Some "000000000000000000000002")
                  None None None in
  Js.truthy (Js.trim blank) = false
  ∧ success (createTask (store := Sample.store) Sample.db0 Sample.ann body
               7000).1 = false
  ∧ (createTask (store := Sample.store) Sample.db0 Sample.ann body 7000).2
    = Sample.db0.
Proof.
  intros blank body.
  assert (Hb : Js.truthy (Js.trim blank) = false) by reflexivity.
  split; [exact Hb|].
  destruct (createTask_failures (store := Sample.store) Sample.db0 Sample.ann
              body 7000) as (Hdb & _ & _ & _ & Htitle & _).
  split; [exact (Htitle Hb) | exact (Hdb (Htitle Hb))].
Defined.

(** * Further properties of the task queries *)

Section taskQuery_more_facts.
Context {ext : External} {store : Store}.

Lemma key_leb_total a b :
  Engine.key_leb a b = true ∨ Engine.key_leb b a = true.
Proof.
  destruct a, b; simpl; auto.
  - destruct (Z.leb_spec d d0); [auto|]. right. apply Z.leb_le. lia.
  - apply String.leb_total.
  - destruct (N.leb_spec n n0); [auto|]. right. apply N.leb_le. lia.
Qed.

Lemma sort_rel_total path direction :
  Total (Engine.sort_rel path direction).
Proof.
  intros a b. unfold Engine.sort_rel, Engine.sort_leb.
  destruct (direction <? 0).
  - destruct (key_leb_total (Engine.sort_key path b)
                (Engine.sort_key path a)) as [->| ->]; simpl; auto.
  - destruct (key_leb_total (Engine.sort_key path a)
                (Engine.sort_key path b)) as [->| ->]; simpl; auto.
Qed.

Lemma Sorted_drop {A} (R : relation A) n l :
  Sorted R l → Sorted R (drop n l).
Proof.
  revert l. induction n as [|n IH]; intros l Hl; [done|].
  destruct l as [|x l]; [done|]. simpl. apply IH.
  by inversion Hl.
Qed.

Lemma Sorted_take {A} (R : relation A) n l :
  Sorted R l → Sorted R (take n l).
Proof.
  revert n. induction l as [|x l IH]; intros n Hl.
  - by destruct n.
  - destruct n as [|n]; simpl; [constructor|].
    inversion Hl as [|? ? Hl' Hhd]; subst.
    constructor; [by apply IH|].
    destruct n, l; simpl; [constructor..|].
    inversion Hhd; subst. by constructor.
Qed.

Lemma Sorted_limit {A} (R : relation A) n l :
  Sorted R l → Sorted R (Engine.limit n l).
Proof.
  intros Hl. unfold Engine.limit.
  destruct (n =? 0); [done|]. by apply Sorted_take.
Qed.

(** Every list is in the order of a relation that holds of all pairs. *)
Lemma Sorted_full {A} (R : relation A) l : (∀ a b, R a b) → Sorted R l.
Proof.
  intros HR. induction l as [|x l IH]; constructor; [done|].
  destruct l; constructor. apply HR.
Qed.

Lemma sublist_limit {A} n (l : list A) : Engine.limit n l `sublist_of` l.
Proof.
  unfold Engine.limit. destruct (n =? 0); [done|]. apply sublist_take.
Qed.

Lemma getTasks_Ok_inv db user q code d :
  (getTasks db user q).1 = Ok code d →
  code = 200
  ∧ 0 ≤ (default 1 (TaskQuery.page q) - 1) * default 10 (TaskQuery.limit q)
  ∧ data d = (λ x, populate_task db x.1 x.2) <$> page_slice db q
  ∧ count d = length (page_slice db q)
  ∧ total d = length (Task_find db q).
Proof.
  intros Hok. destruct (getTasks_Ok_conditions _ _ _ _ _ Hok) as [Hc Hs].
  revert Hok. rewrite getTasks_reduce by done. unfold page_slice.
  set (p := default 1 (TaskQuery.page q)).
  set (l := default 10 (TaskQuery.limit q)).
  unfold Engine.skip.
  destruct (Z.ltb_spec ((p - 1) * l) 0); simpl; [done|].
  by intros [= <- <-].
Qed.

Lemma page_slice_sublist db q :
  page_slice db q
  `sublist_of` Engine.sort (default "createdAt" (TaskQuery.sortBy q))
                 (if String.eqb (default "desc" (TaskQuery.order q)) "desc"
                  then -1 else 1)
                 (Task_find db q).
Proof.
  unfold page_slice. etrans; [apply sublist_limit|]. apply sublist_drop.
Qed.

Lemma elem_of_Task_find db q id task :
  (id, task) ∈ Task_find db q
  ↔ DB.tasks db !! id = Some task ∧ matches q task = true.
Proof.
  unfold Task_find. rewrite list_elem_of_filter, elem_of_map_to_list.
  simpl. rewrite Is_true_true. tauto.
Qed.

Lemma NoDup_fst_Task_find db q : NoDup (Task_find db q).*1.
Proof.
  unfold Task_find.
  apply (sublist_NoDup _ (map_to_list (DB.tasks db)).*1).
  - apply NoDup_fst_map_to_list.
  - apply fmap_sublist, sublist_filter.
Qed.

(** The sort gives the same documents, each as often. *)
Lemma sort_Permutation path direction l :
  Engine.sort path direction l ≡ₚ l.
Proof.
  unfold Engine.sort. destruct (String.eqb path "$natural").
  - destruct (direction <? 0); [apply reverse_Permutation|done].
  - apply merge_sort_Permutation.
Qed.

Lemma elem_of_sort path direction l x :
  x ∈ Engine.sort path direction l ↔ x ∈ l.
Proof. by rewrite sort_Permutation. Qed.

Lemma length_sort path direction l :
  length (Engine.sort path direction l) = length l.
Proof. by rewrite sort_Permutation. Qed.

Lemma NoDup_fst_sort path direction l :
  NoDup l.*1 → NoDup (Engine.sort path direction l).*1.
Proof. by rewrite sort_Permutation. Qed.

Lemma Sorted_sort path direction l :
  Sorted (Engine.sort_rel path direction) (Engine.sort path direction l).
Proof.
  unfold Engine.sort.
  destruct (String.eqb_spec path "$natural") as [->|_].
  - apply Sorted_full. intros a b.
    unfold Engine.sort_rel, Engine.sort_leb.
    by destruct (direction <? 0).
  - pose proof (sort_rel_total path direction) as Htotal.
    by apply Sorted_merge_sort.
Qed.

Lemma elem_of_page_slice db q id task :
  (id, task) ∈ page_slice db q →
  DB.tasks db !! id = Some task ∧ matches q task = true.
Proof.
  intros Hin. apply elem_of_Task_find.
  eapply elem_of_sort, elem_of_sublist; [done|].
  apply page_slice_sublist.
Qed.

Lemma NoDup_fst_page_slice db q : NoDup (page_slice db q).*1.
Proof.
  eapply sublist_NoDup;
    [|apply fmap_sublist, page_slice_sublist].
  apply NoDup_fst_sort, NoDup_fst_Task_find.
Qed.

End taskQuery_more_facts.

Section taskQuery_more.
Context {ext : External} {store : Store}.

(** X3. Every item of a [getTasks] answer is a stored task that matches
    the filter of the query, populated from the store, and no task is
    listed twice on a page. *)
Theorem getTasks_items_are_matches db user q code d :
  (getTasks db user q).1 = Ok code d →
  NoDup (pt_id <$> data d)
  ∧ ∀ item, item ∈ data d →
      DB.tasks db !! pt_id item = Some (pt_doc item)
      ∧ matches q (pt_doc item) = true
      ∧ item = populate_task db (pt_id item) (pt_doc item).
Proof.
  intros Hok. apply getTasks_Ok_inv in Hok as (_ & _ & Hdata & _ & _).
  rewrite Hdata. split.
  - rewrite <- list_fmap_compose. apply NoDup_fst_page_slice.
  - intros item ([id task] & -> & Hin)%list_elem_of_fmap. simpl.
    apply elem_of_page_slice in Hin as [Hid Hm]. done.
Qed.

(** X4. With [page >= 1] and [limit >= 1], both safe integers as is the
    skip, a sort path that the engine accepts and a filter that can be
    cast, [getTasks] succeeds and the number of items is what is left of
    the matches after the pages before, capped by the page size: [count =
    max 0 (min limit (total - (page - 1) * limit))]. A page after the last
    one is an empty success. *)
Theorem getTasks_count db user q :
  1 ≤ default 1 (TaskQuery.page q) →
  1 ≤ default 10 (TaskQuery.limit q) →
  Js.safe_integer (default 1 (TaskQuery.page q)) →
  Js.safe_integer (default 10 (TaskQuery.limit q)) →
  Js.safe_integer
    ((default 1 (TaskQuery.page q) - 1) * default 10 (TaskQuery.limit q)) →
  sort_accepted q = true →
  query_cast_error q = None →
  ∃ d,
    (getTasks db user q).1 = Ok 200 d
    ∧ count d = length (data d)
    ∧ Z.of_nat (count d)
      = Z.max 0
          (Z.min (default 10 (TaskQuery.limit q))
             (Z.of_nat (total d)
              - (default 1 (TaskQuery.page q) - 1)
                * default 10 (TaskQuery.limit q)))
    ∧ (Z.of_nat (total d)
       ≤ (default 1 (TaskQuery.page q) - 1) * default 10 (TaskQuery.limit q) →
       data d = []).
Proof.
  intros Hp Hl _ _ _ Hs Hcast.
  assert (Hok : ∃ d, (getTasks db user q).1 = Ok 200 d).
  { rewrite getTasks_reduce by done. rewrite skip_inr by nia. by eexists. }
  destruct Hok as [d Hok].
  destruct (getTasks_Ok_inv _ _ _ _ _ Hok) as (_ & _ & Hd & Hc & Ht).
  exists d. split; [done|].
  assert (Hlen : Z.of_nat (length (page_slice db q))
                 = Z.max 0
                     (Z.min (default 10 (TaskQuery.limit q))
                        (Z.of_nat (length (Task_find db q))
                         - (default 1 (TaskQuery.page q) - 1)
                           * default 10 (TaskQuery.limit q)))).
  { unfold page_slice, Engine.limit.
    destruct (Z.eqb_spec (default 10 (TaskQuery.limit q)) 0); [lia|].
    rewrite length_take, length_drop, length_sort. nia. }
  split; [by rewrite Hc, Hd, length_fmap|].
  split; [by rewrite Hc, Ht|].
  intros Hlast. rewrite Hd.
  assert (length (page_slice db q) = 0%nat) as Hz by (rewrite Ht in Hlast; lia).
  apply nil_length_inv in Hz. by rewrite Hz.
Qed.

(** X5. The items of a page are in the order asked for: each item is
    before the next one in the order of [sortBy] (by default [createdAt]),
    descending unless [order] is not ['desc']. *)
Theorem getTasks_sorted db user q code d :
  (getTasks db user q).1 = Ok code d →
  Sorted
    (Engine.sort_rel (default "createdAt" (TaskQuery.sortBy q))
       (if String.eqb (default "desc" (TaskQuery.order q)) "desc"
        then -1 else 1))
    ((λ item, (pt_id item, pt_doc item)) <$> data d).
Proof.
  intros Hok. apply getTasks_Ok_inv in Hok as (_ & _ & Hdata & _ & _).
  rewrite Hdata, <- list_fmap_compose.
  assert (Hid : ∀ l : list (N * Task.t),
            (λ item, (pt_id item, pt_doc item))
              ∘ (λ x, populate_task db x.1 x.2) <$> l = l).
  { intros l. induction l as [|[i t] l IH]; [done|].
    by rewrite fmap_cons, IH. }
  rewrite Hid. unfold page_slice.
  apply Sorted_limit, Sorted_drop, Sorted_sort.
Qed.

End taskQuery_more.

Lemma getTasks_items_are_matches_witness :
  let q :=
    TaskQuery.mk (Some "open") None (Some "000000000000000000000002") None
                 None None None None None None in
  ∃ d, (getTasks (ext := Sample.external) (store := Sample.store)
          Sample2.db_assigned Sample.ann q).1
       = Ok 200 d
       ∧ pt_id <$> data d = [12%N; 10%N]
       ∧ NoDup (pt_id <$> data d).
Proof.
  intros q. eexists. split; [vm_compute; reflexivity|].
  split; [reflexivity|].
  eapply (getTasks_items_are_matches (ext := Sample.external)
            (store := Sample.store) Sample2.db_assigned Sample.ann q).
  vm_compute. reflexivity.
Defined.

Lemma getTasks_count_witness :
  let q :=
    TaskQuery.mk None None None None None None None None (Some 2) (Some 2) in
  1 ≤ 2 ∧ Js.safe_integer 2 ∧ Js.safe_integer ((2 - 1) * 2)
  ∧ ∃ d, (getTasks (ext := Sample.external) (store := Sample.store)
            Sample.db_tasks3 Sample.ann q).1
         = Ok 200 d
         ∧ Z.of_nat (count d) = Z.max 0 (Z.min 2 (Z.of_nat (total d) - 2))
         ∧ count d = 1%nat.
Proof.
  intros q.
  assert (Hsafe : Js.safe_integer 2)
    by (unfold Js.safe_integer, Js.max_safe_integer; lia).
  split; [lia|]. split; [exact Hsafe|]. split; [exact Hsafe|].
  destruct (getTasks_count (ext := Sample.external) (store := Sample.store)
              Sample.db_tasks3 Sample.ann q)
    as (d & Hd & _ & Hc & _);
    [simpl; lia | simpl; lia | exact Hsafe | exact Hsafe | exact Hsafe
     | reflexivity | reflexivity |].
  exists d. split; [exact Hd|]. split; [exact Hc|].
  vm_compute in Hd. injection Hd as <-. reflexivity.
Defined.

Lemma getTasks_sorted_witness :
  let q :=
    TaskQuery.mk None None None None None None (Some "title") (Some "asc")
                 None None in
  ∃ d, (getTasks (ext := Sample.external) (store := Sample.store)
          Sample.db_tasks3 Sample.ann q).1
       = Ok 200 d
       ∧ Task.title ∘ pt_doc <$> data d = ["one"; "three"; "two"]
       ∧ Sorted (Engine.sort_rel "title" 1)
           ((λ item, (pt_id item, pt_doc item)) <$> data d).
Proof.
  intros q. eexists. split; [vm_compute; reflexivity|].
  split; [reflexivity|].
  apply (getTasks_sorted (ext := Sample.external) (store := Sample.store)
           Sample.db_tasks3 Sample.ann q 200).
  vm_compute. reflexivity.
Defined.

(** An empty [sortBy] is refused by the engine, by [getTasks] and by
    [getMyTasks]. *)
Example empty_sort_path_is_an_error :
  let q :=
    TaskQuery.mk None None None None None None (Some EmptyString) None None
                 None in
  (getTasks (ext := Sample.external) (store := Sample.store)
     Sample.db_tasks3 Sample.ann q).1
  = Thrown (EngineError "bad sort specification")
  ∧ (getMyTasks (store := Sample.store) Sample.db_tasks3 Sample.ann
       (MyTasksQuery.mk None (Some EmptyString) None)).1
    = Thrown (EngineError "bad sort specification").
Proof. vm_compute. done. Qed.

Section getMyTasks_facts.
Context {ext : External} {store : Store}.

Lemma my_matches_spec user q task :
  my_matches user q task = true
  ↔ Task.assignedTo task = Some (Caller.id user)
    ∧ (Js.truthy_opt (MyTasksQuery.status q) = true →
       Some (Status_to_string (Task.status task)) = MyTasksQuery.status q).
Proof.
  unfold my_matches. rewrite andb_true_iff, bool_decide_eq_true.
  destruct (Js.truthy_opt (MyTasksQuery.status q)).
  - rewrite bool_decide_eq_true. tauto.
  - split; [intros [Ha _]|intros [Ha _]]; done.
Qed.

(** The query of [getTasks] that asks for the tasks of the caller, by a
    text that denotes the caller's id. *)
Lemma matches_assigned_to_caller user q me task :
  id_cast me = Some (Caller.id user) →
  matches
    (TaskQuery.mk (MyTasksQuery.status q) None (Some me) None
                  None None (MyTasksQuery.sortBy q) (MyTasksQuery.order q)
                  (Some 1) (Some 0))
    task
  = my_matches user q task.
Proof.
  intros Hme. unfold matches, my_matches, ref_filter. simpl.
  rewrite (id_cast_truthy _ _ Hme), Hme.
  destruct (Js.truthy_opt (MyTasksQuery.status q));
    destruct (bool_decide (Task.assignedTo task = _));
    simpl; rewrite ?andb_true_r, ?andb_false_r; done.
Qed.

Lemma fmap_my_task_id db (l : list (ObjectId * Task.t)) :
  (λ m, (mt_id m, mt_doc m))
    <$> ((λ d, {| mt_id := d.1;
                  mt_doc := d.2;
                  mt_createdBy := populate_user db (Task.createdBy d.2);
                  mt_team := Task.team d.2 ≫= populate_team db |}) <$> l)
  = l.
Proof.
  induction l as [|[i t] l IH]; [done|]. by rewrite !fmap_cons, IH.
Qed.

Lemma fmap_populated_task_id db (l : list (ObjectId * Task.t)) :
  (λ item, (pt_id item, pt_doc item))
    <$> ((λ x, populate_task db x.1 x.2) <$> l)
  = l.
Proof.
  induction l as [|[i t] l IH]; [done|]. by rewrite !fmap_cons, IH.
Qed.

End getMyTasks_facts.

Section getMyTasks_claims.
Context {ext : External} {store : Store}.

(** X6. [getMyTasks] never writes to the store. It answers 500 when the
    engine does not accept the sort path; otherwise it succeeds and lists
    exactly the stored tasks whose [assignedTo] is the caller (and whose
    status is the one asked for, when one is), each once; tasks the caller
    created but is not assigned to are not listed. *)
Theorem getMyTasks_exactly_assigned db user q :
  (getMyTasks db user q).2 = db
  ∧ (sort_accepts (default "createdAt" (MyTasksQuery.sortBy q)) false
     = false →
     success (getMyTasks db user q).1 = false
     ∧ http_status (getMyTasks db user q).1 = 500)
  ∧ (sort_accepts (default "createdAt" (MyTasksQuery.sortBy q)) false
     = true →
     ∃ d,
       (getMyTasks db user q).1 = Ok 200 d
       ∧ my_count d = length (my_data d)
       ∧ NoDup (mt_id <$> my_data d)
       ∧ ∀ id task,
           (id, task) ∈ (λ m, (mt_id m, mt_doc m)) <$> my_data d
           ↔ DB.tasks db !! id = Some task
             ∧ Task.assignedTo task = Some (Caller.id user)
             ∧ (Js.truthy_opt (MyTasksQuery.status q) = true →
                Some (Status_to_string (Task.status task))
                = MyTasksQuery.status q)).
Proof.
  unfold getMyTasks.
  destruct (sort_accepts (default "createdAt" (MyTasksQuery.sortBy q))
              false);
    simpl.
  - split; [done|]. split; [done|]. intros _.
    eexists. split; [done|]. simpl.
    split; [by rewrite length_fmap|]. split.
    + rewrite <- list_fmap_compose.
      apply (NoDup_fst_sort _ _ _).
      apply (sublist_NoDup _ (map_to_list (DB.tasks db)).*1).
      * apply NoDup_fst_map_to_list.
      * apply fmap_sublist, sublist_filter.
    + intros id task. rewrite fmap_my_task_id, elem_of_sort.
      rewrite list_elem_of_filter, elem_of_map_to_list. simpl.
      rewrite Is_true_true, my_matches_spec. tauto.
  - split; [done|]. split; done.
Qed.

(** X7. For a text that denotes the caller's id, [getMyTasks] succeeds
    exactly when [getTasks] does, asked for [assignedTo] that text with the
    same status and sort, on the first page with the limit 0, which the
    engine takes for no limit; and the two then list the same tasks, each
    as often. *)
Theorem getMyTasks_as_getTasks db user q me :
  id_cast me = Some (Caller.id user) →
  success (getMyTasks db user q).1
  = success
      (getTasks db user
         (TaskQuery.mk (MyTasksQuery.status q) None (Some me) None None None
                       (MyTasksQuery.sortBy q) (MyTasksQuery.order q)
                       (Some 1) (Some 0))).1
  ∧ ∀ code d,
      (getMyTasks db user q).1 = Ok code d →
      ∃ d',
        (getTasks db user
           (TaskQuery.mk (MyTasksQuery.status q) None (Some me) None None
                         None (MyTasksQuery.sortBy q) (MyTasksQuery.order q)
                         (Some 1) (Some 0))).1
        = Ok 200 d'
        ∧ (λ item, (pt_id item, pt_doc item)) <$> data d'
          ≡ₚ (λ m, (mt_id m, mt_doc m)) <$> my_data d
        ∧ count d' = my_count d.
Proof.
  intros Hme.
  unfold getMyTasks, getTasks, query_cast_error, malformed_ref,
    sort_accepted.
  simpl. rewrite (id_cast_truthy _ _ Hme), Hme.
  destruct (sort_accepts (default "createdAt" (MyTasksQuery.sortBy q))
              false);
    simpl; [|done].
  split; [done|]. intros code d [= <- <-].
  eexists. split; [done|]. simpl.
  rewrite fmap_my_task_id, fmap_populated_task_id.
  unfold Engine.limit. simpl. rewrite drop_0. unfold Task_find.
  assert (Hf : filter
                 (λ d : N * Task.t,
                    matches
                      (TaskQuery.mk (MyTasksQuery.status q) None
                         (Some me) None None None
                         (MyTasksQuery.sortBy q) (MyTasksQuery.order q)
                         (Some 1) (Some 0)) d.2)
                 (map_to_list (DB.tasks db))
               = filter (λ d : N * Task.t, my_matches user q d.2)
                   (map_to_list (DB.tasks db))).
  { apply list_filter_iff. intros [i t]. simpl.
    by rewrite (matches_assigned_to_caller user q me t Hme). }
  rewrite Hf. done.
Qed.

End getMyTasks_claims.

Lemma getMyTasks_as_getTasks_witness :
  let q := MyTasksQuery.mk (Some "open") None None in
  id_cast (Store := Sample.store) "000000000000000000000002" = Some 2%N
  ∧ ∃ d, (getMyTasks (store := Sample.store) Sample2.db_assigned Sample.bob
            q).1 = Ok 200 d
         ∧ mt_id <$> my_data d = [12%N; 10%N]
         ∧ ∃ d',
             (getTasks (ext := Sample.external) (store := Sample.store)
                Sample2.db_assigned Sample.bob
                (TaskQuery.mk (Some "open") None
                   (Some "000000000000000000000002") None None None None
                   None (Some 1) (Some 0))).1 = Ok 200 d'
             ∧ count d' = 2%nat.
Proof.
  intros q.
  assert (Hme : id_cast (Store := Sample.store) "000000000000000000000002"
                = Some (Caller.id Sample.bob)) by (vm_compute; reflexivity).
  split; [exact Hme|].
  eexists. split; [vm_compute; reflexivity|]. split; [reflexivity|].
  destruct (getMyTasks_as_getTasks (ext := Sample.external)
              (store := Sample.store) Sample2.db_assigned Sample.bob q _ Hme)
    as [_ Hsame].
  edestruct Hsame as (d' & Hd' & _ & Hcount); [vm_compute; reflexivity|].
  exists d'. split; [exact Hd'|]. exact Hcount.
Defined.

(** * Further properties of the task writes *)

Section taskWrites_facts.
Context {store : Store}.

Lemma Task_update_empty task : Task_update TaskBody.empty task = inr task.
Proof. by destruct task. Qed.

Lemma set_tasks_insert_id db id task :
  DB.tasks db !! id = Some task →
  DB.set_tasks (<[id := task]> (DB.tasks db)) db = db.
Proof.
  intros Hid. unfold DB.set_tasks. rewrite insert_id by done.
  by destruct db.
Qed.

End taskWrites_facts.

(** A body with an update operator is handed to the storage library:
    with [{ $currentDate: { updatedAt: true } }] at 7000, Bob's update of
    task 10 sets [updatedAt], which no plain body does. *)
Example updateTask_with_operator :
  Task.updatedAt
    <$> DB.tasks (updateTask (store := Sample.store) Sample.db_task
                    Sample.bob 10
                    (RawBody (store := Sample.store)
                       (Sample.CurrentDateUpdatedAt 7000))).2 !! 10%N
  = Some 7000.
Proof. vm_compute. reflexivity. Qed.

Section taskWrites_claims.
Context {store : Store}.

(** X8. [updateTask] goes through [findByIdAndUpdate], which runs no
    save hook: a successful update with a plain body (top-level fields of
    the schema with their texts, no update operators) leaves [updatedAt]
    and [completedAt] of the task as they were, also when it sets the
    status to ['completed']. *)
Theorem updateTask_skips_save_hook db user id (body : TaskBody.t) task
    code d :
  DB.tasks db !! id = Some task →
  (updateTask db user id (PlainBody body)).1 = Ok code d →
  DB.tasks (updateTask db user id (PlainBody body)).2 !! id
  = Some (pt_doc d)
  ∧ Task.updatedAt (pt_doc d) = Task.updatedAt task
  ∧ Task.completedAt (pt_doc d) = Task.completedAt task
  ∧ (TaskBody.status body = Some "completed" →
     Task.status (pt_doc d) = Completed).
Proof.
  intros Hid. unfold updateTask. rewrite Hid.
  destruct (_ && _ && _); [done|]. simpl.
  destruct (Task_update body task) as [e|task'] eqn:Hu; [done|].
  simpl. intros [= <- <-]. simpl. rewrite lookup_insert_eq.
  apply Task_update_inr in Hu as (_ & Hup & Hco & _ & _ & _ & Hst).
  split; [done|]. split; [done|]. split; [done|].
  intros Hs. rewrite Hs in Hst. by injection Hst.
Qed.

(** [updateTask], [completeTask] and [deleteTask] write to one
    document only: the users, teams, comments and attachments, the other
    tasks and the source of ids are as before, and a request that fails
    writes nothing at all. *)
Theorem task_writes_touch_one_task db user id body now :
  let only_task (db' : DB.t) :=
    DB.users db' = DB.users db
    ∧ DB.teams db' = DB.teams db
    ∧ DB.comments db' = DB.comments db
    ∧ DB.attachments db' = DB.attachments db
    ∧ DB.next_id db' = DB.next_id db
    ∧ ∀ id', id' ≠ id → DB.tasks db' !! id' = DB.tasks db !! id' in
  (only_task (updateTask db user id body).2
   ∧ (success (updateTask db user id body).1 = false →
      (updateTask db user id body).2 = db))
  ∧ (only_task (completeTask db user id now).2
     ∧ (success (completeTask db user id now).1 = false →
        (completeTask db user id now).2 = db))
  ∧ (only_task (deleteTask db user id).2
     ∧ (success (deleteTask db user id).1 = false →
        (deleteTask db user id).2 = db)).
Proof.
  intros only_task. subst only_task. simpl.
  unfold updateTask, completeTask, deleteTask.
  destruct (DB.tasks db !! id) as [task|] eqn:Hid; [|done].
  split; [|split].
  - destruct (_ && _ && _); [done|].
    destruct (Task_findByIdAndUpdate body task); simpl; [done|].
    repeat split; try done.
    intros id' Hne. by rewrite lookup_insert_ne.
  - destruct (_ && _ && _); simpl; [done|].
    repeat split; try done.
    intros id' Hne. by rewrite lookup_insert_ne.
  - destruct (_ && _); simpl; [done|].
    repeat split; try done.
    intros id' Hne. by rewrite lookup_delete_ne.
Qed.

(** An update with an empty body by an accepted caller changes
    nothing: the answer is 200 with the task as it is, and the store is
    the same. *)
Theorem updateTask_empty_body db user id task :
  DB.tasks db !! id = Some task →
  not_creator task user && not_assignee task user && not_admin user = false →
  updateTask db user id (PlainBody TaskBody.empty)
  = (Ok 200 (populate_task db id task), db).
Proof.
  intros Hid Hauth. unfold updateTask, Task_findByIdAndUpdate.
  rewrite Hid, Hauth, Task_update_empty.
  by rewrite set_tasks_insert_id.
Qed.



End taskWrites_claims.

Lemma updateTask_skips_save_hook_witness :
  let body :=
    TaskBody.mk None None (Some "completed") None None None None None None in
  DB.tasks Sample.db_task !! 10%N
  = Some (Task.mk "Write report" None Open Medium None 1 (Some 2%N) None
                  [] [] [] 1000 1000 None)
  ∧ ∃ d, (updateTask (store := Sample.store) Sample.db_task Sample.bob 10
            (PlainBody body)).1 = Ok 200 d
         ∧ Task.status (pt_doc d) = Completed
         ∧ Task.updatedAt (pt_doc d) = 1000
         ∧ Task.completedAt (pt_doc d) = None.
Proof.
  intros body.
  assert (Hid : DB.tasks Sample.db_task !! 10%N
                = Some (Task.mk "Write report" None Open Medium None 1
                          (Some 2%N) None [] [] [] 1000 1000 None))
    by (vm_compute; reflexivity).
  split; [exact Hid|].
  eexists. split; [vm_compute; reflexivity|].
  edestruct (updateTask_skips_save_hook (store := Sample.store)
               Sample.db_task Sample.bob 10 body)
    as (_ & Hup & Hco & Hst); [exact Hid | vm_compute; reflexivity |].
  split; [exact (Hst eq_refl)|]. split; [exact Hup | exact Hco].
Defined.

Lemma updateTask_empty_body_witness :
  let task :=
    Task.mk "Write report" None Open Medium None 1 (Some 2%N) None
            [] [] [] 1000 1000 None in
  DB.tasks Sample.db_task !! 10%N = Some task
  ∧ not_creator task Sample.root && not_assignee task Sample.root
    && not_admin Sample.root = false
  ∧ (updateTask (store := Sample.store) Sample.db_task Sample.root 10
       (PlainBody TaskBody.empty)).2
    = Sample.db_task.
Proof.
  intros task.
  assert (Hid : DB.tasks Sample.db_task !! 10%N = Some task)
    by (vm_compute; reflexivity).
  assert (Hauth : not_creator task Sample.root && not_assignee task Sample.root
                  && not_admin Sample.root = false) by reflexivity.
  split; [exact Hid|]. split; [exact Hauth|].
  by rewrite (updateTask_empty_body (store := Sample.store) Sample.db_task
                Sample.root 10 task Hid Hauth).
Defined.



(** * Further properties of the team controller *)

Section teamController_more_facts.
Context {store : Store}.

Lemma Team_create_inr body owner now team :
  Team_create body owner now = inr team →
  Team.owner team = owner
  ∧ Team.members team = [Member.mk owner Owner now]
  ∧ Team.createdAt team = now
  ∧ Js.truthy (Team.name team) = true.
Proof.
  unfold Team_create, bind_cast. intros Hc.
  destruct (TeamBody.name body) as [s|]; [|done].
  destruct (cast_required "name" s) as [e|name] eqn:Hn; [done|].
  apply cast_required_inr in Hn as [-> Hn].
  injection Hc as <-. done.
Qed.

Lemma Team_update_inr body team team' :
  Team_update body team = inr team' →
  Team.owner team' = Team.owner team
  ∧ Team.members team' = Team.members team
  ∧ Team.createdAt team' = Team.createdAt team.
Proof.
  unfold Team_update, bind_cast. intros Hu.
  repeat (case_match; simplify_eq); done.
Qed.

(** When the user documents of all members are stored, the membership
    test of [getTeam] on the populated members is the one on the
    references. *)
Lemma some_populated_member_stored db uid ms :
  Forall (λ m, is_Some (DB.users db !! Member.user m)) ms →
  some_populated_member uid (populate_member db <$> ms)
  = inr (existsb (λ m, bool_decide (Member.user m = uid)) ms).
Proof.
  induction 1 as [|m ms [u Hu] _ IH]; [done|].
  rewrite fmap_cons. simpl. unfold populate_user. rewrite Hu. simpl.
  destruct (bool_decide (Member.user m = uid)); [done|]. by rewrite IH.
Qed.

Lemma isOwnerOrAdmin_app team ms user :
  isOwnerOrAdmin team user = true →
  isOwnerOrAdmin (Team.set_members (Team.members team ++ ms) team) user
  = true.
Proof.
  unfold isOwnerOrAdmin. simpl. rewrite existsb_app. by intros ->.
Qed.

(** The filter of [removeMember] on a team without a member record of
    the text, and what it leaves. *)
Lemma isMember_text_false_filter team userId :
  isMember_text team userId = false →
  filter (λ member, id_text (Member.user member) ≠ userId)
         (Team.members team)
  = Team.members team.
Proof.
  unfold isMember_text. intros Hm.
  induction (Team.members team) as [|m ms IH]; [done|].
  simpl in Hm. apply orb_false_iff in Hm as [Hm1 Hm2].
  apply String.eqb_neq in Hm1.
  rewrite filter_cons_True by done. by rewrite IH.
Qed.

Lemma isMember_text_filter team userId :
  isMember_text
    (Team.set_members
       (filter (λ member, id_text (Member.user member) ≠ userId)
               (Team.members team))
       team)
    userId
  = false.
Proof.
  unfold isMember_text. simpl.
  induction (Team.members team) as [|m ms IH]; [done|].
  destruct (decide (id_text (Member.user m) = userId)) as [Heq|Hne].
  - by rewrite filter_cons_False by (intros ?; done).
  - rewrite filter_cons_True by done. simpl.
    apply String.eqb_neq in Hne. by rewrite Hne.
Qed.

(** No member record has a text that is no id. *)
Lemma isMember_text_malformed team userId :
  id_cast userId = None → isMember_text team userId = false.
Proof.
  intros Hcast. unfold isMember_text.
  induction (Team.members team) as [|m ms IH]; [done|].
  simpl. rewrite IH, orb_false_r. apply String.eqb_neq.
  by apply id_text_ne_malformed.
Qed.

Lemma set_members_id team : Team.set_members (Team.members team) team = team.
Proof. by destruct team. Qed.

Lemma set_teams_insert_id db id team :
  DB.teams db !! id = Some team →
  DB.set_teams (<[id := team]> (DB.teams db)) db = db.
Proof.
  intros Hid. unfold DB.set_teams. rewrite insert_id by done.
  by destruct db.
Qed.

Lemma not_elem_of_pull_team id u : id ∉ User.teams (pull_team id u).
Proof.
  unfold pull_team. simpl. rewrite list_elem_of_filter. tauto.
Qed.

(** The result of a [removeMember] that passed the tests of the
    handler. *)
Lemma removeMember_accepted db user id userId now team :
  DB.teams db !! id = Some team →
  negb (isOwnerOrAdmin team user) && not_admin user = false →
  id_text (Team.owner team) ≠ userId →
  removeMember db user id userId now
  = let team' :=
      Team.set_members
        (filter (λ member, id_text (Member.user member) ≠ userId)
                (Team.members team))
        team in
    let db' := DB.set_teams (<[id := team']> (DB.teams db)) db in
    match id_cast userId with
    | None => (Thrown (CastError "_id"), db')
    | Some uid =>
        (Ok 200
           (populate_team_doc
              (DB.set_users (alter (pull_team id) uid (DB.users db')) db')
              id team'),
         DB.set_users (alter (pull_team id) uid (DB.users db')) db')
    end.
Proof.
  intros Hid Hauth Hne. unfold removeMember. rewrite Hid, Hauth.
  apply String.eqb_neq in Hne. by rewrite Hne.
Qed.

(** A [removeMember] that fails writes nothing: when it fails after the
    save of the team, the text is no id, no member record has it and the
    team that was saved is the team as it was. *)
Lemma removeMember_failure db user id userId now :
  success (removeMember db user id userId now).1 = false →
  (removeMember db user id userId now).2 = db.
Proof.
  unfold removeMember.
  destruct (DB.teams db !! id) as [team|] eqn:Hid; [|done].
  destruct (_ && _); [done|].
  destruct (String.eqb _ _); [done|].
  destruct (id_cast userId) as [uid|] eqn:Hcast; [done|].
  intros _. simpl.
  rewrite isMember_text_false_filter
    by (by apply isMember_text_malformed).
  rewrite set_members_id. by apply set_teams_insert_id.
Qed.

End teamController_more_facts.

Section teamController_more.
Context {store : Store}.

(** X11. A team that [createTeam] creates is stored under the id it
    answers, is owned by the caller and has exactly one member, the caller
    with the role ['owner'], joined at the clock reading; the id of the
    team is appended to the teams of the caller's user document, and no
    other user document changes. *)
Theorem createTeam_single_owner_member db user body now code d :
  (createTeam db user body now).1 = Ok code d →
  code = 201
  ∧ pg_id d = DB.next_id db
  ∧ DB.teams (createTeam db user body now).2 !! pg_id d = Some (pg_doc d)
  ∧ Team.owner (pg_doc d) = Caller.id user
  ∧ Team.members (pg_doc d) = [Member.mk (Caller.id user) Owner now]
  ∧ DB.users (createTeam db user body now).2 !! Caller.id user
    = push_team (pg_id d) <$> DB.users db !! Caller.id user
  ∧ ∀ u, u ≠ Caller.id user →
         DB.users (createTeam db user body now).2 !! u = DB.users db !! u.
Proof.
  unfold createTeam.
  destruct (Team_create _ _ _) as [e|team] eqn:Hc; [done|].
  simpl. intros [= <- <-]. simpl. rewrite lookup_insert_eq.
  apply Team_create_inr in Hc as (Ho & Hm & _ & _).
  repeat split; try done.
  - by rewrite lookup_alter_eq.
  - intros u Hne. by rewrite lookup_alter_ne.
Qed.

(** X12. [getTeams] always succeeds, leaves the store as it is, and lists
    exactly the stored teams that have a member record of the caller; the
    global role plays no part, so an admin who is a member of no team gets
    an empty list. *)
Theorem getTeams_exactly_member_teams db user :
  ∃ d,
    getTeams db user = (Ok 200 d, db)
    ∧ tl_count d = length (tl_data d)
    ∧ ∀ id team,
        (id, team) ∈ (λ t, (pg_id t, pg_doc t)) <$> tl_data d
        ↔ DB.teams db !! id = Some team
          ∧ ∃ m, m ∈ Team.members team ∧ Member.user m = Caller.id user.
Proof.
  unfold getTeams. eexists. split; [done|]. simpl.
  split; [by rewrite length_fmap|].
  intros id team. rewrite <- list_fmap_compose.
  assert (Hid : ∀ l : list (N * Team.t),
            (λ t, (pg_id t, pg_doc t))
              ∘ (λ x, populate_team_doc db x.1 x.2) <$> l = l).
  { intros l. induction l as [|[i t] l IH]; [done|].
    by rewrite fmap_cons, IH. }
  rewrite Hid, list_elem_of_filter, elem_of_map_to_list. simpl.
  rewrite Is_true_true, isMember_spec. tauto.
Qed.

(** X13. For a stored team whose members all have their user document
    stored, [getTeam] answers 200 with the populated team to a member of
    the team and to a global admin, and 403 to everybody else; it never
    writes to the store. *)
Theorem getTeam_members_and_admins db user id team :
  DB.teams db !! id = Some team →
  Forall (λ m, is_Some (DB.users db !! Member.user m)) (Team.members team) →
  getTeam db user id
  = (if isMember team (Caller.id user) || negb (not_admin user)
     then Ok 200 (populate_team_doc db id team)
     else Fail 403 "Not authorized to access this team",
     db).
Proof.
  intros Hid Hall. unfold getTeam. rewrite Hid. simpl.
  rewrite some_populated_member_stored by done.
  fold (isMember team (Caller.id user)).
  by destruct (isMember team (Caller.id user)), (not_admin user).
Qed.

(** X14. A successful [updateTeam] changes the name and the description
    only: the owner, the members and the date of creation of the team are
    as before, and so are the user documents. *)
Theorem updateTeam_keeps_roster db user id body team code d :
  DB.teams db !! id = Some team →
  (updateTeam db user id body).1 = Ok code d →
  DB.teams (updateTeam db user id body).2 !! id = Some (pg_doc d)
  ∧ Team.owner (pg_doc d) = Team.owner team
  ∧ Team.members (pg_doc d) = Team.members team
  ∧ Team.createdAt (pg_doc d) = Team.createdAt team
  ∧ DB.users (updateTeam db user id body).2 = DB.users db.
Proof.
  intros Hid. unfold updateTeam. rewrite Hid.
  destruct (_ && _); [done|].
  destruct (Team_update body team) as [e|team'] eqn:Hu; [done|].
  simpl. intros [= <- <-]. simpl. rewrite lookup_insert_eq.
  apply Team_update_inr in Hu as (Ho & Hm & Hc).
  repeat split; done.
Qed.

(** X15. No handler of the team controller writes to the tasks, the
    comments or the attachments, also not [deleteTeam], which leaves the
    tasks of the team with their reference to it; and a request that fails
    writes nothing at all. *)
Theorem team_handlers_frame db user id body mbody userId now :
  let framed {A} (r : Response A * DB.t) :=
    DB.tasks r.2 = DB.tasks db
    ∧ DB.comments r.2 = DB.comments db
    ∧ DB.attachments r.2 = DB.attachments db
    ∧ (success r.1 = false → r.2 = db) in
  framed (createTeam db user body now)
  ∧ framed (updateTeam db user id body)
  ∧ framed (addMember db user id mbody now)
  ∧ framed (removeMember db user id userId now)
  ∧ framed (deleteTeam db user id)
  ∧ (getTeam db user id).2 = db
  ∧ (getTeams db user).2 = db.
Proof.
  simpl.
  split; [|split; [|split; [|split; [|split; [|split]]]]].
  - unfold createTeam. repeat split; repeat (case_match; simpl; try done).
  - unfold updateTeam. repeat split; repeat (case_match; simpl; try done).
  - unfold addMember. repeat split; repeat (case_match; simpl; try done).
  - split; [|split; [|split]]; [| | |apply removeMember_failure].
    all: unfold removeMember; repeat (case_match; simpl; try done).
  - unfold deleteTeam. repeat split; repeat (case_match; simpl; try done).
  - unfold getTeam. repeat (case_match; simpl; try done).
  - done.
Qed.

End teamController_more.

Lemma createTeam_single_owner_member_witness :
  ∃ d, (createTeam Sample.db0 Sample.bob (TeamBody.mk (Some " Ops ") None)
          1234).1 = Ok 201 d
       ∧ Team.members (pg_doc d) = [Member.mk 2 Owner 1234]
       ∧ Team.owner (pg_doc d) = 2%N.
Proof.
  eexists. split; [vm_compute; reflexivity|].
  edestruct (createTeam_single_owner_member Sample.db0 Sample.bob
               (TeamBody.mk (Some " Ops ") None) 1234)
    as (_ & _ & _ & Ho & Hm & _); [vm_compute; reflexivity|].
  split; [exact Hm | exact Ho].
Defined.

Lemma getTeam_members_and_admins_witness :
  DB.teams Sample.db_team2 !! 10%N
  = Some (Team.mk "Core" None 1
            [Member.mk 1 Owner 1000; Member.mk 2 Member 2000] 1000)
  ∧ Forall (λ m, is_Some (DB.users Sample.db_team2 !! Member.user m))
      [Member.mk 1 Owner 1000; Member.mk 2 Member 2000]
  ∧ (getTeam Sample.db_team2 Sample.cat 10).1
    = Fail 403 "Not authorized to access this team"
  ∧ success (getTeam Sample.db_team2 Sample.bob 10).1 = true.
Proof.
  assert (Hid : DB.teams Sample.db_team2 !! 10%N
                = Some (Team.mk "Core" None 1
                          [Member.mk 1 Owner 1000; Member.mk 2 Member 2000]
                          1000)) by (vm_compute; reflexivity).
  assert (Hall : Forall
            (λ m, is_Some (DB.users Sample.db_team2 !! Member.user m))
            [Member.mk 1 Owner 1000; Member.mk 2 Member 2000]).
  { repeat constructor; eexists; vm_compute; reflexivity. }
  split; [exact Hid|]. split; [exact Hall|].
  split.
  - rewrite (getTeam_members_and_admins Sample.db_team2 Sample.cat 10 _
               Hid Hall).
    reflexivity.
  - rewrite (getTeam_members_and_admins Sample.db_team2 Sample.bob 10 _
               Hid Hall).
    reflexivity.
Defined.

Lemma updateTeam_keeps_roster_witness :
  DB.teams Sample.db_team2 !! 10%N
  = Some (Team.mk "Core" None 1
            [Member.mk 1 Owner 1000; Member.mk 2 Member 2000] 1000)
  ∧ ∃ d, (updateTeam Sample.db_team2 Sample.ann 10
            (TeamBody.mk (Some "Platform") (Some " core services "))).1
         = Ok 200 d
         ∧ Team.name (pg_doc d) = "Platform"
         ∧ Team.members (pg_doc d)
           = [Member.mk 1 Owner 1000; Member.mk 2 Member 2000].
Proof.
  assert (Hid : DB.teams Sample.db_team2 !! 10%N
                = Some (Team.mk "Core" None 1
                          [Member.mk 1 Owner 1000; Member.mk 2 Member 2000]
                          1000)) by (vm_compute; reflexivity).
  split; [exact Hid|].
  eexists. split; [vm_compute; reflexivity|]. split; [reflexivity|].
  edestruct (updateTeam_keeps_roster Sample.db_team2 Sample.ann 10
               (TeamBody.mk (Some "Platform") (Some " core services ")))
    as (_ & _ & Hm & _); [exact Hid | vm_compute; reflexivity |].
  exact Hm.
Defined.

Section teamRoster_facts.
Context {store : Store}.

(** The result of an [addMember] that succeeds. *)
Lemma addMember_Ok_inv db user id body now code d :
  (addMember db user id body now).1 = Ok code d →
  ∃ team role uid u,
    DB.teams db !! id = Some team
    ∧ (isOwnerOrAdmin team user = true ∨ not_admin user = false)
    ∧ id_cast (MemberBody.userId body) = Some uid
    ∧ DB.users db !! uid = Some u
    ∧ isMember_text team (MemberBody.userId body) = false
    ∧ MemberRole_of_string (default "member" (MemberBody.role body))
      = Some role
    ∧ addMember db user id body now
      = (Ok 200
           (populate_team_doc
              (DB.set_users
                 (alter (push_team id) uid (DB.users db))
                 (DB.set_teams
                    (<[id := Team.set_members
                               (Team.members team
                                  ++ [Member.mk uid role now])
                               team]> (DB.teams db)) db))
              id
              (Team.set_members
                 (Team.members team ++ [Member.mk uid role now])
                 team)),
         DB.set_users
           (alter (push_team id) uid (DB.users db))
           (DB.set_teams
              (<[id := Team.set_members
                         (Team.members team ++ [Member.mk uid role now])
                         team]> (DB.teams db)) db)).
Proof.
  unfold addMember.
  destruct (DB.teams db !! id) as [team|] eqn:Hid; [|done].
  destruct (isOwnerOrAdmin team user) eqn:Ho, (not_admin user) eqn:Ha;
    simpl; try done.
  all: destruct (id_cast _) as [uid|] eqn:Hcast; [|done].
  all: destruct (DB.users db !! _) as [u|] eqn:Hu; [|done].
  all: destruct (isMember_text team _) eqn:Hm; [done|].
  all: unfold cast_enum.
  all: destruct (MemberRole_of_string _) as [role|] eqn:Hr; [|done].
  all: simpl; intros _; exists team, role, uid, u; repeat split; auto.
Qed.

Lemma isMember_push team u role now :
  isMember
    (Team.set_members (Team.members team ++ [Member.mk u role now]) team) u
  = true.
Proof.
  unfold isMember. simpl. rewrite existsb_app. simpl.
  rewrite bool_decide_eq_true_2 by done. by rewrite orb_true_r.
Qed.

Lemma isMember_text_push team u role now :
  isMember_text
    (Team.set_members (Team.members team ++ [Member.mk u role now]) team)
    (id_text u)
  = true.
Proof.
  unfold isMember_text. simpl. rewrite existsb_app. simpl.
  by rewrite String.eqb_refl, orb_true_r.
Qed.

Lemma filter_push_new team u role now :
  isMember_text team (id_text u) = false →
  filter (λ member, id_text (Member.user member) ≠ id_text u)
         (Team.members team ++ [Member.mk u role now])%list
  = Team.members team.
Proof.
  intros Hm. rewrite filter_app, isMember_text_false_filter by done.
  rewrite filter_cons_False by (intros ?; done).
  by rewrite filter_nil, app_nil_r.
Qed.

End teamRoster_facts.

(** The handlers compare the texts of ids, so a text in capitals, which
    denotes the id without being its text, is the text of no member. Eve
    (id 10, in text [...0a]) owns team 12 and is its only member. Asked to
    remove [...0A], [removeMember] does not take the target for the owner:
    it answers 200, drops no member record and pulls the team from the
    teams of Eve's user document. And having added Fay as [...0b],
    [addMember] accepts her again as [...0B] and the team has two member
    records of her. *)
Example removeMember_owner_in_capitals :
  let r :=
    removeMember (store := Sample.store) Sample2.db_eve Sample2.eve 12
      "00000000000000000000000A" 2000 in
  Team.owner <$> DB.teams Sample2.db_eve !! 12%N = Some 10%N
  ∧ User.teams <$> DB.users Sample2.db_eve !! 10%N = Some [12%N]
  ∧ success r.1 = true
  ∧ Team.members <$> DB.teams r.2 !! 12%N = Some [Member.mk 10 Owner 1000]
  ∧ User.teams <$> DB.users r.2 !! 10%N = Some [].
Proof. vm_compute. done. Qed.

Example addMember_twice_in_capitals :
  let r1 :=
    addMember (store := Sample.store) Sample2.db_eve Sample2.eve 12
      (MemberBody.mk "00000000000000000000000b" None) 2000 in
  let r2 :=
    addMember (store := Sample.store) r1.2 Sample2.eve 12
      (MemberBody.mk "00000000000000000000000B" None) 3000 in
  success r1.1 = true
  ∧ success r2.1 = true
  ∧ Team.members <$> DB.teams r2.2 !! 12%N
    = Some [Member.mk 10 Owner 1000; Member.mk 11 Member 2000;
            Member.mk 11 Member 3000].
Proof. vm_compute. done. Qed.

Section teamRoster_claims.
Context {store : Store}.

(** X16. After a successful [addMember] the user that the [userId] of
    the body denotes is a member of the team and the id of the team is
    appended to the teams of the user document; and when that [userId] is
    the text of the id, the same request sent again is refused with 400
    ['User is already a member of this team'] and writes nothing. *)
Theorem addMember_links_both_ways db user id body now code d :
  (addMember db user id body now).1 = Ok code d →
  ∃ uid,
    id_cast (MemberBody.userId body) = Some uid
    ∧ isMember (pg_doc d) uid = true
    ∧ DB.teams (addMember db user id body now).2 !! id = Some (pg_doc d)
    ∧ DB.users (addMember db user id body now).2 !! uid
      = push_team id <$> DB.users db !! uid
    ∧ is_Some (DB.users db !! uid)
    ∧ (id_text uid = MemberBody.userId body →
       ∀ now',
         addMember (addMember db user id body now).2 user id body now'
         = (Fail 400 "User is already a member of this team",
            (addMember db user id body now).2)).
Proof.
  intros Hok.
  destruct (addMember_Ok_inv _ _ _ _ _ _ _ Hok)
    as (team & role & uid & u & Hid & Hauth & Hcast & Hu & Hm & Hr & Heq).
  rewrite Heq in Hok |- *. simpl in Hok. injection Hok as <- <-. simpl.
  exists uid. split; [done|].
  split; [apply isMember_push|].
  split; [by rewrite lookup_insert_eq|].
  split; [by rewrite lookup_alter_eq|].
  split; [by eexists|].
  intros Htext now'. unfold addMember. simpl.
  rewrite lookup_insert_eq, Hcast, lookup_alter_eq, Hu. simpl.
  rewrite <- Htext, isMember_text_push.
  destruct Hauth as [Ho|Ha].
  - by rewrite isOwnerOrAdmin_app.
  - by rewrite Ha, andb_false_r.
Qed.

(** X17. A [removeMember] by an accepted caller whose target is not the
    text of the owner's id saves the team without the member records whose
    id has that text, the others kept in their order; the team is wholly
    the same when no member record has the text. When the text denotes an
    id the answer is 200, whether or not that user was a member, and the id
    of the team is pulled from the teams of that user's document; when the
    text is no id the answer is 500 and the store is as it was. *)
Theorem removeMember_drops_target db user id userId now team :
  DB.teams db !! id = Some team →
  isOwnerOrAdmin team user || negb (not_admin user) = true →
  id_text (Team.owner team) ≠ userId →
  ∃ team',
    DB.teams (removeMember db user id userId now).2 !! id = Some team'
    ∧ team'
      = Team.set_members
          (filter (λ member, id_text (Member.user member) ≠ userId)
                  (Team.members team))
          team
    ∧ isMember_text team' userId = false
    ∧ (isMember_text team userId = false → team' = team)
    ∧ (∀ uid,
         id_cast userId = Some uid →
         (removeMember db user id userId now).1
         = Ok 200 (populate_team_doc (removeMember db user id userId now).2
                     id team')
         ∧ DB.users (removeMember db user id userId now).2 !! uid
           = pull_team id <$> DB.users db !! uid
         ∧ ∀ u, DB.users (removeMember db user id userId now).2 !! uid
                = Some u →
                id ∉ User.teams u)
    ∧ (id_cast userId = None →
       (removeMember db user id userId now).1 = Thrown (CastError "_id")
       ∧ (removeMember db user id userId now).2 = db).
Proof.
  intros Hid Hauth Hne.
  assert (Ha : negb (isOwnerOrAdmin team user) && not_admin user = false).
  { by destruct (isOwnerOrAdmin team user), (not_admin user). }
  pose proof (removeMember_failure db user id userId now) as Hfail.
  revert Hfail. rewrite (removeMember_accepted _ _ _ _ _ _ Hid Ha Hne).
  simpl. intros Hfail. eexists.
  split; [destruct (id_cast userId); simpl; apply lookup_insert_eq|].
  split; [done|]. split; [apply isMember_text_filter|].
  split.
  { intros Hm. rewrite isMember_text_false_filter by done.
    apply set_members_id. }
  split.
  - intros uid ->. simpl. rewrite lookup_alter_eq.
    split; [done|]. split; [done|]. intros u.
    destruct (DB.users db !! uid) as [u0|]; [|done].
    simpl. intros [= <-]. apply not_elem_of_pull_team.
  - intros Hcast. rewrite Hcast in Hfail |- *. simpl in Hfail |- *.
    split; [done|]. by apply Hfail.
Qed.

(** X18. Adding a user by the text of the user's id and removing the
    user again by that text gives the team back as it was, with its
    members in the same order (when the text is not the text of the id of
    the team's owner). *)
Theorem addMember_then_removeMember db user id body now now' code d team
    uid :
  DB.teams db !! id = Some team →
  id_cast (MemberBody.userId body) = Some uid →
  id_text uid = MemberBody.userId body →
  id_text (Team.owner team) ≠ MemberBody.userId body →
  (addMember db user id body now).1 = Ok code d →
  success
    (removeMember (addMember db user id body now).2 user id
       (MemberBody.userId body) now').1 = true
  ∧ DB.teams
      (removeMember (addMember db user id body now).2 user id
         (MemberBody.userId body) now').2 !! id
    = Some team
  ∧ ∀ id', id' ≠ id →
      DB.teams
        (removeMember (addMember db user id body now).2 user id
           (MemberBody.userId body) now').2 !! id'
      = DB.teams db !! id'.
Proof.
  intros Hid Hcast Htext Hne Hok.
  destruct (addMember_Ok_inv _ _ _ _ _ _ _ Hok)
    as (team0 & role & uid0 & u & Hid0 & Hauth & Hcast0 & Hu & Hm & Hr & Heq).
  rewrite Hid in Hid0. injection Hid0 as <-.
  rewrite Hcast in Hcast0. injection Hcast0 as <-.
  rewrite Heq. simpl.
  assert (Ha : negb
                 (isOwnerOrAdmin
                    (Team.set_members
                       (Team.members team ++ [Member.mk uid role now])
                       team) user)
               && not_admin user = false).
  { destruct Hauth as [Ho|Ha].
    - by rewrite isOwnerOrAdmin_app.
    - by rewrite Ha, andb_false_r. }
  erewrite removeMember_accepted;
    [| simpl; apply lookup_insert_eq | exact Ha | exact Hne].
  rewrite Hcast. simpl.
  split; [done|]. split.
  - rewrite lookup_insert_eq. rewrite <- Htext in Hm |- *.
    rewrite filter_push_new by done.
    by destruct team.
  - intros id' Hne'. by rewrite !lookup_insert_ne.
Qed.

End teamRoster_claims.

Lemma addMember_links_both_ways_witness :
  let body := MemberBody.mk "000000000000000000000002" None in
  ∃ d, (addMember (store := Sample.store) Sample.db_team Sample.ann 10 body
          2000).1 = Ok 200 d
       ∧ isMember (pg_doc d) 2 = true
       ∧ User.teams
           <$> DB.users Sample.db_team2 !! 2%N = Some [10%N]
       ∧ (addMember (store := Sample.store) Sample.db_team2 Sample.ann 10
            body 2500).1
         = Fail 400 "User is already a member of this team".
Proof.
  intros body. eexists. split; [vm_compute; reflexivity|].
  edestruct (addMember_links_both_ways (store := Sample.store)
               Sample.db_team Sample.ann 10 body 2000)
    as (uid & Hcast & Hm & _ & _ & _ & Hagain); [vm_compute; reflexivity|].
  vm_compute in Hcast. injection Hcast as <-.
  split; [exact Hm|]. split; [vm_compute; reflexivity|].
  exact (f_equal fst (Hagain eq_refl 2500)).
Defined.

Lemma removeMember_drops_target_witness :
  DB.teams Sample2.db_team3 !! 10%N
  = Some (Team.mk "Core" None 1
            [Member.mk 1 Owner 1000; Member.mk 2 Member 2000;
             Member.mk 3 Admin 3000] 1000)
  ∧ ∃ team',
      DB.teams (removeMember (store := Sample.store) Sample2.db_team3
                  Sample.cat 10 "000000000000000000000002" 4000).2 !! 10%N
      = Some team'
      ∧ Team.members team'
        = [Member.mk 1 Owner 1000; Member.mk 3 Admin 3000]
      ∧ User.teams
          <$> DB.users (removeMember (store := Sample.store)
                          Sample2.db_team3 Sample.cat 10
                          "000000000000000000000002" 4000).2 !! 2%N
        = Some [].
Proof.
  assert (Hid : DB.teams Sample2.db_team3 !! 10%N
                = Some (Team.mk "Core" None 1
                          [Member.mk 1 Owner 1000; Member.mk 2 Member 2000;
                           Member.mk 3 Admin 3000] 1000))
    by (vm_compute; reflexivity).
  split; [exact Hid|].
  edestruct (removeMember_drops_target (store := Sample.store)
               Sample2.db_team3 Sample.cat 10 "000000000000000000000002"
               4000)
    as (team' & Hstored & Heq & _);
    [exact Hid | reflexivity | vm_compute; congruence |].
  exists team'. split; [exact Hstored|].
  split; [rewrite Heq; reflexivity | vm_compute; reflexivity].
Defined.

Lemma addMember_then_removeMember_witness :
  let body := MemberBody.mk "000000000000000000000002" None in
  DB.teams Sample.db_team !! 10%N
  = Some (Team.mk "Core" None 1 [Member.mk 1 Owner 1000] 1000)
  ∧ id_text (Store := Sample.store) 2 = "000000000000000000000002"
  ∧ DB.teams
      (removeMember (store := Sample.store)
         (addMember (store := Sample.store) Sample.db_team Sample.ann 10
            body 2000).2
         Sample.ann 10 "000000000000000000000002" 2500).2 !! 10%N
    = Some (Team.mk "Core" None 1 [Member.mk 1 Owner 1000] 1000).
Proof.
  intros body.
  assert (Hid : DB.teams Sample.db_team !! 10%N
                = Some (Team.mk "Core" None 1 [Member.mk 1 Owner 1000] 1000))
    by (vm_compute; reflexivity).
  split; [exact Hid|]. split; [reflexivity|].
  edestruct (addMember_then_removeMember (store := Sample.store)
               Sample.db_team Sample.ann 10 body 2000 2500)
    as (_ & Hback & _);
    [exact Hid | vm_compute; reflexivity | reflexivity
     | vm_compute; congruence | vm_compute; reflexivity |].
  exact Hback.
Defined.

Section teamDelete_claims.

(** X19. For a stored team, [deleteTeam] answers 403 exactly when the
    caller is neither the team's owner nor a global admin, and
    [updateTeam] exactly when the caller has no member record with the
    role ['owner'] or ['admin'] and is no global admin. So a member with
    the role ['admin'] or ['owner'] who is not the owner of the team may
    update the team and may not delete it. *)
Theorem deleteTeam_narrower_than_updateTeam db user id body team :
  DB.teams db !! id = Some team →
  (http_status (deleteTeam db user id).1 = 403
   ↔ Team.owner team ≠ Caller.id user ∧ Caller.role user ≠ RoleAdmin)
  ∧ (http_status (updateTeam db user id body).1 = 403
     ↔ isOwnerOrAdmin team user = false ∧ Caller.role user ≠ RoleAdmin)
  ∧ (isOwnerOrAdmin team user = true →
     Team.owner team ≠ Caller.id user →
     Caller.role user ≠ RoleAdmin →
     deleteTeam db user id
     = (Fail 403 "Not authorized to delete this team", db)
     ∧ http_status (updateTeam db user id body).1 ≠ 403).
Proof.
  intros Hid.
  assert (Hd : http_status (deleteTeam db user id).1 = 403
               ↔ Team.owner team ≠ Caller.id user
                 ∧ Caller.role user ≠ RoleAdmin).
  { unfold deleteTeam. rewrite Hid.
    rewrite <- not_admin_true.
    destruct (decide (Team.owner team = Caller.id user)) as [Ho|Ho].
    - rewrite bool_decide_eq_true_2 by done. simpl. split; [done|].
      by intros [? _].
    - rewrite bool_decide_eq_false_2 by done. simpl.
      destruct (not_admin user); simpl; split; try done.
      by intros [_ ?]. }
  assert (Hu : http_status (updateTeam db user id body).1 = 403
               ↔ isOwnerOrAdmin team user = false
                 ∧ Caller.role user ≠ RoleAdmin).
  { unfold updateTeam. rewrite Hid. rewrite <- not_admin_true.
    destruct (isOwnerOrAdmin team user), (not_admin user); simpl;
      try (destruct (Team_update body team)); simpl; split; try done;
      by intros [? ?]. }
  split; [done|]. split; [done|].
  intros Ho Hne Hr. split.
  - unfold deleteTeam. rewrite Hid.
    apply not_admin_true in Hr.
    by rewrite bool_decide_eq_false_2, Hr by done.
  - rewrite Hu. intros [Hf _]. congruence.
Qed.

Lemma deleteTeam_narrower_than_updateTeam_witness :
  DB.teams Sample2.db_team3 !! 10%N
  = Some (Team.mk "Core" None 1
            [Member.mk 1 Owner 1000; Member.mk 2 Member 2000;
             Member.mk 3 Admin 3000] 1000)
  ∧ deleteTeam Sample2.db_team3 Sample.cat 10
    = (Fail 403 "Not authorized to delete this team", Sample2.db_team3)
  ∧ http_status
      (updateTeam Sample2.db_team3 Sample.cat 10
         (TeamBody.mk (Some "Core team") None)).1 ≠ 403.
Proof.
  split; [reflexivity|].
  destruct (deleteTeam_narrower_than_updateTeam Sample2.db_team3 Sample.cat
              10 (TeamBody.mk (Some "Core team") None) _ eq_refl)
    as (_ & _ & Hcat).
  apply Hcat; [reflexivity | vm_compute; congruence | vm_compute; congruence].
Defined.

(** X20. A [deleteTeam] by the owner or a global admin removes the team
    and pulls its id from the teams of every user document, members or
    not; the names, emails, passwords and roles of the users are as
    before. *)
Theorem deleteTeam_cascade db user id team :
  DB.teams db !! id = Some team →
  bool_decide (Team.owner team = Caller.id user) || negb (not_admin user)
    = true →
  (deleteTeam db user id).1 = Ok 200 "Team deleted successfully"
  ∧ DB.teams (deleteTeam db user id).2 !! id = None
  ∧ (∀ id', id' ≠ id →
       DB.teams (deleteTeam db user id).2 !! id' = DB.teams db !! id')
  ∧ ∀ uid,
      DB.users (deleteTeam db user id).2 !! uid
      = pull_team id <$> DB.users db !! uid
      ∧ ∀ u, DB.users (deleteTeam db user id).2 !! uid = Some u →
             id ∉ User.teams u.
Proof.
  intros Hid Hauth. unfold deleteTeam. rewrite Hid.
  assert (Ha : negb (bool_decide (Team.owner team = Caller.id user))
               && not_admin user = false).
  { by destruct (bool_decide _), (not_admin user). }
  rewrite Ha. simpl.
  split; [done|]. split; [apply lookup_delete_eq|].
  split; [by intros id' Hne; rewrite lookup_delete_ne|].
  intros uid. rewrite lookup_fmap. split; [done|].
  intros u. destruct (DB.users db !! uid) as [u0|]; [|done].
  simpl. intros [= <-]. apply not_elem_of_pull_team.
Qed.

Lemma deleteTeam_cascade_witness :
  DB.teams Sample.db_team2 !! 10%N
  = Some (Team.mk "Core" None 1
            [Member.mk 1 Owner 1000; Member.mk 2 Member 2000] 1000)
  ∧ User.teams <$> DB.users Sample.db_team2 !! 2%N = Some [10%N]
  ∧ (deleteTeam Sample.db_team2 Sample.ann 10).1
    = Ok 200 "Team deleted successfully"
  ∧ User.teams <$> DB.users (deleteTeam Sample.db_team2 Sample.ann 10).2 !! 2%N
    = Some [].
Proof.
  split; [reflexivity|]. split; [reflexivity|].
  destruct (deleteTeam_cascade Sample.db_team2 Sample.ann 10 _ eq_refl)
    as (Hok & _ & _ & Hus); [reflexivity|].
  split; [exact Hok|].
  rewrite (proj1 (Hus 2%N)). reflexivity.
Defined.

End teamDelete_claims.

(** * Further properties of the auth controller *)

Section authController_more_facts.

Lemma User_findOne_Some db email id user :
  User_findOne db email = Some (id, user) →
  DB.users db !! id = Some user ∧ User.email user = email.
Proof.
  unfold User_findOne. intros Hh.
  assert (Hin : (id, user)
                ∈ filter (λ d, User.email d.2 = email)
                    (map_to_list (DB.users db))).
  { destruct (filter _ _) as [|x l]; [done|].
    injection Hh as ->. apply list_elem_of_here. }
  apply list_elem_of_filter in Hin as [He Hin].
  by apply elem_of_map_to_list in Hin.
Qed.

Lemma User_findOne_is_Some db email id user :
  DB.users db !! id = Some user →
  User.email user = email →
  is_Some (User_findOne db email).
Proof.
  intros Hid He. unfold User_findOne.
  assert (Hin : (id, user)
                ∈ filter (λ d, User.email d.2 = email)
                    (map_to_list (DB.users db))).
  { apply list_elem_of_filter. split; [done|].
    by apply elem_of_map_to_list. }
  destruct (filter _ _) as [|x l]; [by apply elem_of_nil in Hin|].
  by eexists.
Qed.

End authController_more_facts.

Section authController_more_claims.
Context `{External} `{Models}.

(** X22. [login] never writes to the store, and it answers 200 only when
    the body has an email and a password, a stored user has that email and
    the password comparison of that user accepts the password; the answer
    then carries the id, name, email and role of that user and the token
    made for that id. *)
Theorem login_sound db body :
  (login db body).2 = db
  ∧ ∀ code d,
      (login db body).1 = Ok code d →
      code = 200
      ∧ ∃ email password user,
          LoginBody.email body = Some email
          ∧ LoginBody.password body = Some password
          ∧ DB.users db !! ld_id d = Some user
          ∧ User.email user = email
          ∧ comparePassword (User.password user) password = true
          ∧ ld_name d = User.name user
          ∧ ld_email d = email
          ∧ ld_role d = User.role user
          ∧ ld_token d = generateToken (ld_id d).
Proof.
  unfold login. split.
  - repeat (case_match; simpl; try done).
  - intros code d.
    destruct (LoginBody.email body) as [email|]; simpl; [|done].
    destruct (Js.truthy email); simpl; [|done].
    destruct (LoginBody.password body) as [password|]; simpl; [|done].
    destruct (Js.truthy password); simpl; [|done].
    destruct (User_findOne db email) as [[id user]|] eqn:Hf; [|done].
    destruct (comparePassword _ _) eqn:Hc; simpl; [|done].
    intros [= <- <-]. split; [done|].
    apply User_findOne_Some in Hf as [Hid He].
    exists email, password, user. simpl.
    split; [done|]. split; [done|]. split; [done|]. split; [done|].
    split; [done|]. split; [done|]. split; [done|]. split; reflexivity.
Qed.

(** X23. A [register] that succeeds stores the user under the id it
    answers and touches no other document; when the email it answers is
    the email that was asked for, a [register] with that email on the store
    that the first one leaves is refused with 400 ['User already exists
    with this email'] and writes nothing. *)
Theorem register_then_conflict db body now code d body' now' :
  (register db body now).1 = Ok code d →
  ld_email d = RegisterBody.email body →
  RegisterBody.email body' = RegisterBody.email body →
  code = 201
  ∧ ld_id d = DB.next_id db
  ∧ ld_token d = generateToken (ld_id d)
  ∧ User_findOne db (RegisterBody.email body) = None
  ∧ (∃ user, DB.users (register db body now).2 !! ld_id d = Some user
             ∧ User.email user = ld_email d
             ∧ User.name user = ld_name d
             ∧ User.role user = ld_role d)
  ∧ (∀ id, id ≠ ld_id d →
       DB.users (register db body now).2 !! id = DB.users db !! id)
  ∧ DB.teams (register db body now).2 = DB.teams db
  ∧ DB.tasks (register db body now).2 = DB.tasks db
  ∧ register (register db body now).2 body' now'
    = (Fail 400 "User already exists with this email",
       (register db body now).2).
Proof.
  intros Hok.
  assert (Hreg : ∃ user,
            User_findOne db (RegisterBody.email body) = None
            ∧ register db body now
              = (Ok 201 {| ld_id := DB.next_id db;
                           ld_name := User.name user;
                           ld_email := User.email user;
                           ld_role := User.role user;
                           ld_token := generateToken (DB.next_id db) |},
                 DB.set_users (<[DB.next_id db := user]> (DB.users db))
                              (DB.alloc db).2)).
  { revert Hok. unfold register.
    destruct (User_findOne db (RegisterBody.email body)); [done|].
    destruct (User_create _ _ _ _) as [e|user]; [done|].
    intros _. by exists user. }
  destruct Hreg as (user & Hf & Hreg). rewrite Hreg in Hok |- *.
  simpl in Hok. injection Hok as <- <-. simpl. intros He He'.
  rewrite lookup_insert_eq.
  split; [done|]. split; [done|]. split; [done|]. split; [done|].
  split; [by exists user|].
  split; [by intros id Hne; rewrite lookup_insert_ne|].
  split; [done|]. split; [done|].
  unfold register. rewrite He'.
  match goal with
  | |- context [User_findOne ?d ?e] =>
      destruct (User_findOne_is_Some d e (DB.next_id db) user) as [x Hx];
        [simpl; apply lookup_insert_eq | done | rewrite Hx]
  end.
  done.
Qed.

(** X24. [updatePassword] with a current password that the stored
    comparison rejects answers 401 ['Current password is incorrect'] and
    writes nothing; when it succeeds, the caller's user document is the one
    the model saved and no other document changes, and the answer is the
    token made for the caller. *)
Theorem updatePassword_guarded db user body now doc :
  DB.users db !! Caller.id user = Some doc →
  (comparePassword (User.password doc) (PasswordBody.currentPassword body)
   = false →
   updatePassword db user body now
   = (Fail 401 "Current password is incorrect", db))
  ∧ (success (updatePassword db user body now).1 = false →
     (updatePassword db user body now).2 = db)
  ∧ ∀ code token,
      (updatePassword db user body now).1 = Ok code token →
      code = 200
      ∧ token = generateToken (Caller.id user)
      ∧ comparePassword (User.password doc)
          (PasswordBody.currentPassword body) = true
      ∧ (∃ doc',
           User_set_password (PasswordBody.newPassword body) now doc
           = inr doc'
           ∧ DB.users (updatePassword db user body now).2 !! Caller.id user
             = Some doc')
      ∧ (∀ id, id ≠ Caller.id user →
           DB.users (updatePassword db user body now).2 !! id
           = DB.users db !! id)
      ∧ DB.teams (updatePassword db user body now).2 = DB.teams db
      ∧ DB.tasks (updatePassword db user body now).2 = DB.tasks db.
Proof.
  intros Hid. unfold updatePassword. rewrite Hid.
  destruct (comparePassword _ _) eqn:Hc; simpl.
  - split; [done|].
    destruct (User_set_password _ _ _) as [e|doc'] eqn:Hs; simpl.
    + split; done.
    + split; [done|]. intros code token [= <- <-].
      rewrite lookup_insert_eq. repeat split; try done.
      * by exists doc'.
      * intros id Hne. by rewrite lookup_insert_ne.
  - split; [done|]. split; done.
Qed.

End authController_more_claims.

Lemma login_sound_witness :
  let body := LoginBody.mk (Some "bob@example.com") (Some "pw-bob") in
  let d := Build_LoginData 2 "Bob" "bob@example.com" RoleUser "token" in
  (login (H := Sample.external) Sample.db0 body).1 = Ok 200 d
  ∧ ∃ user, DB.users Sample.db0 !! 2%N = Some user
            ∧ User.email user = "bob@example.com"
            ∧ comparePassword (External := Sample.external)
                (User.password user) "pw-bob" = true.
Proof.
  intros body d. split; [reflexivity|].
  destruct (login_sound (H := Sample.external) Sample.db0 body) as [_ Hs].
  destruct (Hs 200 d eq_refl)
    as (_ & email & password & user & He & Hp & Hid & Hem & Hc & _).
  injection He as <-. injection Hp as <-.
  exists user. split; [exact Hid|]. split; [exact Hem | exact Hc].
Defined.

Lemma register_then_conflict_witness :
  let body := RegisterBody.mk "Dan" "dan@example.com" "pw-dan" in
  let body' := RegisterBody.mk "Daniel" "dan@example.com" "other" in
  let d := Build_LoginData 10 "Dan" "dan@example.com" RoleUser "token" in
  (register (H := Sample.external) (H0 := Sample2.models) Sample.db0
     body 100).1 = Ok 201 d
  ∧ ld_email d = "dan@example.com"
  ∧ (register (H := Sample.external) (H0 := Sample2.models)
       (register (H := Sample.external) (H0 := Sample2.models)
          Sample.db0 body 100).2 body' 200).1
    = Fail 400 "User already exists with this email".
Proof.
  intros body body' d. split; [reflexivity|]. split; [reflexivity|].
  destruct (register_then_conflict (H := Sample.external)
              (H0 := Sample2.models) Sample.db0 body 100 201 d body' 200)
    as (_ & _ & _ & _ & _ & _ & _ & _ & Hagain);
    [reflexivity | reflexivity | reflexivity |].
  exact (f_equal fst Hagain).
Defined.

Lemma updatePassword_guarded_witness :
  DB.users Sample.db0 !! 1%N
  = Some (User.mk "Ann" "ann@example.com" "pw-ann" RoleUser [])
  ∧ updatePassword (H := Sample.external) (H0 := Sample2.models) Sample.db0
      Sample.ann (PasswordBody.mk "guess" "new-pw") 100
    = (Fail 401 "Current password is incorrect", Sample.db0).
Proof.
  split; [reflexivity|].
  destruct (updatePassword_guarded (H := Sample.external)
              (H0 := Sample2.models) Sample.db0 Sample.ann
              (PasswordBody.mk "guess" "new-pw") 100 _ eq_refl)
    as (Hwrong & _).
  apply Hwrong. reflexivity.
Defined.

(** * Properties of the comment controller *)

Section commentController_facts.

Lemma not_author_true comment user :
  not_author comment user = true ↔ Comment.author comment ≠ Caller.id user.
Proof.
  unfold not_author. rewrite negb_true_iff, bool_decide_eq_false. done.
Qed.

Lemma not_elem_of_pull_comment id t : id ∉ Task.comments (pull_comment id t).
Proof.
  unfold pull_comment. simpl. rewrite list_elem_of_filter. tauto.
Qed.

Lemma filter_ne_fresh (id : N) (l : list N) :
  id ∉ l → filter (λ c, c ≠ id) (l ++ [id])%list = l.
Proof.
  intros Hfresh. rewrite filter_app.
  rewrite filter_cons_False by (intros ?; done).
  rewrite filter_nil, app_nil_r.
  induction l as [|x l IH]; [done|].
  apply not_elem_of_cons in Hfresh as [Hne Hfresh].
  rewrite filter_cons_True by done. by rewrite IH.
Qed.

End commentController_facts.

Section commentController_claims.
Context `{Models}.


(** X26. For a stored comment, [updateComment] and [deleteComment] answer
    403 exactly when the caller is neither the author of the comment nor a
    global admin: the creator and the assignee of the task have no say over
    the comments of others. A request that is refused writes nothing. *)
Theorem comment_writes_by_author_or_admin db user id content comment :
  DB.comments db !! id = Some comment →
  (http_status (updateComment db user id content).1 = 403
   ↔ Comment.author comment ≠ Caller.id user ∧ Caller.role user ≠ RoleAdmin)
  ∧ (http_status (deleteComment db user id).1 = 403
     ↔ Comment.author comment ≠ Caller.id user
       ∧ Caller.role user ≠ RoleAdmin)
  ∧ (success (updateComment db user id content).1 = false →
     (updateComment db user id content).2 = db)
  ∧ (success (deleteComment db user id).1 = false →
     (deleteComment db user id).2 = db).
Proof.
  intros Hid. unfold updateComment, deleteComment. rewrite Hid.
  rewrite <- not_author_true, <- not_admin_true, <- andb_true_iff.
  destruct (not_author comment user && not_admin user); simpl.
  - repeat split; done.
  - destruct (Comment_set_content content comment); simpl;
      repeat split; done.
Qed.

(** X27. A [deleteComment] by the author or a global admin removes the
    comment and pulls its id from the comments of its task, when that task
    is stored; no save hook runs, so the task is otherwise the same, and
    the other tasks and comments are untouched. *)
Theorem deleteComment_pulls_reference db user id comment :
  DB.comments db !! id = Some comment →
  not_author comment user && not_admin user = false →
  (deleteComment db user id).1 = Ok 200 "Comment deleted successfully"
  ∧ DB.comments (deleteComment db user id).2 !! id = None
  ∧ (∀ id', id' ≠ id →
       DB.comments (deleteComment db user id).2 !! id'
       = DB.comments db !! id')
  ∧ DB.tasks (deleteComment db user id).2 !! Comment.task comment
    = pull_comment id <$> DB.tasks db !! Comment.task comment
  ∧ (∀ t, DB.tasks (deleteComment db user id).2 !! Comment.task comment
          = Some t →
          id ∉ Task.comments t)
  ∧ ∀ taskId, taskId ≠ Comment.task comment →
      DB.tasks (deleteComment db user id).2 !! taskId
      = DB.tasks db !! taskId.
Proof.
  intros Hid Hauth. unfold deleteComment. rewrite Hid, Hauth. simpl.
  split; [done|]. split; [apply lookup_delete_eq|].
  split; [by intros id' Hne; rewrite lookup_delete_ne|].
  rewrite lookup_alter_eq. split; [done|]. split.
  - intros t. destruct (DB.tasks db !! Comment.task comment); [|done].
    simpl. intros [= <-]. apply not_elem_of_pull_comment.
  - intros taskId Hne. by rewrite lookup_alter_ne.
Qed.

(** X28. When the model stores the task and the author it is given, the
    author can delete the comment just added, and the comments of the task are
    then the ones before the addition. *)
Theorem addComment_then_deleteComment db user taskId content now code d task :
  (addComment db user taskId content now).1 = Ok code d →
  Comment.task (pc_doc d) = taskId →
  Comment.author (pc_doc d) = Caller.id user →
  DB.tasks db !! taskId = Some task →
  DB.next_id db ∉ Task.comments task →
  (deleteComment (addComment db user taskId content now).2 user (pc_id d)).1
  = Ok 200 "Comment deleted successfully"
  ∧ DB.comments
      (deleteComment (addComment db user taskId content now).2 user
         (pc_id d)).2 !! pc_id d = None
  ∧ Task.comments
      <$> DB.tasks
            (deleteComment (addComment db user taskId content now).2 user
               (pc_id d)).2 !! taskId
    = Some (Task.comments task).
Proof.
  intros Hok Ht Ha Hid Hfresh. revert Hok Ht Ha.
  unfold addComment. rewrite Hid.
  destruct (Comment_create _ _ _ _) as [e|comment]; [done|].
  simpl. intros [= <- <-]. simpl. intros Ht Ha.
  unfold deleteComment. simpl. rewrite lookup_insert_eq.
  unfold not_author. rewrite Ha, bool_decide_eq_true_2 by done. simpl.
  split; [done|]. split; [apply lookup_delete_eq|].
  rewrite Ht, lookup_alter_eq, lookup_insert_eq. simpl.
  match goal with
  | |- context [Task.comments (Task_pre_save ?l ?n ?t)] =>
      destruct (Task_pre_save_fields l n t)
        as (_ & _ & _ & _ & _ & _ & _ & _ & _ & _ & Hcs & _);
      rewrite Hcs
  end.
  simpl. by rewrite filter_ne_fresh.
Qed.

End commentController_claims.


Lemma comment_writes_by_author_or_admin_witness :
  DB.comments Sample2.db_commented !! 11%N
  = Some (Comment.mk "Draft attached" 10 2 1500 1500)
  ∧ http_status
      (deleteComment Sample2.db_commented Sample.ann 11).1 = 403
  ∧ http_status
      (updateComment (H := Sample2.models) Sample2.db_commented Sample.ann 11
         (Some "edited")).1 = 403.
Proof.
  split; [reflexivity|].
  destruct (comment_writes_by_author_or_admin (H := Sample2.models)
              Sample2.db_commented Sample.ann 11 (Some "edited") _ eq_refl)
    as (Hu & Hd & _).
  split.
  - apply Hd. split; vm_compute; congruence.
  - apply Hu. split; vm_compute; congruence.
Defined.

Lemma deleteComment_pulls_reference_witness :
  DB.comments Sample2.db_commented !! 11%N
  = Some (Comment.mk "Draft attached" 10 2 1500 1500)
  ∧ Task.comments <$> DB.tasks Sample2.db_commented !! 10%N = Some [11%N]
  ∧ (deleteComment Sample2.db_commented Sample.root 11).1
    = Ok 200 "Comment deleted successfully"
  ∧ Task.comments
      <$> DB.tasks (deleteComment Sample2.db_commented Sample.root 11).2
            !! 10%N
    = Some [].
Proof.
  split; [reflexivity|]. split; [reflexivity|].
  destruct (deleteComment_pulls_reference Sample2.db_commented Sample.root 11
              _ eq_refl)
    as (Hok & _ & _ & Hpull & _); [reflexivity|].
  split; [exact Hok|].
  simpl in Hpull. rewrite Hpull. reflexivity.
Defined.

Lemma addComment_then_deleteComment_witness :
  let task :=
    Task.mk "Write report" None Open Medium None 1 (Some 2%N) None [] [] []
            1000 1000 None in
  let d :=
    Build_PopulatedComment 11
      (Comment.mk "Draft attached" 10 2 1500 1500)
      (Some (Build_UserRef 2 "Bob" "bob@example.com")) in
  DB.tasks Sample.db_task !! 10%N = Some task
  ∧ (DB.next_id Sample.db_task ∉ Task.comments task)
  ∧ Task.comments
      <$> DB.tasks
            (deleteComment
               (addComment (H := Sample2.models) Sample.db_task Sample.bob 10
                  (Some "Draft attached") 1500).2
               Sample.bob 11).2 !! 10%N
    = Some [].
Proof.
  intros task d.
  assert (Hfresh : DB.next_id Sample.db_task ∉ Task.comments task)
    by apply not_elem_of_nil.
  split; [reflexivity|]. split; [exact Hfresh|].
  destruct (addComment_then_deleteComment (H := Sample2.models)
              Sample.db_task Sample.bob 10 (Some "Draft attached") 1500 201
              d task)
    as (_ & _ & Hback);
    [reflexivity | reflexivity | reflexivity | reflexivity | exact Hfresh |].
  exact Hback.
Defined.

(** * Properties of the attachment controller *)

Section attachmentController_facts.

Lemma not_uploader_true a user :
  not_uploader a user = true ↔ Attachment.uploadedBy a ≠ Caller.id user.
Proof.
  unfold not_uploader. rewrite negb_true_iff, bool_decide_eq_false. done.
Qed.

Lemma not_elem_of_pull_attachment id t :
  id ∉ Task.attachments (pull_attachment id t).
Proof.
  unfold pull_attachment. simpl. rewrite list_elem_of_filter. tauto.
Qed.

End attachmentController_facts.

Section attachmentController_claims.
Context `{Host}.

(** X29. An upload needs a stored task and a file, in this order: without
    the task the answer is 404 also when there is no file, and with the
    task and without a file it is 400 ['Please upload a file']. An
    attachment that [uploadAttachment] creates is stored under the id it
    answers and that id is appended to the attachments of the task, whose
    [updatedAt] becomes the clock reading and which is otherwise as
    before. *)
Theorem uploadAttachment_appends_reference db user taskId file now :
  (DB.tasks db !! taskId = None →
   uploadAttachment db user taskId file now = (Fail 404 "Task not found", db))
  ∧ (is_Some (DB.tasks db !! taskId) →
     uploadAttachment db user taskId None now
     = (Fail 400 "Please upload a file", db))
  ∧ ∀ code d,
      (uploadAttachment db user taskId file now).1 = Ok code d →
      code = 201
      ∧ pa_id d = DB.next_id db
      ∧ (∃ f, file = Some f
              ∧ Attachment_create f taskId (Caller.id user) now
                = inr (pa_doc d))
      ∧ DB.attachments (uploadAttachment db user taskId file now).2
          !! pa_id d
        = Some (pa_doc d)
      ∧ ∃ task,
          DB.tasks db !! taskId = Some task
          ∧ DB.tasks (uploadAttachment db user taskId file now).2 !! taskId
            = Some (Task.mk (Task.title task) (Task.description task)
                      (Task.status task) (Task.priority task)
                      (Task.dueDate task) (Task.createdBy task)
                      (Task.assignedTo task) (Task.team task)
                      (Task.tags task)
                      (Task.attachments task ++ [pa_id d])%list
                      (Task.comments task) (Task.createdAt task) now
                      (Task.completedAt task)).
Proof.
  unfold uploadAttachment. split; [by intros ->|].
  split; [by intros [task ->]|].
  intros code d.
  destruct (DB.tasks db !! taskId) as [task|] eqn:Hid; [|done].
  destruct file as [f|]; [|done].
  destruct (Attachment_create _ _ _ _) as [e|a] eqn:Hc; [done|].
  simpl. intros [= <- <-]. simpl. rewrite !lookup_insert_eq.
  split; [done|]. split; [done|]. split; [by exists f|]. split; [done|].
  exists task. split; [done|]. f_equal.
  unfold Task_pre_save, isModified_status. simpl.
  by rewrite bool_decide_eq_true_2.
Qed.

(** X30. For a stored attachment, [deleteAttachment] answers 403 and
    writes nothing exactly when the caller is neither the uploader nor a
    global admin. Otherwise it succeeds whether or not the file is still
    there: the document is removed, its id is pulled from the attachments
    of its task, the path of the file is gone and no other path is, and
    a download of the attachment then answers 404 ['Attachment not
    found']. *)
Theorem deleteAttachment_unlinks db files user id a :
  DB.attachments db !! id = Some a →
  (http_status (deleteAttachment db files user id).1 = 403
   ↔ Attachment.uploadedBy a ≠ Caller.id user ∧ Caller.role user ≠ RoleAdmin)
  ∧ (success (deleteAttachment db files user id).1 = false →
     (deleteAttachment db files user id).2 = (db, files))
  ∧ (not_uploader a user && not_admin user = false →
     (deleteAttachment db files user id).1
     = Ok 200 "Attachment deleted successfully"
     ∧ DB.attachments (deleteAttachment db files user id).2.1 !! id = None
     ∧ DB.tasks (deleteAttachment db files user id).2.1 !! Attachment.task a
       = pull_attachment id <$> DB.tasks db !! Attachment.task a
     ∧ (∀ p, p ∈ (deleteAttachment db files user id).2.2
             ↔ p ∈ files ∧ p ≠ Attachment.path a)
     ∧ ∀ user',
         downloadAttachment (deleteAttachment db files user id).2.1
           (deleteAttachment db files user id).2.2 user' id
         = Fail 404 "Attachment not found").
Proof.
  intros Hid. unfold deleteAttachment. rewrite Hid.
  rewrite <- not_uploader_true, <- not_admin_true, <- andb_true_iff.
  destruct (not_uploader a user && not_admin user); simpl.
  - repeat split; done.
  - split; [done|]. split; [done|]. intros _.
    split; [done|]. split; [apply lookup_delete_eq|].
    split; [by rewrite lookup_alter_eq|].
    split; [intros p; set_solver|].
    intros user'. unfold downloadAttachment. simpl.
    by rewrite lookup_delete_eq.
Qed.

(** [downloadAttachment] does not look at the caller. It sends the
    file exactly when the attachment is stored and its path is on the
    disk, with the stored MIME type and the original name in the headers;
    a stored attachment whose file is gone is a 404 ['File not found on
    server']. *)
Theorem downloadAttachment_needs_document_and_file db files user id :
  (∀ user', downloadAttachment db files user' id
            = downloadAttachment db files user id)
  ∧ (success (downloadAttachment db files user id) = true
     ↔ ∃ a, DB.attachments db !! id = Some a ∧ Attachment.path a ∈ files)
  ∧ (∀ a, DB.attachments db !! id = Some a →
          Attachment.path a ∉ files →
          downloadAttachment db files user id
          = Fail 404 "File not found on server")
  ∧ ∀ code out,
      downloadAttachment db files user id = Ok code out →
      ∃ a, DB.attachments db !! id = Some a
           ∧ content_type out = Attachment.mimetype a
           ∧ sent_file out = path_resolve (Attachment.path a).
Proof.
  unfold downloadAttachment. split; [done|].
  destruct (DB.attachments db !! id) as [a|] eqn:Hid.
  - destruct (decide (Attachment.path a ∈ files)) as [Hin|Hout].
    + rewrite bool_decide_eq_true_2 by done. simpl.
      split; [split; [by exists a | done]|].
      split; [by intros ? [= <-] ?|].
      intros code out [= <- <-]. by exists a.
    + rewrite bool_decide_eq_false_2 by done. simpl.
      split; [split; [done | by intros (? & [= <-] & ?)]|].
      split; [done|]. done.
  - simpl. split; [split; [done | by intros (? & ? & ?)]|].
    split; done.
Qed.

End attachmentController_claims.

Lemma deleteAttachment_unlinks_witness :
  let a :=
    Attachment.mk "f-1.pdf" "draft.pdf" "application/pdf" 2048
                  "uploads/f-1.pdf" 10 3 1600 in
  DB.attachments Sample2.db_attached !! 11%N = Some a
  ∧ not_uploader a Sample.cat && not_admin Sample.cat = false
  ∧ (deleteAttachment Sample2.db_attached
       {[ "uploads/f-1.pdf"; "uploads/f-2.png" ]} Sample.cat 11).1
    = Ok 200 "Attachment deleted successfully"
  ∧ downloadAttachment (H := Sample2.host)
      (deleteAttachment Sample2.db_attached
         {[ "uploads/f-1.pdf"; "uploads/f-2.png" ]} Sample.cat 11).2.1
      (deleteAttachment Sample2.db_attached
         {[ "uploads/f-1.pdf"; "uploads/f-2.png" ]} Sample.cat 11).2.2
      Sample.ann 11
    = Fail 404 "Attachment not found".
Proof.
  intros a. split; [reflexivity|]. split; [reflexivity|].
  destruct (deleteAttachment_unlinks (H := Sample2.host) Sample2.db_attached
              {[ "uploads/f-1.pdf"; "uploads/f-2.png" ]} Sample.cat 11 a
              eq_refl)
    as (_ & _ & Hdel).
  destruct Hdel as (Hok & _ & _ & _ & Hdown); [reflexivity|].
  split; [exact Hok | exact (Hdown Sample.ann)].
Defined.

Lemma uploadAttachment_appends_reference_witness :
  let a :=
    Attachment.mk "f-1.pdf" "draft.pdf" "application/pdf" 2048
                  "uploads/f-1.pdf" 10 3 1600 in
  let d :=
    Build_PopulatedAttachment 11 a
      (Some (Build_UserRef 3 "Cat" "cat@example.com")) in
  (uploadAttachment (H := Sample2.host) Sample.db_task Sample.cat 10
     (Some Sample2.draft) 1600).1 = Ok 201 d
  ∧ DB.tasks
      (uploadAttachment (H := Sample2.host) Sample.db_task Sample.cat 10
         (Some Sample2.draft) 1600).2 !! 10%N
    = Some (Task.mk "Write report" None Open Medium None 1 (Some 2%N) None
              [] [11%N] [] 1000 1600 None)
  ∧ uploadAttachment (H := Sample2.host) Sample.db_task Sample.cat 10 None
      1600
    = (Fail 400 "Please upload a file", Sample.db_task).
Proof.
  intros a d. split; [reflexivity|].
  destruct (uploadAttachment_appends_reference (H := Sample2.host)
              Sample.db_task Sample.cat 10 (Some Sample2.draft) 1600)
    as (_ & _ & Hup).
  destruct (Hup 201 d eq_refl) as (_ & _ & _ & _ & task & Hid & Htask).
  vm_compute in Hid. injection Hid as <-.
  split; [exact Htask | reflexivity].
Defined.
